(** * Code Smells Detector: request/response core

    A shallow embedding of the orchestration core of the application
    ([src/js/api.js], [src/js/state.js], [src/js/ui.js], [src/js/app.js])
    and the properties of its specification.

    JavaScript strings are sequences of UTF-16 code units; they are modelled
    as lists of [N].  Values produced by [JSON.parse] are modelled by an
    inductive type; an asynchronous handler is split at its single [await]
    of the network into the part that runs when the event is delivered and
    the part that runs when the request settles. *)

From Stdlib Require Import NArith List String Ascii Bool Arith Lia.
Import ListNotations.

Local Open Scope N_scope.
Local Set Warnings "-register-all".

(* ================================================================== *)
(** * JavaScript strings *)
(* ================================================================== *)

Module Str.

(** A JavaScript string: its UTF-16 code units. *)
Definition jsstring := list N.

(** The string written with the characters of [s] (one code unit each). *)
Fixpoint u (s : string) : jsstring :=
  match s with
  | EmptyString => []
  | String c s' => N_of_ascii c :: u s'
  end.

(** The text of [s] between double quotes. *)
Definition quoted (s : string) : jsstring := 34 :: u s ++ [34].

Fixpoint eqb (a b : jsstring) : bool :=
  match a, b with
  | [], [] => true
  | x :: a', y :: b' => N.eqb x y && eqb a' b'
  | _, _ => false
  end.

(** [\s] of a regular expression and the characters removed by
    [String.prototype.trim]: WhiteSpace and LineTerminator of ECMAScript. *)
Definition isWhiteSpace (c : N) : bool :=
  ((9 <=? c) && (c <=? 13))
  || (c =? 32) || (c =? 160) || (c =? 5760)
  || ((8192 <=? c) && (c <=? 8202))
  || (c =? 8232) || (c =? 8233) || (c =? 8239) || (c =? 8287)
  || (c =? 12288) || (c =? 65279).

Fixpoint trimStart (s : jsstring) : jsstring :=
  match s with
  | c :: s' => if isWhiteSpace c then trimStart s' else s
  | [] => []
  end.

Definition trimEnd (s : jsstring) : jsstring := rev (trimStart (rev s)).

Definition trim (s : jsstring) : jsstring := trimEnd (trimStart s).

(** [startsWith p s] gives the rest of [s] after the prefix [p]. *)
Fixpoint stripPrefix (eq : N -> N -> bool) (p s : jsstring) : option jsstring :=
  match p, s with
  | [], _ => Some s
  | x :: p', y :: s' => if eq x y then stripPrefix eq p' s' else None
  | _ :: _, [] => None
  end.

(** Lower case of a code unit, for the letters A to Z.  The source only
    compares lower-cased text with the words [critical] and [major], and
    whether a text in lower case is one of these words depends on no other
    code unit. *)
Definition lowerUnit (c : N) : N :=
  if (65 <=? c) && (c <=? 90) then c + 32 else c.

Definition toLowerCase (s : jsstring) : jsstring := map lowerUnit s.

(** Matching under the flag [i] of a regular expression (without the flag
    [u]) against a pattern character [p] that is one of the letters of
    [json]: only the letter and its capital match. *)
Definition eqIgnoreCase (p c : N) : bool := N.eqb p (lowerUnit c).

(** Decimal digits of a natural number, as [String(n)] prints an integer. *)
Fixpoint digitsFuel (fuel : nat) (n : N) (acc : jsstring) : jsstring :=
  match fuel with
  | O => acc
  | S fuel' =>
      let acc' := (48 + n mod 10) :: acc in
      if n / 10 =? 0 then acc' else digitsFuel fuel' (n / 10) acc'
  end.

Definition decimal (n : N) : jsstring := digitsFuel (S (N.to_nat (N.log2 n))) n [].

(** A canonical array index: ["0"], or digits without a leading zero. *)
Fixpoint digitsValue (s : jsstring) (acc : N) : option N :=
  match s with
  | [] => Some acc
  | c :: s' =>
      if (48 <=? c) && (c <=? 57) then digitsValue s' (10 * acc + (c - 48))
      else None
  end.

Definition arrayIndex (k : jsstring) : option N :=
  match k with
  | [] => None
  | [48] => Some 0
  | 48 :: _ => None
  | _ => digitsValue k 0
  end.

End Str.

Import Str.

(* ================================================================== *)
(** * JavaScript values and errors *)
(* ================================================================== *)

Module JS.

(** The values the core handles: what [JSON.parse] returns, [undefined], and
    an array that was given named properties.  A number keeps the text it
    was written with: the source looks only at its type. *)
Inductive JSValue : Type :=
| JUndefined
| JNull
| JBool (b : bool)
| JNumber (lexeme : jsstring)
| JString (s : jsstring)
| JArray (elems : list JSValue) (named : list (jsstring * JSValue))
| JObject (props : list (jsstring * JSValue)).

(** The text of [err.message]: the text the source gave to [new Error], or
    the text the engine gives to a [TypeError] it raised. *)
Inductive Message : Type :=
| Text (s : jsstring)
| EngineText.

Inductive JSError : Type :=
| Error (message : jsstring)
| TypeError.

Definition message (e : JSError) : Message :=
  match e with
  | Error m => Text m
  | TypeError => EngineText
  end.

(** The result of running a piece of code that may throw. *)
Inductive outcome (A : Type) : Type :=
| Returns (a : A)
| Throws (e : JSError).
Arguments Returns {A} a.
Arguments Throws {A} e.

Definition bind {A B} (m : outcome A) (f : A -> outcome B) : outcome B :=
  match m with
  | Returns a => f a
  | Throws e => Throws e
  end.

Declare Scope js_scope.
Delimit Scope js_scope with js.
Notation "x <- m ;; k" := (bind m (fun x => k))
  (at level 61, m at next level, right associativity) : js_scope.

Fixpoint lookup (k : jsstring) (ps : list (jsstring * JSValue)) : option JSValue :=
  match ps with
  | [] => None
  | (k', v) :: ps' => if Str.eqb k k' then Some v else lookup k ps'
  end.

(** Writing a property keeps the position of a key that exists and adds a
    new key at the end. *)
Fixpoint assign (k : jsstring) (v : JSValue) (ps : list (jsstring * JSValue))
  : list (jsstring * JSValue) :=
  match ps with
  | [] => [(k, v)]
  | (k', v') :: ps' =>
      if Str.eqb k k' then (k, v) :: ps' else (k', v') :: assign k v ps'
  end.

Definition orUndefined (o : option JSValue) : JSValue :=
  match o with
  | Some v => v
  | None => JUndefined
  end.

(** [v[k]] for a value that is neither [null] nor [undefined].  Properties
    inherited from the built-in prototypes (methods) are not values of
    [JSValue]; none of them has a name the source reads. *)
Definition member (v : JSValue) (k : jsstring) : JSValue :=
  match v with
  | JObject ps => orUndefined (lookup k ps)
  | JArray es named =>
      match arrayIndex k with
      | Some i => nth (N.to_nat i) es JUndefined
      | None =>
          if Str.eqb k (u "length") then JNumber (decimal (N.of_nat (List.length es)))
          else orUndefined (lookup k named)
      end
  | JString s =>
      match arrayIndex k with
      | Some i =>
          match nth_error s (N.to_nat i) with
          | Some c => JString [c]
          | None => JUndefined
          end
      | None =>
          if Str.eqb k (u "length") then JNumber (decimal (N.of_nat (List.length s)))
          else JUndefined
      end
  | _ => JUndefined
  end.

Definition isNullish (v : JSValue) : bool :=
  match v with
  | JUndefined | JNull => true
  | _ => false
  end.

(** [v.k]: reading a property of [null] or [undefined] throws. *)
Definition get (v : JSValue) (k : jsstring) : outcome JSValue :=
  if isNullish v then Throws TypeError else Returns (member v k).

(** [v?.k1?.k2 ... ?.kn]: the chain stops with [undefined] at the first
    [null] or [undefined]. *)
Fixpoint optionalChain (v : JSValue) (ks : list jsstring) : JSValue :=
  match ks with
  | [] => v
  | k :: ks' => if isNullish v then JUndefined else optionalChain (member v k) ks'
  end.

(** [a ?? b]. *)
Definition coalesce (a b : JSValue) : JSValue := if isNullish a then b else a.

Definition isArray (v : JSValue) : bool :=
  match v with
  | JArray _ _ => true
  | _ => false
  end.

Definition isString (v : JSValue) : bool :=
  match v with
  | JString _ => true
  | _ => false
  end.

(** The values that hold properties of their own: objects and arrays. *)
Definition isObject (v : JSValue) : bool :=
  match v with
  | JObject _ | JArray _ _ => true
  | _ => false
  end.

(** The three properties the source assigns on the parsed result. *)
Inductive Field : Type := smells | summary | refactored_code.

Definition Field_eqb (f g : Field) : bool :=
  match f, g with
  | smells, smells | summary, summary | refactored_code, refactored_code => true
  | _, _ => false
  end.

Definition fieldName (f : Field) : jsstring :=
  match f with
  | smells => u "smells"
  | summary => u "summary"
  | refactored_code => u "refactored_code"
  end.

(** [v.f = x] in strict code (a module): on an object or an array the
    property is written; on [null] and [undefined], and on a primitive
    value, which cannot hold the property, a [TypeError] is thrown.  The
    value after the assignment is returned. *)
Definition set (v : JSValue) (f : Field) (x : JSValue) : outcome JSValue :=
  match v with
  | JObject ps => Returns (JObject (assign (fieldName f) x ps))
  | JArray es named => Returns (JArray es (assign (fieldName f) x named))
  | _ => Throws TypeError
  end.

End JS.

Import JS.

(* ================================================================== *)
(** * [JSON.parse] *)
(* ================================================================== *)

Module JSON.

Inductive token : Type :=
| TLBrace | TRBrace | TLBracket | TRBracket | TColon | TComma
| TString (s : jsstring)
| TNumber (lexeme : jsstring)
| TTrue | TFalse | TNull.

(** Where the scanner is inside a number: an optional minus sign, then a
    zero or digits that do not start with a zero, then optionally a point
    with digits, then optionally an exponent with its sign and digits. *)
Inductive numState : Type :=
| NMinus | NZero | NInt | NDot | NFrac | NExp | NExpSign | NExpDigits.

Definition numAccepting (n : numState) : bool :=
  match n with
  | NZero | NInt | NFrac | NExpDigits => true
  | _ => false
  end.

Definition isDigit (c : N) : bool := (48 <=? c) && (c <=? 57).

Definition numStep (n : numState) (c : N) : option numState :=
  match n with
  | NMinus => if c =? 48 then Some NZero else if isDigit c then Some NInt else None
  | NZero =>
      if c =? 46 then Some NDot
      else if (c =? 101) || (c =? 69) then Some NExp else None
  | NInt =>
      if isDigit c then Some NInt
      else if c =? 46 then Some NDot
      else if (c =? 101) || (c =? 69) then Some NExp else None
  | NDot => if isDigit c then Some NFrac else None
  | NFrac =>
      if isDigit c then Some NFrac
      else if (c =? 101) || (c =? 69) then Some NExp else None
  | NExp =>
      if (c =? 43) || (c =? 45) then Some NExpSign
      else if isDigit c then Some NExpDigits else None
  | NExpSign => if isDigit c then Some NExpDigits else None
  | NExpDigits => if isDigit c then Some NExpDigits else None
  end.

Definition hexValue (c : N) : option N :=
  if isDigit c then Some (c - 48)
  else if (97 <=? c) && (c <=? 102) then Some (c - 87)
  else if (65 <=? c) && (c <=? 70) then Some (c - 55)
  else None.

(** The scanner reads one code unit at a time.  Text gathered so far is kept
    in reverse. *)
Inductive scan : Type :=
| SStart
| SStr (acc : jsstring)
| SEsc (acc : jsstring)
| SHex (acc : jsstring) (more : nat) (value : N)
| SNum (n : numState) (acc : jsstring)
| SWord (rest : jsstring) (t : token).

(** A code unit met between tokens. *)
Definition scanStart (c : N) : option (scan * list token) :=
  if (c =? 9) || (c =? 10) || (c =? 13) || (c =? 32) then Some (SStart, [])
  else if c =? 123 then Some (SStart, [TLBrace])
  else if c =? 125 then Some (SStart, [TRBrace])
  else if c =? 91 then Some (SStart, [TLBracket])
  else if c =? 93 then Some (SStart, [TRBracket])
  else if c =? 58 then Some (SStart, [TColon])
  else if c =? 44 then Some (SStart, [TComma])
  else if c =? 34 then Some (SStr [], [])
  else if c =? 45 then Some (SNum NMinus [c], [])
  else if c =? 48 then Some (SNum NZero [c], [])
  else if isDigit c then Some (SNum NInt [c], [])
  else if c =? 116 then Some (SWord (u "rue") TTrue, [])
  else if c =? 102 then Some (SWord (u "alse") TFalse, [])
  else if c =? 110 then Some (SWord (u "ull") TNull, [])
  else None.

Definition unescape (c : N) : option N :=
  if c =? 34 then Some 34
  else if c =? 92 then Some 92
  else if c =? 47 then Some 47
  else if c =? 98 then Some 8
  else if c =? 102 then Some 12
  else if c =? 110 then Some 10
  else if c =? 114 then Some 13
  else if c =? 116 then Some 9
  else None.

Definition scanStep (st : scan) (c : N) : option (scan * list token) :=
  match st with
  | SStart => scanStart c
  | SStr acc =>
      if c =? 34 then Some (SStart, [TString (rev acc)])
      else if c =? 92 then Some (SEsc acc, [])
      else if c <? 32 then None
      else Some (SStr (c :: acc), [])
  | SEsc acc =>
      if c =? 117 then Some (SHex acc 4 0, [])
      else match unescape c with
           | Some d => Some (SStr (d :: acc), [])
           | None => None
           end
  | SHex acc more value =>
      match hexValue c with
      | None => None
      | Some h =>
          let value' := 16 * value + h in
          match more with
          | 1%nat | O => Some (SStr (value' :: acc), [])
          | S more' => Some (SHex acc more' value', [])
          end
      end
  | SNum n acc =>
      match numStep n c with
      | Some n' => Some (SNum n' (c :: acc), [])
      | None =>
          if numAccepting n then
            match scanStart c with
            | Some (st', ts) => Some (st', TNumber (rev acc) :: ts)
            | None => None
            end
          else None
      end
  | SWord rest t =>
      match rest with
      | [] => None
      | [x] => if c =? x then Some (SStart, [t]) else None
      | x :: rest' => if c =? x then Some (SWord rest' t, []) else None
      end
  end.

Fixpoint scanFrom (st : scan) (s : jsstring) : option (list token) :=
  match s with
  | [] =>
      match st with
      | SStart => Some []
      | SNum n acc => if numAccepting n then Some [TNumber (rev acc)] else None
      | _ => None
      end
  | c :: s' =>
      match scanStep st c with
      | None => None
      | Some (st', ts) =>
          match scanFrom st' s' with
          | None => None
          | Some ts' => Some (ts ++ ts')
          end
      end
  end.

Definition tokens (s : jsstring) : option (list token) := scanFrom SStart s.

(** An array or an object that is still open, with what it holds so far
    (in reverse for an array). *)
Inductive frame : Type :=
| FArray (acc : list JSValue)
| FObject (acc : list (jsstring * JSValue)) (key : jsstring).

(** What the parser expects next. *)
Inductive expect : Type :=
| EValue (stack : list frame) (mayClose : bool)
| EKey (stack : list frame) (acc : list (jsstring * JSValue)) (mayClose : bool)
| EColon (stack : list frame) (acc : list (jsstring * JSValue)) (key : jsstring)
| EAfter (stack : list frame) (v : JSValue).

Definition scalar (t : token) : option JSValue :=
  match t with
  | TString s => Some (JString s)
  | TNumber l => Some (JNumber l)
  | TTrue => Some (JBool true)
  | TFalse => Some (JBool false)
  | TNull => Some JNull
  | _ => None
  end.

Definition parseStep (e : expect) (t : token) : option expect :=
  match e with
  | EValue stack mayClose =>
      match t with
      | TLBracket => Some (EValue (FArray [] :: stack) true)
      | TLBrace => Some (EKey stack [] true)
      | TRBracket =>
          match mayClose, stack with
          | true, FArray [] :: stack' => Some (EAfter stack' (JArray [] []))
          | _, _ => None
          end
      | _ =>
          match scalar t with
          | Some v => Some (EAfter stack v)
          | None => None
          end
      end
  | EKey stack acc mayClose =>
      match t with
      | TString k => Some (EColon stack acc k)
      | TRBrace => if mayClose then Some (EAfter stack (JObject acc)) else None
      | _ => None
      end
  | EColon stack acc k =>
      match t with
      | TColon => Some (EValue (FObject acc k :: stack) false)
      | _ => None
      end
  | EAfter stack v =>
      match stack, t with
      | FArray acc :: stack', TComma => Some (EValue (FArray (v :: acc) :: stack') false)
      | FArray acc :: stack', TRBracket => Some (EAfter stack' (JArray (rev (v :: acc)) []))
      | FObject acc k :: stack', TComma => Some (EKey stack' (assign k v acc) false)
      | FObject acc k :: stack', TRBrace => Some (EAfter stack' (JObject (assign k v acc)))
      | _, _ => None
      end
  end.

Fixpoint parseFrom (e : expect) (ts : list token) : option JSValue :=
  match ts with
  | [] =>
      match e with
      | EAfter [] v => Some v
      | _ => None
      end
  | t :: ts' =>
      match parseStep e t with
      | Some e' => parseFrom e' ts'
      | None => None
      end
  end.

(** [JSON.parse text]: [None] when it throws a [SyntaxError]. *)
Definition parse (text : jsstring) : option JSValue :=
  match tokens text with
  | Some ts => parseFrom (EValue [] false) ts
  | None => None
  end.

End JSON.

(* ================================================================== *)
(** * [prompt.js] *)
(* ================================================================== *)

Module Prompt.

(** A prompt is a fixed template with values substituted in it; it is kept
    as the values substituted.  ([buildFollowUpPrompt] substitutes
    [JSON.stringify (analysisResult, null, 2)], whose text for a number is
    not a function of the text the number was written with.) *)
Inductive Prompt : Type :=
| AnalysisPrompt (langDisplay langFence code : jsstring)
| FollowUpPrompt (analysisResult : JSValue) (originalCode question : jsstring).

Definition namesLanguage (language : jsstring) : bool :=
  negb (Str.eqb language [])
  && negb (Str.eqb language (u "auto"))
  && negb (Str.eqb language (u "other")).

Definition buildAnalysisPrompt (code language : jsstring) : Prompt :=
  let langDisplay := if namesLanguage language then language else u "the following" in
  let langFence := if namesLanguage language then language else [] in
  AnalysisPrompt langDisplay langFence code.

Definition buildFollowUpPrompt (question originalCode : jsstring)
    (analysisResult : JSValue) : Prompt :=
  FollowUpPrompt analysisResult originalCode question.

End Prompt.

(* ================================================================== *)
(** * [api.js] *)
(* ================================================================== *)

Module Api.

Import Prompt.
Local Open Scope js_scope.

Definition GEMINI_ENDPOINT : jsstring :=
  u "https://generativelanguage.googleapis.com/v1beta/models/gemini-2.5-flash-lite:generateContent".

Definition REQUEST_TIMEOUT_MS : N := 30000.

(** The object serialised into the body of the request:
    [{ contents: [{ parts: [{ text: prompt }] }] }], with
    [generationConfig: { response_mime_type }] when it was added. *)
Record RequestBody : Type := {
  contents_text : Prompt;
  response_mime_type : option jsstring
}.

(** The two arguments of [fetch]. *)
Record Request : Type := {
  url : jsstring;
  method : jsstring;
  headers : list (jsstring * jsstring);
  body : RequestBody;
  timeout : N
}.

(** How the promise of [fetch] settles: rejected with an error of some
    [name], or fulfilled with a response, of which the source reads the
    status and the body as parsed by [response.json ()].  The body of a
    [Response] is read to its end: [json] is [None] when it is not JSON.
    [Interrupted status name] is a response whose status has arrived and
    whose body cannot be read to its end: [response.json ()] rejects with
    an error called [name], [TimeoutError] or [AbortError] when the signal
    of the request aborts meanwhile, [TypeError] when the connection is
    lost. *)
Inductive Fetched : Type :=
| Rejected (name : jsstring)
| Response (status : N) (json : option JSValue)
| Interrupted (status : N) (name : jsstring).

(** [response.status], when there is a response. *)
Definition statusOf (fetched : Fetched) : option N :=
  match fetched with
  | Rejected _ => None
  | Response status _ => Some status
  | Interrupted status _ => Some status
  end.

(** [response.ok]. *)
Definition ok (status : N) : bool := (200 <=? status) && (status <=? 299).

Definition msgTimeout : jsstring := u "Request timed out. Please try again.".
Definition msgNetwork : jsstring := u "Network error. Please check your connection.".
Definition msgBadKey : jsstring := u "Invalid or missing API key.".
Definition msgUnauthorised : jsstring :=
  u "API key is unauthorised. Check that your key is valid and active.".
Definition msgRateLimit : jsstring :=
  u "API rate limit exceeded. Please wait a moment and try again.".
Definition msgHttp (status : N) : jsstring :=
  u "Gemini API error (HTTP " ++ decimal status ++ u "). Please try again.".
Definition msgMalformed : jsstring := u "Malformed response from Gemini.".
(** The dash of this message is U+2014. *)
Definition msgNoContent : jsstring :=
  u "Malformed response from Gemini " ++ [8212] ++ u " no content returned.".
Definition msgUnparsable : jsstring :=
  u "Malformed response from Gemini. Could not parse the analysis result.".

Definition fetchRequest (prompt : Prompt) (apiKey : jsstring) (forceJson : bool)
  : Request :=
  let requestBody := {| contents_text := prompt; response_mime_type := None |} in
  let requestBody :=
    if forceJson then
      {| contents_text := contents_text requestBody;
         response_mime_type := Some (u "application/json") |}
    else requestBody in
  {| url := GEMINI_ENDPOINT;
     method := u "POST";
     headers := [(u "Content-Type", u "application/json");
                 (u "x-goog-api-key", apiKey)];
     body := requestBody;
     timeout := REQUEST_TIMEOUT_MS |}.

(** [data?.candidates?.[0]?.content?.parts?.[0]?.text] *)
Definition textOf (data : JSValue) : JSValue :=
  optionalChain data
    [u "candidates"; u "0"; u "content"; u "parts"; u "0"; u "text"].

(** [callGemini], with the network as the function [fetch]. *)
Definition callGemini (fetch : Request -> Fetched)
    (prompt : Prompt) (apiKey : jsstring) (forceJson : bool) : outcome jsstring :=
  match fetch (fetchRequest prompt apiKey forceJson) with
  | Rejected name =>
      if Str.eqb name (u "TimeoutError") || Str.eqb name (u "AbortError")
      then Throws (Error msgTimeout)
      else Throws (Error msgNetwork)
  | Response status json =>
      if status =? 400 then Throws (Error msgBadKey)
      else if (status =? 401) || (status =? 403) then Throws (Error msgUnauthorised)
      else if status =? 429 then Throws (Error msgRateLimit)
      else if negb (ok status) then Throws (Error (msgHttp status))
      else
        match json with
        | None => Throws (Error msgMalformed)
        | Some data =>
            let text := textOf data in
            match text with
            | JString t =>
                if Str.eqb (trim t) [] then Throws (Error msgNoContent)
                else Returns t
            | _ => Throws (Error msgNoContent)
            end
        end
  | Interrupted status name =>
      if status =? 400 then Throws (Error msgBadKey)
      else if (status =? 401) || (status =? 403) then Throws (Error msgUnauthorised)
      else if status =? 429 then Throws (Error msgRateLimit)
      else if negb (ok status) then Throws (Error (msgHttp status))
      else Throws (Error msgMalformed)
  end.

(** The envelope of a reply that carries [text]:
    [{ candidates: [{ content: { parts: [{ text }] } }] }]. *)
Definition envelope (text : JSValue) : JSValue :=
  JObject [(u "candidates",
    JArray [JObject [(u "content",
      JObject [(u "parts", JArray [JObject [(u "text", text)]] [])])]] [])].

Definition fence : jsstring := [96; 96; 96].

(** [.replace (/^```(?:json)?\s*/i, '')] *)
Definition stripLeadingFence (s : jsstring) : jsstring :=
  match stripPrefix N.eqb fence s with
  | None => s
  | Some r =>
      match stripPrefix eqIgnoreCase (u "json") r with
      | Some r' => trimStart r'
      | None => trimStart r
      end
  end.

(** [.replace (/\s*```$/i, '')]: the match starts at the white space that
    precedes a fence ending the text. *)
Definition stripTrailingFence (s : jsstring) : jsstring :=
  match stripPrefix N.eqb fence (rev s) with
  | None => s
  | Some r => rev (trimStart r)
  end.

Definition stripFences (rawText : jsstring) : jsstring :=
  trim (stripTrailingFence (stripLeadingFence rawText)).

(** [if (! pred (result.f)) result.f = value;] *)
Definition ensure (pred : JSValue -> bool) (f : Field) (value : JSValue)
    (result : JSValue) : outcome JSValue :=
  x <- get result (fieldName f) ;;
  if negb (pred x) then set result f value else Returns result.

(** The part of [analyzeCode] after the reply has arrived: the fences are
    stripped, the text is parsed, and the three fields are normalised. *)
Definition normalizeAnalysis (rawText code : jsstring) : outcome JSValue :=
  let cleaned := stripFences rawText in
  match JSON.parse cleaned with
  | None => Throws (Error msgUnparsable)
  | Some result =>
      result <- ensure isArray smells (JArray [] []) result ;;
      result <- ensure isString summary (JString []) result ;;
      result <- ensure isString refactored_code (JString code) result ;;
      Returns result
  end.

Definition analyzeCode (fetch : Request -> Fetched)
    (code language apiKey : jsstring) : outcome JSValue :=
  let prompt := buildAnalysisPrompt code language in
  rawText <- callGemini fetch prompt apiKey true ;;
  normalizeAnalysis rawText code.

Definition sendFollowUp (fetch : Request -> Fetched)
    (question originalCode : jsstring) (analysisResult : JSValue)
    (apiKey : jsstring) : outcome jsstring :=
  let prompt := buildFollowUpPrompt question originalCode analysisResult in
  callGemini fetch prompt apiKey false.

End Api.

(* ================================================================== *)
(** * [state.js] *)
(* ================================================================== *)

Module State.

(** [timestamp] is the value of [new Date ()] when the entry was made. *)
Record ChatEntry : Type := {
  role : jsstring;
  text : jsstring;
  timestamp : N
}.

(** The variables of the module.  [apiKey] and [analysisResult] hold [null]
    ([None]) or, as their declared types say, a string and the object
    returned by [analyzeCode].  The sessions described are those whose key,
    once loaded, is text: a key of the configuration that is a true value
    and is not text, which [loadConfig] lets through, is not described. *)
Record State : Type := {
  apiKey : option jsstring;
  currentCode : jsstring;
  currentLanguage : jsstring;
  analysisResult : option JSValue;
  chatHistory : list ChatEntry
}.

Definition initial : State :=
  {| apiKey := None;
     currentCode := [];
     currentLanguage := u "auto";
     analysisResult := None;
     chatHistory := [] |}.

Definition getApiKey (s : State) := apiKey s.
Definition getCurrentCode (s : State) := currentCode s.
Definition getCurrentLanguage (s : State) := currentLanguage s.
Definition getAnalysisResult (s : State) := analysisResult s.

Definition hasAnalysis (s : State) : bool :=
  match analysisResult s with
  | Some _ => true
  | None => false
  end.

Definition getChatHistory (s : State) : list ChatEntry := chatHistory s.

Definition setApiKey (key : jsstring) (s : State) : State :=
  {| apiKey := Some key;
     currentCode := currentCode s;
     currentLanguage := currentLanguage s;
     analysisResult := analysisResult s;
     chatHistory := chatHistory s |}.

Definition setCurrentCode (code : jsstring) (s : State) : State :=
  {| apiKey := apiKey s;
     currentCode := code;
     currentLanguage := currentLanguage s;
     analysisResult := analysisResult s;
     chatHistory := chatHistory s |}.

Definition setCurrentLanguage (language : jsstring) (s : State) : State :=
  {| apiKey := apiKey s;
     currentCode := currentCode s;
     currentLanguage := language;
     analysisResult := analysisResult s;
     chatHistory := chatHistory s |}.

Definition setAnalysisResult (result : JSValue) (s : State) : State :=
  {| apiKey := apiKey s;
     currentCode := currentCode s;
     currentLanguage := currentLanguage s;
     analysisResult := Some result;
     chatHistory := chatHistory s |}.

(** [chatHistory.push ({ role, text, timestamp: new Date () })] *)
Definition appendChat (role text : jsstring) (now : N) (s : State) : State :=
  {| apiKey := apiKey s;
     currentCode := currentCode s;
     currentLanguage := currentLanguage s;
     analysisResult := analysisResult s;
     chatHistory :=
       chatHistory s ++ [{| role := role; text := text; timestamp := now |}] |}.

(** [getChatLog] returns the empty string exactly when there is no entry;
    the text of the log itself is not modelled. *)
Definition chatLogIsEmpty (s : State) : bool :=
  match chatHistory s with
  | [] => true
  | _ :: _ => false
  end.

Definition reset (s : State) : State :=
  {| apiKey := apiKey s;
     currentCode := [];
     currentLanguage := u "auto";
     analysisResult := None;
     chatHistory := [] |}.

End State.

(* ================================================================== *)
(** * [ui.js] *)
(* ================================================================== *)

Module Ui.

(** The part of the page the orchestration depends on: which controls are
    disabled, the values of the three inputs, which panels are hidden, the
    error banner and the messages of the chat log.  The rendered report
    (summary, smell cards, code panes), the character counter and the labels
    of the buttons are not part of the model. *)
Record UI : Type := {
  analyzeBtn_disabled : bool;
  clearBtn_disabled : bool;
  codeInput_disabled : bool;
  languageSelect_disabled : bool;
  chatSendBtn_disabled : bool;
  chatInput_disabled : bool;
  codeInput_value : jsstring;
  languageSelect_value : jsstring;
  chatInput_value : jsstring;
  loadingIndicator_hidden : bool;
  errorBanner_hidden : bool;
  errorMessage : Message;
  resultsSection_hidden : bool;
  chatPanel_hidden : bool;
  chatLog : list (jsstring * jsstring)
}.

Definition setAnalyzeButtonEnabled (enabled : bool) (p : UI) : UI :=
  {| analyzeBtn_disabled := negb enabled;
     clearBtn_disabled := clearBtn_disabled p;
     codeInput_disabled := codeInput_disabled p;
     languageSelect_disabled := languageSelect_disabled p;
     chatSendBtn_disabled := chatSendBtn_disabled p;
     chatInput_disabled := chatInput_disabled p;
     codeInput_value := codeInput_value p;
     languageSelect_value := languageSelect_value p;
     chatInput_value := chatInput_value p;
     loadingIndicator_hidden := loadingIndicator_hidden p;
     errorBanner_hidden := errorBanner_hidden p;
     errorMessage := errorMessage p;
     resultsSection_hidden := resultsSection_hidden p;
     chatPanel_hidden := chatPanel_hidden p;
     chatLog := chatLog p |}.

Definition setLoading (loading : bool) (p : UI) : UI :=
  {| analyzeBtn_disabled := loading;
     clearBtn_disabled := loading;
     codeInput_disabled := loading;
     languageSelect_disabled := loading;
     chatSendBtn_disabled := chatSendBtn_disabled p;
     chatInput_disabled := chatInput_disabled p;
     codeInput_value := codeInput_value p;
     languageSelect_value := languageSelect_value p;
     chatInput_value := chatInput_value p;
     loadingIndicator_hidden := negb loading;
     errorBanner_hidden := errorBanner_hidden p;
     errorMessage := errorMessage p;
     resultsSection_hidden := resultsSection_hidden p;
     chatPanel_hidden := chatPanel_hidden p;
     chatLog := chatLog p |}.

Definition showError (m : Message) (p : UI) : UI :=
  {| analyzeBtn_disabled := analyzeBtn_disabled p;
     clearBtn_disabled := clearBtn_disabled p;
     codeInput_disabled := codeInput_disabled p;
     languageSelect_disabled := languageSelect_disabled p;
     chatSendBtn_disabled := chatSendBtn_disabled p;
     chatInput_disabled := chatInput_disabled p;
     codeInput_value := codeInput_value p;
     languageSelect_value := languageSelect_value p;
     chatInput_value := chatInput_value p;
     loadingIndicator_hidden := loadingIndicator_hidden p;
     errorBanner_hidden := false;
     errorMessage := m;
     resultsSection_hidden := resultsSection_hidden p;
     chatPanel_hidden := chatPanel_hidden p;
     chatLog := chatLog p |}.

Definition hideError (p : UI) : UI :=
  {| analyzeBtn_disabled := analyzeBtn_disabled p;
     clearBtn_disabled := clearBtn_disabled p;
     codeInput_disabled := codeInput_disabled p;
     languageSelect_disabled := languageSelect_disabled p;
     chatSendBtn_disabled := chatSendBtn_disabled p;
     chatInput_disabled := chatInput_disabled p;
     codeInput_value := codeInput_value p;
     languageSelect_value := languageSelect_value p;
     chatInput_value := chatInput_value p;
     loadingIndicator_hidden := loadingIndicator_hidden p;
     errorBanner_hidden := true;
     errorMessage := Text [];
     resultsSection_hidden := resultsSection_hidden p;
     chatPanel_hidden := chatPanel_hidden p;
     chatLog := chatLog p |}.

(** [renderResults] when it runs to its end: the report is drawn and its
    section is shown. *)
Definition renderResults (p : UI) : UI :=
  {| analyzeBtn_disabled := analyzeBtn_disabled p;
     clearBtn_disabled := clearBtn_disabled p;
     codeInput_disabled := codeInput_disabled p;
     languageSelect_disabled := languageSelect_disabled p;
     chatSendBtn_disabled := chatSendBtn_disabled p;
     chatInput_disabled := chatInput_disabled p;
     codeInput_value := codeInput_value p;
     languageSelect_value := languageSelect_value p;
     chatInput_value := chatInput_value p;
     loadingIndicator_hidden := loadingIndicator_hidden p;
     errorBanner_hidden := errorBanner_hidden p;
     errorMessage := errorMessage p;
     resultsSection_hidden := false;
     chatPanel_hidden := chatPanel_hidden p;
     chatLog := chatLog p |}.

Definition showChatPanel (p : UI) : UI :=
  {| analyzeBtn_disabled := analyzeBtn_disabled p;
     clearBtn_disabled := clearBtn_disabled p;
     codeInput_disabled := codeInput_disabled p;
     languageSelect_disabled := languageSelect_disabled p;
     chatSendBtn_disabled := chatSendBtn_disabled p;
     chatInput_disabled := chatInput_disabled p;
     codeInput_value := codeInput_value p;
     languageSelect_value := languageSelect_value p;
     chatInput_value := chatInput_value p;
     loadingIndicator_hidden := loadingIndicator_hidden p;
     errorBanner_hidden := errorBanner_hidden p;
     errorMessage := errorMessage p;
     resultsSection_hidden := resultsSection_hidden p;
     chatPanel_hidden := false;
     chatLog := chatLog p |}.

Definition appendChatMessage (role text : jsstring) (p : UI) : UI :=
  {| analyzeBtn_disabled := analyzeBtn_disabled p;
     clearBtn_disabled := clearBtn_disabled p;
     codeInput_disabled := codeInput_disabled p;
     languageSelect_disabled := languageSelect_disabled p;
     chatSendBtn_disabled := chatSendBtn_disabled p;
     chatInput_disabled := chatInput_disabled p;
     codeInput_value := codeInput_value p;
     languageSelect_value := languageSelect_value p;
     chatInput_value := chatInput_value p;
     loadingIndicator_hidden := loadingIndicator_hidden p;
     errorBanner_hidden := errorBanner_hidden p;
     errorMessage := errorMessage p;
     resultsSection_hidden := resultsSection_hidden p;
     chatPanel_hidden := chatPanel_hidden p;
     chatLog := chatLog p ++ [(role, text)] |}.

Definition setChatSending (sending : bool) (p : UI) : UI :=
  {| analyzeBtn_disabled := analyzeBtn_disabled p;
     clearBtn_disabled := clearBtn_disabled p;
     codeInput_disabled := codeInput_disabled p;
     languageSelect_disabled := languageSelect_disabled p;
     chatSendBtn_disabled := sending;
     chatInput_disabled := sending;
     codeInput_value := codeInput_value p;
     languageSelect_value := languageSelect_value p;
     chatInput_value := chatInput_value p;
     loadingIndicator_hidden := loadingIndicator_hidden p;
     errorBanner_hidden := errorBanner_hidden p;
     errorMessage := errorMessage p;
     resultsSection_hidden := resultsSection_hidden p;
     chatPanel_hidden := chatPanel_hidden p;
     chatLog := chatLog p |}.

Definition clearChatInput (p : UI) : UI :=
  {| analyzeBtn_disabled := analyzeBtn_disabled p;
     clearBtn_disabled := clearBtn_disabled p;
     codeInput_disabled := codeInput_disabled p;
     languageSelect_disabled := languageSelect_disabled p;
     chatSendBtn_disabled := chatSendBtn_disabled p;
     chatInput_disabled := chatInput_disabled p;
     codeInput_value := codeInput_value p;
     languageSelect_value := languageSelect_value p;
     chatInput_value := [];
     loadingIndicator_hidden := loadingIndicator_hidden p;
     errorBanner_hidden := errorBanner_hidden p;
     errorMessage := errorMessage p;
     resultsSection_hidden := resultsSection_hidden p;
     chatPanel_hidden := chatPanel_hidden p;
     chatLog := chatLog p |}.

(** What the user does to an input: its [value] changes. *)
Definition typeCode (value : jsstring) (p : UI) : UI :=
  {| analyzeBtn_disabled := analyzeBtn_disabled p;
     clearBtn_disabled := clearBtn_disabled p;
     codeInput_disabled := codeInput_disabled p;
     languageSelect_disabled := languageSelect_disabled p;
     chatSendBtn_disabled := chatSendBtn_disabled p;
     chatInput_disabled := chatInput_disabled p;
     codeInput_value := value;
     languageSelect_value := languageSelect_value p;
     chatInput_value := chatInput_value p;
     loadingIndicator_hidden := loadingIndicator_hidden p;
     errorBanner_hidden := errorBanner_hidden p;
     errorMessage := errorMessage p;
     resultsSection_hidden := resultsSection_hidden p;
     chatPanel_hidden := chatPanel_hidden p;
     chatLog := chatLog p |}.

Definition selectLanguage (value : jsstring) (p : UI) : UI :=
  {| analyzeBtn_disabled := analyzeBtn_disabled p;
     clearBtn_disabled := clearBtn_disabled p;
     codeInput_disabled := codeInput_disabled p;
     languageSelect_disabled := languageSelect_disabled p;
     chatSendBtn_disabled := chatSendBtn_disabled p;
     chatInput_disabled := chatInput_disabled p;
     codeInput_value := codeInput_value p;
     languageSelect_value := value;
     chatInput_value := chatInput_value p;
     loadingIndicator_hidden := loadingIndicator_hidden p;
     errorBanner_hidden := errorBanner_hidden p;
     errorMessage := errorMessage p;
     resultsSection_hidden := resultsSection_hidden p;
     chatPanel_hidden := chatPanel_hidden p;
     chatLog := chatLog p |}.

Definition typeChat (value : jsstring) (p : UI) : UI :=
  {| analyzeBtn_disabled := analyzeBtn_disabled p;
     clearBtn_disabled := clearBtn_disabled p;
     codeInput_disabled := codeInput_disabled p;
     languageSelect_disabled := languageSelect_disabled p;
     chatSendBtn_disabled := chatSendBtn_disabled p;
     chatInput_disabled := chatInput_disabled p;
     codeInput_value := codeInput_value p;
     languageSelect_value := languageSelect_value p;
     chatInput_value := value;
     loadingIndicator_hidden := loadingIndicator_hidden p;
     errorBanner_hidden := errorBanner_hidden p;
     errorMessage := errorMessage p;
     resultsSection_hidden := resultsSection_hidden p;
     chatPanel_hidden := chatPanel_hidden p;
     chatLog := chatLog p |}.

(** The page in its initial empty state: the values [reset] gives to every
    part of it. *)
Definition initial : UI :=
  {| analyzeBtn_disabled := true;
     clearBtn_disabled := false;
     codeInput_disabled := false;
     languageSelect_disabled := false;
     chatSendBtn_disabled := false;
     chatInput_disabled := false;
     codeInput_value := [];
     languageSelect_value := u "auto";
     chatInput_value := [];
     loadingIndicator_hidden := true;
     errorBanner_hidden := true;
     errorMessage := Text [];
     resultsSection_hidden := true;
     chatPanel_hidden := true;
     chatLog := [] |}.

(** [reset] writes every part of the page that is modelled. *)
Definition reset (p : UI) : UI := initial.

(** [normaliseSeverity]: [(severity ?? '').toLowerCase ()] throws when the
    severity is neither missing nor a string. *)
Definition normaliseSeverity (severity : JSValue) : outcome jsstring :=
  match coalesce severity (JString []) with
  | JString s =>
      let l := toLowerCase s in
      if Str.eqb l (u "critical") then Returns (u "critical")
      else if Str.eqb l (u "major") then Returns (u "major")
      else Returns (u "minor")
  | _ => Throws TypeError
  end.

End Ui.

(* ================================================================== *)
(** * [app.js] *)
(* ================================================================== *)

Module App.

Import Prompt.

(** A request that was sent and has not settled, with the constants its
    handler holds across the [await]. *)
Inductive Pending : Type :=
| PendingAnalyze (code language apiKey : jsstring)
| PendingFollowUp (question originalCode : jsstring) (analysisResult : JSValue)
    (apiKey : jsstring).

Definition requestOf (p : Pending) : Api.Request :=
  match p with
  | PendingAnalyze code language apiKey =>
      Api.fetchRequest (buildAnalysisPrompt code language) apiKey true
  | PendingFollowUp question originalCode analysisResult apiKey =>
      Api.fetchRequest (buildFollowUpPrompt question originalCode analysisResult)
        apiKey false
  end.

(** The session: the variables of [state.js], the page, and the requests in
    flight. *)
Record App : Type := {
  state : State.State;
  page : Ui.UI;
  pending : list Pending
}.

Definition onState (f : State.State -> State.State) (a : App) : App :=
  {| state := f (state a); page := page a; pending := pending a |}.

Definition onPage (f : Ui.UI -> Ui.UI) (a : App) : App :=
  {| state := state a; page := f (page a); pending := pending a |}.

Definition send (p : Pending) (a : App) : App :=
  {| state := state a; page := page a; pending := pending a ++ [p] |}.

Definition msgNoKey : jsstring :=
  u "Invalid or missing API key. Open config.json and add your Gemini API key.".
Definition msgNoChat : jsstring := u "No chat history to export yet.".
Definition msgNoClipboard : jsstring :=
  u "Could not copy to clipboard. Please select and copy the code manually.".

(** [init], given how [api.loadConfig ()] ended, with a key that is text
    when it returned. *)
Definition init (loaded : outcome jsstring) (a : App) : App :=
  match loaded with
  | Returns key => onState (State.setApiKey key) a
  | Throws err => onPage (Ui.showError (message err)) a
  end.

Definition onCodeInput (a : App) : App :=
  let value := Ui.codeInput_value (page a) in
  let a := onState (State.setCurrentCode value) a in
  onPage (Ui.setAnalyzeButtonEnabled (10 <=? N.of_nat (List.length value))) a.

Definition onLanguageChange (a : App) : App :=
  onState (State.setCurrentLanguage (Ui.languageSelect_value (page a))) a.

(** [!apiKey] is false for a string that is not empty. *)
Definition usableKey (k : option jsstring) : option jsstring :=
  match k with
  | Some (c :: k') => Some (c :: k')
  | _ => None
  end.

(** [onAnalyze] up to its [await]: the request is sent. *)
Definition onAnalyze_start (a : App) : App :=
  let code := State.getCurrentCode (state a) in
  let language := State.getCurrentLanguage (state a) in
  match usableKey (State.getApiKey (state a)) with
  | None => onPage (Ui.showError (Text msgNoKey)) a
  | Some apiKey =>
      let a := onPage Ui.hideError a in
      let a := onPage (Ui.setLoading true) a in
      send (PendingAnalyze code language apiKey) a
  end.

(** [onAnalyze] from its [await] on, when the request has settled with
    [fetched].  [rendered] says how the call of [ui.renderResults] ends:
    [None] when it returns, [Some m] when it throws an error of message
    [m]. *)
Definition onAnalyze_settle (code language apiKey : jsstring)
    (fetched : Api.Fetched) (rendered : option Message) (a : App) : App :=
  let a :=
    match Api.analyzeCode (fun _ => fetched) code language apiKey with
    | Returns result =>
        let a := onState (State.setAnalysisResult result) a in
        match rendered with
        | None => onPage Ui.showChatPanel (onPage Ui.renderResults a)
        | Some m => onPage (Ui.showError m) a
        end
    | Throws err => onPage (Ui.showError (message err)) a
    end in
  let a := onPage (Ui.setLoading false) a in
  onPage (Ui.setAnalyzeButtonEnabled (10 <=? N.of_nat (List.length code))) a.

Definition onClear (a : App) : App :=
  onPage Ui.reset (onState State.reset a).

(** [onChatSend] up to its [await]. *)
Definition onChatSend_start (now : N) (a : App) : App :=
  let question := trim (Ui.chatInput_value (page a)) in
  let originalCode := State.getCurrentCode (state a) in
  match question, usableKey (State.getApiKey (state a)),
        State.getAnalysisResult (state a) with
  | _ :: _, Some apiKey, Some analysisResult =>
      let a := onState (State.appendChat (u "user") question now) a in
      let a := onPage (Ui.appendChatMessage (u "user") question) a in
      let a := onPage Ui.clearChatInput a in
      let a := onPage (Ui.setChatSending true) a in
      send (PendingFollowUp question originalCode analysisResult apiKey) a
  | _, _, _ => a
  end.

(** [onChatSend] from its [await] on. *)
Definition onChatSend_settle (question originalCode : jsstring)
    (analysisResult : JSValue) (apiKey : jsstring)
    (fetched : Api.Fetched) (now : N) (a : App) : App :=
  let a :=
    match Api.sendFollowUp (fun _ => fetched) question originalCode
            analysisResult apiKey with
    | Returns reply =>
        let a := onState (State.appendChat (u "gemini") reply now) a in
        onPage (Ui.appendChatMessage (u "gemini") reply) a
    | Throws err => onPage (Ui.showError (message err)) a
    end in
  onPage (Ui.setChatSending false) a.

Definition onChatKeyDown (key : jsstring) (shiftKey : bool) (now : N) (a : App) : App :=
  if Str.eqb key (u "Enter") && negb shiftKey then onChatSend_start now a else a.

Definition onExportChat (a : App) : App :=
  if State.chatLogIsEmpty (state a) then onPage (Ui.showError (Text msgNoChat)) a
  else a.

Definition onDismissError (a : App) : App := onPage Ui.hideError a.

(** What can happen to the page.  A control that is disabled receives no
    event.  [ConfigLoaded] is the end of [api.loadConfig ()], awaited by
    [init]; [Settle i] is the settlement of the [i]-th request in flight;
    [CopyFailed] is a click on the copy button whose write to the clipboard
    was refused. *)
Inductive Event : Type :=
| ConfigLoaded (loaded : outcome jsstring)
| CodeInput (value : jsstring)
| LanguageChange (value : jsstring)
| ClickAnalyze
| ClickClear
| ChatInput (value : jsstring)
| ChatKeyDown (key : jsstring) (shiftKey : bool) (now : N)
| ClickChatSend (now : N)
| ClickExportChat
| ClickErrorDismiss
| CopyFailed
| Settle (i : nat) (fetched : Api.Fetched) (rendered : option Message) (now : N).

Fixpoint remove_nth {A} (i : nat) (l : list A) : list A :=
  match i, l with
  | _, [] => []
  | O, _ :: l' => l'
  | S i', x :: l' => x :: remove_nth i' l'
  end.

Definition settle (i : nat) (fetched : Api.Fetched) (rendered : option Message)
    (now : N) (a : App) : App :=
  match nth_error (pending a) i with
  | None => a
  | Some p =>
      let a := {| state := state a; page := page a;
                  pending := remove_nth i (pending a) |} in
      match p with
      | PendingAnalyze code language apiKey =>
          onAnalyze_settle code language apiKey fetched rendered a
      | PendingFollowUp question originalCode analysisResult apiKey =>
          onChatSend_settle question originalCode analysisResult apiKey
            fetched now a
      end
  end.

Definition step (a : App) (e : Event) : App :=
  match e with
  | ConfigLoaded loaded => init loaded a
  | CodeInput value =>
      if Ui.codeInput_disabled (page a) then a
      else onCodeInput (onPage (Ui.typeCode value) a)
  | LanguageChange value =>
      if Ui.languageSelect_disabled (page a) then a
      else onLanguageChange (onPage (Ui.selectLanguage value) a)
  | ClickAnalyze =>
      if Ui.analyzeBtn_disabled (page a) then a else onAnalyze_start a
  | ClickClear =>
      if Ui.clearBtn_disabled (page a) then a else onClear a
  | ChatInput value =>
      if Ui.chatInput_disabled (page a) then a
      else onPage (Ui.typeChat value) a
  | ChatKeyDown key shiftKey now =>
      if Ui.chatInput_disabled (page a) then a
      else onChatKeyDown key shiftKey now a
  | ClickChatSend now =>
      if Ui.chatSendBtn_disabled (page a) then a else onChatSend_start now a
  | ClickExportChat => onExportChat a
  | ClickErrorDismiss => onDismissError a
  | CopyFailed => onPage (Ui.showError (Text msgNoClipboard)) a
  | Settle i fetched rendered now => settle i fetched rendered now a
  end.

Definition run (a : App) (es : list Event) : App := fold_left step es a.

(** A whole call of a handler, nothing else happening before its request
    settles: the request it has just sent is the last one in flight, and it
    settles with what the network [fetch] answers.  [now] and [later] are
    the times of the click and of the settlement. *)
Definition settleLast (fetch : Api.Request -> Api.Fetched)
    (rendered : option Message) (later : N) (before after : App) : App :=
  let i := List.length (pending before) in
  match nth_error (pending after) i with
  | Some p => settle i (fetch (requestOf p)) rendered later after
  | None => after
  end.

Definition onAnalyze (fetch : Api.Request -> Api.Fetched)
    (rendered : option Message) (later : N) (a : App) : App :=
  settleLast fetch rendered later a (onAnalyze_start a).

Definition onChatSend (fetch : Api.Request -> Api.Fetched)
    (now later : N) (a : App) : App :=
  settleLast fetch None later a (onChatSend_start now a).

Definition isAnalyze (p : Pending) : bool :=
  match p with
  | PendingAnalyze _ _ _ => true
  | PendingFollowUp _ _ _ _ => false
  end.

(** The number of analysis requests in flight, and of all requests. *)
Definition analysing (a : App) : nat := List.length (filter isAnalyze (pending a)).
Definition outstanding (a : App) : nat := List.length (pending a).

(** The controls that [setLoading] disables and that could start or
    disturb an analysis. *)
Definition locked (a : App) : bool :=
  Ui.analyzeBtn_disabled (page a) && Ui.clearBtn_disabled (page a)
  && Ui.codeInput_disabled (page a).

(** No analysis is in flight, or one is and the controls are locked. *)
Definition guarded (a : App) : Prop :=
  analysing a = 0%nat \/ (analysing a = 1%nat /\ locked a = true).

(** The session when the page has been loaded. *)
Definition start : App :=
  {| state := State.initial; page := Ui.initial; pending := [] |}.

End App.

(* ================================================================== *)
(** * The specification's words *)
(* ================================================================== *)

Module Spec.

(** Severity: one of Critical, Major, Minor. *)
Definition isSeverity (v : JSValue) : bool :=
  match v with
  | JString s =>
      Str.eqb s (u "Critical") || Str.eqb s (u "Major") || Str.eqb s (u "Minor")
  | _ => false
  end.

(** A Smell after normalisation: an object whose name, location and
    explanation are text and whose severity is a Severity. *)
Definition isSmell (v : JSValue) : bool :=
  match v with
  | JObject ps =>
      isString (member v (u "name")) && isSeverity (member v (u "severity"))
      && isString (member v (u "location"))
      && isString (member v (u "explanation"))
  | _ => false
  end.

(** The refactored code is never empty. *)
Definition nonEmptyText (v : JSValue) : bool :=
  match v with
  | JString (_ :: _) => true
  | _ => false
  end.

(** The error kinds of a completion, and the messages the source gives
    them. *)
Inductive ErrorKind : Type :=
| NetworkError | Timeout | BadCredential | Unauthorized | RateLimited
| EndpointError (status : N) | MalformedEnvelope | ParseError.

Definition raises {A} (k : ErrorKind) (o : outcome A) : Prop :=
  match k with
  | NetworkError => o = Throws (Error Api.msgNetwork)
  | Timeout => o = Throws (Error Api.msgTimeout)
  | BadCredential => o = Throws (Error Api.msgBadKey)
  | Unauthorized => o = Throws (Error Api.msgUnauthorised)
  | RateLimited => o = Throws (Error Api.msgRateLimit)
  | EndpointError status => o = Throws (Error (Api.msgHttp status))
  | MalformedEnvelope =>
      o = Throws (Error Api.msgMalformed) \/ o = Throws (Error Api.msgNoContent)
  | ParseError => o = Throws (Error Api.msgUnparsable)
  end.

End Spec.

(* ================================================================== *)
(** * Inputs of the examples *)
(* ================================================================== *)

Module Examples.

Definition someCode : jsstring := u "function f(){}".

(** [{"smells":[7,{"severity":"major"}]}] *)
Definition unrepairedSmells : jsstring :=
  u "{" ++ quoted "smells" ++ u ":[7,{" ++ quoted "severity" ++ u ":"
    ++ quoted "major" ++ u "}]}".

(** An object whose only member is [refactored_code], with the empty text
    as its value. *)
Definition emptyRefactoring : jsstring :=
  u "{" ++ quoted "refactored_code" ++ u ":" ++ quoted EmptyString ++ u "}".

Definition someKey : jsstring := u "test-key".

Definition somePrompt : Prompt.Prompt :=
  Prompt.buildAnalysisPrompt someCode (u "auto").

(** Replies of the endpoint: a reply that carries [text], the status 429,
    and a reply whose text is one space. *)
Definition replies (text : jsstring) : Api.Request -> Api.Fetched :=
  fun _ => Api.Response 200 (Some (Api.envelope (JString text))).

Definition rateLimited : Api.Request -> Api.Fetched :=
  fun _ => Api.Response 429 None.

Definition blankReply : Api.Request -> Api.Fetched := replies [32].

(** A session with a key and the submitted code, before any analysis, and
    the same session with a question typed in the chat input. *)
Definition ready : App.App :=
  App.run App.start [App.ConfigLoaded (Returns someKey); App.CodeInput someCode].

Definition asking : App.App :=
  App.onPage (Ui.typeChat (u "why?")) ready.

(** The session after an analysis whose reply was an empty object, with a
    question typed in the chat input; and the same once the question has
    been sent and the follow-up request is in flight. *)
Definition analysed : App.App :=
  App.run ready
    [App.ClickAnalyze;
     App.Settle 0 (Api.Response 200 (Some (Api.envelope (JString (u "{}")))))
       None 0;
     App.ChatInput (u "why?")].

Definition sending : App.App := App.run analysed [App.ClickChatSend 1].

End Examples.

(* ================================================================== *)
(** * Truth of a value *)
(* ================================================================== *)

Module Truth.

(** What a number text holds: the digits of its integer and fraction parts
    read as one integer, the number of digits of the fraction, and the
    exponent with its sign. *)
Inductive part : Type := PInt | PFrac | PExp.

Record reading : Type := {
  at_part : part;
  digits : N;
  fracLen : N;
  expNeg : bool;
  expVal : N
}.

Definition readUnit (r : reading) (c : N) : reading :=
  if JSON.isDigit c then
    match at_part r with
    | PInt =>
        {| at_part := PInt; digits := 10 * digits r + (c - 48);
           fracLen := fracLen r; expNeg := expNeg r; expVal := expVal r |}
    | PFrac =>
        {| at_part := PFrac; digits := 10 * digits r + (c - 48);
           fracLen := fracLen r + 1; expNeg := expNeg r; expVal := expVal r |}
    | PExp =>
        {| at_part := PExp; digits := digits r; fracLen := fracLen r;
           expNeg := expNeg r; expVal := 10 * expVal r + (c - 48) |}
    end
  else if c =? 46 then
    {| at_part := PFrac; digits := digits r; fracLen := fracLen r;
       expNeg := expNeg r; expVal := expVal r |}
  else if (c =? 101) || (c =? 69) then
    {| at_part := PExp; digits := digits r; fracLen := fracLen r;
       expNeg := expNeg r; expVal := expVal r |}
  else if c =? 45 then
    match at_part r with
    | PExp =>
        {| at_part := PExp; digits := digits r; fracLen := fracLen r;
           expNeg := true; expVal := expVal r |}
    | _ => r
    end
  else r.

Definition readNumber (lexeme : jsstring) : reading :=
  fold_left readUnit lexeme
    {| at_part := PInt; digits := 0; fracLen := 0; expNeg := false; expVal := 0 |}.

(** Whether the double a number text denotes is zero.  The text denotes
    [digits] times ten to the power [exponent - fracLen]; the nearest double
    is zero when the digits are zero, or when the value is at most two to
    the power -1075, half of the least positive double (the tie goes to
    zero, whose significand is even). *)
Definition numberIsZero (lexeme : jsstring) : bool :=
  let r := readNumber lexeme in
  let down := if expNeg r then expVal r + fracLen r else fracLen r - expVal r in
  (digits r =? 0) || (digits r * 2 ^ 1075 <=? 10 ^ down).

(** [!!v]. *)
Definition truthy (v : JSValue) : bool :=
  match v with
  | JUndefined | JNull => false
  | JBool b => b
  | JNumber lexeme => negb (numberIsZero lexeme)
  | JString [] => false
  | JString (_ :: _) => true
  | JArray _ _ | JObject _ => true
  end.

(** [v === s] for a string literal [s]. *)
Definition isText (s : jsstring) (v : JSValue) : bool :=
  match v with
  | JString t => Str.eqb t s
  | _ => false
  end.

End Truth.

(* ================================================================== *)
(** * [api.js]: the configuration *)
(* ================================================================== *)

Module Config.

Import Truth.

Definition msgNoConfig : jsstring :=
  u "Could not load config.json. Make sure it exists at the project root.".

Definition msgInvalidKey : jsstring :=
  u "Invalid or missing API key. Open config.json and replace the placeholder with your Gemini API key.".

Definition placeholder1 : jsstring := u "PLACEHOLDER".
Definition placeholder2 : jsstring := u "PASTE_YOUR_GEMINI_API_KEY_HERE".

(** [config?.gemini?.api_key] *)
Definition keyOf (config : JSValue) : JSValue :=
  optionalChain config [u "gemini"; u "api_key"].

(** [loadConfig], with the network as the function [fetch] of the URL.  The
    error thrown in the [try] block for a response that is not [ok] is
    caught by its [catch] block, like a failure of [fetch] or of
    [response.json ()]. *)
Definition loadConfig (fetch : jsstring -> Api.Fetched) : outcome JSValue :=
  match fetch (u "../config.json") with
  | Api.Rejected _ => Throws (Error msgNoConfig)
  | Api.Response status json =>
      if negb (Api.ok status) then Throws (Error msgNoConfig)
      else
        match json with
        | None => Throws (Error msgNoConfig)
        | Some config =>
            let key := keyOf config in
            if negb (truthy key) || isText placeholder1 key
               || isText placeholder2 key
            then Throws (Error msgInvalidKey)
            else Returns key
        end
  | Api.Interrupted _ _ => Throws (Error msgNoConfig)
  end.

End Config.

(* ================================================================== *)
(** * [state.js]: the chat log *)
(* ================================================================== *)

Module ChatLog.

Section Locale.

(** [Date.prototype.toLocaleString] and [toLocaleTimeString], which depend
    on the locale of the browser. *)
Variable toLocaleString : N -> jsstring.
Variable toLocaleTimeString : N -> jsstring.

(** [lines.join (sep)] *)
Fixpoint join (sep : jsstring) (lines : list jsstring) : jsstring :=
  match lines with
  | [] => []
  | [l] => l
  | l :: rest => l ++ sep ++ join sep rest
  end.

(** ['='.repeat (50)] *)
Definition divider : jsstring := repeat 61 50.

(** The dash of the title is U+2014. *)
Definition title : jsstring :=
  u "Code Smells Detector & Refactorer " ++ [8212] ++ u " Chat Export".

Definition header (now : N) : list jsstring :=
  [title; divider; u "Exported: " ++ toLocaleString now; []].

(** The three lines pushed for one entry. *)
Definition entryLines (entry : State.ChatEntry) : list jsstring :=
  let author :=
    if Str.eqb (State.role entry) (u "user") then u "You" else u "Gemini" in
  let time := toLocaleTimeString (State.timestamp entry) in
  [u "[" ++ time ++ u "] " ++ author ++ u ":"; State.text entry; []].

(** [getChatLog], called at time [now]. *)
Definition getChatLog (now : N) (s : State.State) : jsstring :=
  match State.chatHistory s with
  | [] => []
  | _ :: _ =>
      join [10] (header now ++ flat_map entryLines (State.chatHistory s))
  end.

End Locale.

End ChatLog.

(* ================================================================== *)
(** * [ui.js] and [app.js]: summary and copy *)
(* ================================================================== *)

Module Render.

Import Truth.

Definition msgNoSummary : jsstring := u "No summary was provided.".

(** [renderSummary]: the text given to the summary paragraph,
    [summary?.trim () || 'No summary was provided.'].  A value that is
    neither missing nor text has no method [trim]: the call throws. *)
Definition renderSummary (summary : JSValue) : outcome jsstring :=
  match summary with
  | JUndefined | JNull => Returns msgNoSummary
  | JString s =>
      match trim s with
      | [] => Returns msgNoSummary
      | t => Returns t
      end
  | _ => Throws TypeError
  end.

(** [onCopy]: the argument it gives to [ui.copyToClipboard], when it calls
    it: [result.refactored_code] when [result?.refactored_code] is true. *)
Definition copied (a : App.App) : option JSValue :=
  match State.getAnalysisResult (App.state a) with
  | None => None
  | Some result =>
      let code := optionalChain result [u "refactored_code"] in
      if truthy code then Some code else None
  end.

(** [onCopy]; [written] says whether the write to the clipboard
    succeeded.  When it fails, [copyToClipboard] shows an error. *)
Definition onCopy (written : bool) (a : App.App) : App.App :=
  match copied a with
  | None => a
  | Some _ =>
      if written then a
      else App.onPage (Ui.showError (Text App.msgNoClipboard)) a
  end.

End Render.

(* ================================================================== *)
(** * What the session keeps *)
(* ================================================================== *)

Module Keeps.

Import App.

(** A result with the three fields of the right types. *)
Definition wellShaped (v : JSValue) : bool :=
  isObject v && isArray (member v (u "smells"))
  && isString (member v (u "summary"))
  && isString (member v (u "refactored_code")).

Definition shaped (a : App) : Prop :=
  match State.analysisResult (state a) with
  | None => True
  | Some result => wellShaped result = true
  end.

(** What the page shows of an entry of the history. *)
Definition shown (entry : State.ChatEntry) : jsstring * jsstring :=
  (State.role entry, State.text entry).

(** The page shows the state: the code, the language, the chat. *)
Definition synced (a : App) : Prop :=
  State.currentCode (state a) = Ui.codeInput_value (page a)
  /\ State.currentLanguage (state a) = Ui.languageSelect_value (page a)
  /\ map shown (State.chatHistory (state a)) = Ui.chatLog (page a).

Definition isFollowUp (p : Pending) : bool := negb (isAnalyze p).

(** The number of follow-up requests in flight. *)
Definition following (a : App) : nat :=
  List.length (filter isFollowUp (pending a)).

(** The analysis in flight, if any, is of the code of the state. *)
Definition analysesCurrentCode (a : App) : Prop :=
  forall code language apiKey,
    In (PendingAnalyze code language apiKey) (pending a) ->
    code = State.currentCode (state a).

(** With no analysis in flight the controls are released and the Analyze
    button follows the length of the code; with one, the loading indicator
    is shown. *)
Definition released (a : App) : Prop :=
  Ui.analyzeBtn_disabled (page a)
    = negb (10 <=? N.of_nat (List.length (State.currentCode (state a))))
  /\ Ui.loadingIndicator_hidden (page a) = true
  /\ Ui.clearBtn_disabled (page a) = false
  /\ Ui.codeInput_disabled (page a) = false
  /\ Ui.languageSelect_disabled (page a) = false.

Definition steady (a : App) : Prop :=
  guarded a /\ analysesCurrentCode a
  /\ (analysing a = 0%nat -> released a)
  /\ (analysing a = 1%nat -> Ui.loadingIndicator_hidden (page a) = false).

(** No follow-up is in flight, or one is and the chat controls are
    disabled. *)
Definition chatGuarded (a : App) : Prop :=
  following a = 0%nat
  \/ (following a = 1%nat /\ Ui.chatSendBtn_disabled (page a) = true
      /\ Ui.chatInput_disabled (page a) = true).

Definition isClear (e : Event) : bool :=
  match e with
  | ClickClear => true
  | _ => false
  end.

(** The settlement of a follow-up request in flight. *)
Definition settlesFollowUp (a : App) (e : Event) : bool :=
  match e with
  | Settle i _ _ _ =>
      match nth_error (pending a) i with
      | Some p => isFollowUp p
      | None => false
      end
  | _ => false
  end.

(** Among the events [es], which happen from the session [a] on, there is no
    click on Clear and no settlement of a follow-up request. *)
Fixpoint undisturbed (a : App) (es : list Event) : bool :=
  match es with
  | [] => true
  | e :: es' =>
      negb (isClear e) && negb (settlesFollowUp a e)
      && undisturbed (step a e) es'
  end.

(** The settlement of an analysis request in flight. *)
Definition settlesAnalysis (a : App) (e : Event) : bool :=
  match e with
  | Settle i _ _ _ =>
      match nth_error (pending a) i with
      | Some p => isAnalyze p
      | None => false
      end
  | _ => false
  end.

(** Among the events [es], which happen from the session [a] on, there is no
    settlement of an analysis request. *)
Fixpoint unsettled (a : App) (es : list Event) : bool :=
  match es with
  | [] => true
  | e :: es' => negb (settlesAnalysis a e) && unsettled (step a e) es'
  end.


Definition loadsConfig (e : Event) : bool :=
  match e with
  | ConfigLoaded (Returns _) => true
  | _ => false
  end.

End Keeps.

(* ================================================================== *)
(** * Inputs of further examples *)
(* ================================================================== *)

Module Cases.

(** A configuration file with the key [k]:
    [{ gemini: { api_key: k } }]. *)
Definition config (k : JSValue) : JSValue :=
  JObject [(u "gemini", JObject [(u "api_key", k)])].

Definition serves (k : JSValue) : jsstring -> Api.Fetched :=
  fun _ => Api.Response 200 (Some (config k)).

(** A reply in a fence: the fence with its tag, a line break, the text of
    an empty object, a line break, the fence. *)
Definition fenced : jsstring :=
  Api.fence ++ u "json" ++ [10] ++ u "{}" ++ [10] ++ Api.fence.

Definition clock (t : N) : jsstring := decimal t.

(** A response of status 200 whose body is still being read when the signal
    of the request aborts, and one whose connection is lost meanwhile. *)
Definition timedOutInBody : Api.Request -> Api.Fetched :=
  fun _ => Api.Interrupted 200 (u "TimeoutError").

Definition lostInBody : Api.Request -> Api.Fetched :=
  fun _ => Api.Interrupted 200 (u "TypeError").

(** A key is loaded, code is typed and analysed, a question is asked and
    answered. *)
Definition conversation : list App.Event :=
  [App.ConfigLoaded (Returns Examples.someKey);
   App.CodeInput Examples.someCode;
   App.ClickAnalyze;
   App.Settle 0 (Api.Response 200 (Some (Api.envelope (JString (u "{}")))))
     None 0;
   App.ChatInput (u "why?");
   App.ClickChatSend 1;
   App.Settle 0 (Api.Response 200 (Some (Api.envelope (JString (u "because")))))
     None 2].

(** What is tried while a request is in flight: a second question, a click
    on Analyze whose request is refused for the rate, a click on Clear. *)
Definition meanwhile : list App.Event :=
  [App.ChatInput (u "and?");
   App.ClickChatSend 5;
   App.ClickAnalyze;
   App.Settle 1 (Api.Response 429 None) None 6].

Definition meanwhileOfAnalysis : list App.Event :=
  [App.ClickClear;
   App.CodeInput (u "x");
   App.ClickAnalyze;
   App.ChatInput (u "why?");
   App.ClickChatSend 5;
   App.Settle 1 (Api.Response 429 None) None 6].

(** The reply to the question of [Examples.sending]. *)
Definition because : Api.Fetched :=
  Api.Response 200 (Some (Api.envelope (JString (u "because")))).

(** From [Examples.sending], where a follow-up request is in flight: Clear
    is clicked, the code is typed and analysed again, a second question is
    sent, and then the reply to the first question arrives, before the reply
    to the second. *)
Definition overtaken : list App.Event :=
  [App.ClickClear;
   App.CodeInput Examples.someCode;
   App.ClickAnalyze;
   App.Settle 1 (Api.Response 200 (Some (Api.envelope (JString (u "{}")))))
     None 2;
   App.ChatInput (u "and?");
   App.ClickChatSend 3;
   App.Settle 0 because None 4;
   App.Settle 0 (Api.Response 200 (Some (Api.envelope (JString (u "so")))))
     None 5].

(** The text [{"smells":[{"severity":7}]}]. *)
Definition numberSeverity : jsstring :=
  u "{" ++ quoted "smells" ++ u ":[{" ++ quoted "severity" ++ u ":7}]}".

(** The text [{"smells":[null]}], and the value it is normalised to for the
    code of the examples. *)
Definition nullSmell : jsstring :=
  u "{" ++ quoted "smells" ++ u ":[null]}".

Definition nullSmellResult : JSValue :=
  JObject [(u "smells", JArray [JNull] []); (u "summary", JString []);
           (u "refactored_code", JString Examples.someCode)].

(** The text of an object with the three fields, and the object. *)
Definition wellFormed : jsstring :=
  u "{" ++ quoted "smells" ++ u ":[]," ++ quoted "summary" ++ u ":"
    ++ quoted "ok" ++ u "," ++ quoted "refactored_code" ++ u ":"
    ++ quoted "x" ++ u "}".

Definition wellFormedValue : JSValue :=
  JObject [(u "smells", JArray [] []); (u "summary", JString (u "ok"));
           (u "refactored_code", JString (u "x"))].

End Cases.

(* ================================================================== *)
(** * Properties of strings and of properties of objects *)
(* ================================================================== *)

Import Api.

Lemma eqb_refl (a : jsstring) : Str.eqb a a = true.
Proof.
  induction a as [|x a IH]; simpl; [reflexivity|].
  now rewrite N.eqb_refl, IH.
Qed.

Lemma eqb_eq (a b : jsstring) : Str.eqb a b = true <-> a = b.
Proof.
  split.
  - revert b; induction a as [|x a IH]; intros [|y b] H; simpl in H;
      try discriminate; [reflexivity|].
    apply andb_true_iff in H as [Hx Ha].
    apply N.eqb_eq in Hx. apply IH in Ha. now subst.
  - intros ->. apply eqb_refl.
Qed.

Lemma lookup_assign_same k v ps : lookup k (assign k v ps) = Some v.
Proof.
  induction ps as [|[k' v'] ps IH]; simpl.
  - now rewrite eqb_refl.
  - destruct (Str.eqb k k') eqn:E; simpl.
    + now rewrite eqb_refl.
    + now rewrite E.
Qed.

Lemma lookup_assign_other k k' v ps :
  Str.eqb k k' = false -> lookup k (assign k' v ps) = lookup k ps.
Proof.
  intros Hk. induction ps as [|[k2 v2] ps IH]; simpl.
  - now rewrite Hk.
  - destruct (Str.eqb k' k2) eqn:E; simpl.
    + apply eqb_eq in E; subst k2. now rewrite Hk.
    + now rewrite IH.
Qed.

(** A field of the result is no index and is not [length]: on an array it is
    a named property. *)
Lemma member_array_field es named f :
  member (JArray es named) (fieldName f) = orUndefined (lookup (fieldName f) named).
Proof. destruct f; reflexivity. Qed.

Lemma fieldName_eqb f g : Str.eqb (fieldName g) (fieldName f) = Field_eqb f g.
Proof. destruct f, g; reflexivity. Qed.

(** Reading a field after an assignment. *)
Lemma member_set v f x v' g :
  set v f x = Returns v' ->
  member v' (fieldName g) = if Field_eqb f g then x else member v (fieldName g).
Proof.
  destruct v; cbn [set]; try discriminate; intros H; injection H as <-.
  - rewrite !member_array_field.
    destruct (Field_eqb f g) eqn:E.
    + assert (f = g) as -> by (destruct f, g; simpl in E; congruence).
      now rewrite lookup_assign_same.
    + rewrite lookup_assign_other; [reflexivity|]. now rewrite fieldName_eqb.
  - cbn [member]. destruct (Field_eqb f g) eqn:E.
    + assert (f = g) as -> by (destruct f, g; simpl in E; congruence).
      now rewrite lookup_assign_same.
    + rewrite lookup_assign_other; [reflexivity|]. now rewrite fieldName_eqb.
Qed.

Lemma set_isObject v f x : isObject v = true ->
  exists v', set v f x = Returns v' /\ isObject v' = true.
Proof. destruct v; simpl; try discriminate; intros _; eexists; split; reflexivity. Qed.

(** A primitive value has none of the three fields. *)
Lemma member_primitive v f :
  isObject v = false -> member v (fieldName f) = JUndefined.
Proof. destruct v; simpl; try discriminate; intros _; destruct f; reflexivity. Qed.

(** One line of the normalisation, on an object or an array: the field
    keeps a value that passes the test and gets the default otherwise; the
    other fields are as before. *)
Lemma ensure_object pred f d v :
  isObject v = true ->
  exists r, ensure pred f d v = Returns r /\ isObject r = true /\
    forall g, member r (fieldName g) =
      if Field_eqb f g
      then (if pred (member v (fieldName f)) then member v (fieldName f) else d)
      else member v (fieldName g).
Proof.
  intros Hv. unfold ensure, get.
  assert (isNullish v = false) as -> by (destruct v; simpl in *; congruence).
  simpl. destruct (pred (member v (fieldName f))) eqn:P; simpl.
  - exists v. repeat split; [assumption|].
    intros g. destruct (Field_eqb f g) eqn:E; [|reflexivity].
    assert (f = g) as -> by (destruct f, g; simpl in E; congruence).
    reflexivity.
  - destruct (set_isObject v f d Hv) as [v' [Hs Ho]].
    exists v'. repeat split; try assumption.
    intros g. apply (member_set _ _ _ _ g Hs).
Qed.

(** On [null] and on a primitive value the same line throws. *)
Lemma ensure_primitive pred f d v :
  pred JUndefined = false -> isObject v = false ->
  ensure pred f d v = Throws TypeError.
Proof.
  intros Hp Hv. unfold ensure, get.
  destruct (isNullish v) eqn:N; simpl; [reflexivity|].
  rewrite member_primitive by assumption. rewrite Hp. simpl.
  destruct v; simpl in *; congruence.
Qed.

(* ================================================================== *)
(** * The normaliser *)
(* ================================================================== *)

(** What [normalizeAnalysis] returns for a text that parses to an object or
    an array. *)
Lemma normalizeAnalysis_object rawText code v :
  JSON.parse (stripFences rawText) = Some v -> isObject v = true ->
  exists r, normalizeAnalysis rawText code = Returns r /\ isObject r = true /\
    member r (u "smells") =
      (if isArray (member v (u "smells")) then member v (u "smells")
       else JArray [] []) /\
    member r (u "summary") =
      (if isString (member v (u "summary")) then member v (u "summary")
       else JString []) /\
    member r (u "refactored_code") =
      (if isString (member v (u "refactored_code"))
       then member v (u "refactored_code") else JString code).
Proof.
  intros Hp Hv. unfold normalizeAnalysis. rewrite Hp.
  destruct (ensure_object isArray smells (JArray [] []) v Hv) as [r1 [E1 [O1 M1]]].
  destruct (ensure_object isString summary (JString []) r1 O1) as [r2 [E2 [O2 M2]]].
  destruct (ensure_object isString refactored_code (JString code) r2 O2)
    as [r3 [E3 [O3 M3]]].
  exists r3. rewrite E1; simpl. rewrite E2; simpl. rewrite E3; simpl.
  split; [reflexivity|]. split; [assumption|].
  pose proof (M1 smells) as A1. pose proof (M1 summary) as A2.
  pose proof (M1 refactored_code) as A3.
  pose proof (M2 smells) as B1. pose proof (M2 summary) as B2.
  pose proof (M2 refactored_code) as B3.
  pose proof (M3 smells) as C1. pose proof (M3 summary) as C2.
  pose proof (M3 refactored_code) as C3.
  simpl in *.
  repeat split.
  - now rewrite C1, B1, A1.
  - now rewrite C2, B2, A2.
  - now rewrite C3, B3, A3.
Qed.

(** For a text that parses to [null], a boolean, a number or a string, it
    throws the [TypeError] of the engine. *)
Lemma normalizeAnalysis_primitive rawText code v :
  JSON.parse (stripFences rawText) = Some v -> isObject v = false ->
  normalizeAnalysis rawText code = Throws TypeError.
Proof.
  intros Hp Hv. unfold normalizeAnalysis. rewrite Hp.
  now rewrite ensure_primitive.
Qed.

(** A text that does not parse gives the error of the parse failure. *)
Lemma normalizeAnalysis_unparsable rawText code :
  JSON.parse (stripFences rawText) = None ->
  normalizeAnalysis rawText code = Throws (Error msgUnparsable).
Proof. intros Hp. unfold normalizeAnalysis. now rewrite Hp. Qed.

Lemma lowerUnit_idempotent c : lowerUnit (lowerUnit c) = lowerUnit c.
Proof.
  unfold lowerUnit.
  destruct ((65 <=? c) && (c <=? 90)) eqn:E; [|now rewrite E].
  apply andb_true_iff in E as [E1 E2].
  apply N.leb_le in E1, E2.
  assert ((c + 32 <=? 90) = false) as -> by (apply N.leb_gt; lia).
  now rewrite andb_false_r.
Qed.

Lemma toLowerCase_idempotent s : toLowerCase (toLowerCase s) = toLowerCase s.
Proof.
  unfold toLowerCase. rewrite map_map.
  apply map_ext. intros c. apply lowerUnit_idempotent.
Qed.

(** The class [normaliseSeverity] gives to a text is one of the three
    classes and does not depend on the case of its letters. *)
Lemma normaliseSeverity_text s :
  exists c, Ui.normaliseSeverity (JString s) = Returns c /\
    Ui.normaliseSeverity (JString (toLowerCase s)) = Returns c /\
    (c = u "critical" \/ c = u "major" \/ c = u "minor").
Proof.
  unfold Ui.normaliseSeverity. cbn [coalesce isNullish].
  rewrite toLowerCase_idempotent.
  destruct (Str.eqb (toLowerCase s) (u "critical")); [eauto 6|].
  destruct (Str.eqb (toLowerCase s) (u "major")); eauto 6.
Qed.

(** A severity that is present and is not text has no [toLowerCase]: the
    call of it in [normaliseSeverity] throws a [TypeError]. *)
Lemma normaliseSeverity_not_text v :
  isNullish v = false -> isString v = false ->
  Ui.normaliseSeverity v = Throws TypeError.
Proof. destruct v; cbn; intros; try reflexivity; discriminate. Qed.

(** C1 (amended).  For every raw text accepted by [normalizeAnalysis], the
    returned [smells] is the parsed [smells] array as it was parsed: no
    element is repaired, replaced or dropped; it is the empty sequence when
    the parsed [smells] is not an array.  A severity is mapped only by
    [normaliseSeverity], when a smell is drawn, not in the returned result:
    a severity that is text is mapped, whatever the case of its letters, to
    one of the classes critical, major, minor, and to minor when the text
    is not recognised; a severity that is missing ([undefined] or [null])
    is mapped to minor.  Nothing is stated of a severity that is present
    and is not text. *)
Theorem normalizeAnalysis_smells_as_parsed rawText code v r :
  JSON.parse (stripFences rawText) = Some v ->
  normalizeAnalysis rawText code = Returns r ->
  member r (u "smells") =
    (if isArray (member v (u "smells")) then member v (u "smells")
     else JArray [] [])
  /\ (forall s, exists c,
        Ui.normaliseSeverity (JString s) = Returns c /\
        Ui.normaliseSeverity (JString (toLowerCase s)) = Returns c /\
        (c = u "critical" \/ c = u "major" \/ c = u "minor"))
  /\ Ui.normaliseSeverity JUndefined = Returns (u "minor")
  /\ Ui.normaliseSeverity JNull = Returns (u "minor")
  /\ (forall s, Str.eqb (toLowerCase s) (u "critical") = false ->
        Str.eqb (toLowerCase s) (u "major") = false ->
        Ui.normaliseSeverity (JString s) = Returns (u "minor")).
Proof.
  intros Hp Hr.
  split; [|split; [exact normaliseSeverity_text|repeat split]].
  - destruct (isObject v) eqn:O.
    + destruct (normalizeAnalysis_object rawText code v Hp O)
        as [r' [E [_ [S _]]]].
      rewrite E in Hr. injection Hr as <-. exact S.
    + rewrite (normalizeAnalysis_primitive rawText code v Hp O) in Hr.
      discriminate.
  - intros s H1 H2. unfold Ui.normaliseSeverity. cbn [coalesce isNullish].
    now rewrite H1, H2.
Qed.

Lemma normalizeAnalysis_smells_as_parsed_witness :
  let v := JObject [(u "smells",
             JArray [JNumber (u "7");
                     JObject [(u "severity", JString (u "major"))]] [])] in
  JSON.parse (stripFences Examples.unrepairedSmells) = Some v
  /\ (exists r, normalizeAnalysis Examples.unrepairedSmells Examples.someCode
                = Returns r
       /\ member r (u "smells") = member v (u "smells")).
Proof.
  split; [reflexivity|].
  eexists. split; [reflexivity|].
  exact (proj1 (normalizeAnalysis_smells_as_parsed Examples.unrepairedSmells
                  Examples.someCode _ _ eq_refl eq_refl)).
Defined.

(** C1, as stated, fails: the text
    [{"smells":[7,{"severity":"major"}]}] is accepted, and the returned
    sequence still holds the number and the object without a name, whose
    severity is still written in lower case.  Nor is every severity mapped
    to a class when the smell is drawn: the text
    [{"smells":[{"severity":7}]}] is accepted, the severity of the smell
    returned is still the number, and [normaliseSeverity] throws on it. *)
Lemma normalizeAnalysis_returns_unrepaired_smells :
  (exists r,
    normalizeAnalysis Examples.unrepairedSmells Examples.someCode = Returns r
    /\ member r (u "smells") =
         JArray [JNumber (u "7");
                 JObject [(u "severity", JString (u "major"))]] []
    /\ forallb Spec.isSmell
         [JNumber (u "7"); JObject [(u "severity", JString (u "major"))]]
       = false
    /\ Spec.isSmell (JObject [(u "severity", JString (u "major"))]) = false)
  /\ (exists r,
        normalizeAnalysis Cases.numberSeverity Examples.someCode = Returns r
        /\ member r (u "smells") =
             JArray [JObject [(u "severity", JNumber (u "7"))]] []
        /\ Ui.normaliseSeverity
             (member (JObject [(u "severity", JNumber (u "7"))]) (u "severity"))
           = Throws TypeError).
Proof. split; eexists; repeat split. Qed.

(** C3 (amended).  For every raw text accepted by [normalizeAnalysis], the
    [refactored_code] of the result is text: the parsed text when the
    parsed [refactored_code] is text, be it empty, and the fallback code
    when it is missing or not text. *)
Theorem normalizeAnalysis_refactored_code rawText code v r :
  JSON.parse (stripFences rawText) = Some v ->
  normalizeAnalysis rawText code = Returns r ->
  member r (u "refactored_code") =
    (if isString (member v (u "refactored_code"))
     then member v (u "refactored_code") else JString code)
  /\ isString (member r (u "refactored_code")) = true.
Proof.
  intros Hp Hr.
  destruct (isObject v) eqn:O.
  - destruct (normalizeAnalysis_object rawText code v Hp O)
      as [r' [E [_ [_ [_ R]]]]].
    rewrite E in Hr. injection Hr as <-. split; [exact R|].
    rewrite R. destruct (isString (member v (u "refactored_code"))) eqn:I;
      [exact I|reflexivity].
  - rewrite (normalizeAnalysis_primitive rawText code v Hp O) in Hr.
    discriminate.
Qed.

Lemma normalizeAnalysis_refactored_code_witness :
  JSON.parse (stripFences (u "{}")) = Some (JObject [])
  /\ normalizeAnalysis (u "{}") Examples.someCode
     = Returns (JObject [(u "smells", JArray [] []); (u "summary", JString []);
                         (u "refactored_code", JString Examples.someCode)])
  /\ member (JObject [(u "smells", JArray [] []); (u "summary", JString []);
                      (u "refactored_code", JString Examples.someCode)])
       (u "refactored_code") = JString Examples.someCode.
Proof.
  split; [reflexivity|]. split; [reflexivity|].
  exact (proj1 (normalizeAnalysis_refactored_code (u "{}") Examples.someCode
                  _ _ eq_refl eq_refl)).
Defined.

(** C3, as stated, fails: the text of an object whose [refactored_code] is
    the empty text is accepted, and the [refactored_code] of the result is
    the empty text, not the code that was submitted. *)
Lemma normalizeAnalysis_keeps_empty_refactored_code :
  exists r,
    normalizeAnalysis Examples.emptyRefactoring Examples.someCode = Returns r
    /\ member r (u "refactored_code") = JString []
    /\ Spec.nonEmptyText (member r (u "refactored_code")) = false
    /\ member r (u "refactored_code") <> JString Examples.someCode.
Proof. eexists. repeat split. discriminate. Qed.

(** C4, at the text [null]: it is valid JSON, and [normalizeAnalysis] throws
    a [TypeError], which is not the error of a parse failure. *)
Theorem normalizeAnalysis_null_throws_TypeError :
  JSON.parse (stripFences (u "null")) = Some JNull
  /\ forall code,
       normalizeAnalysis (u "null") code = Throws TypeError
       /\ ~ Spec.raises Spec.ParseError (normalizeAnalysis (u "null") code).
Proof.
  split; [reflexivity|]. intros code. split; [reflexivity|].
  simpl. discriminate.
Qed.

(* ================================================================== *)
(** * The completion client *)
(* ================================================================== *)

(** C6 (amended).  [callGemini] classifies every way the request can
    settle, the failure of the reading of the body of a response of status
    200 to 299 apart.  A request that fails before a response arrives gives
    Timeout when the failure is the abort by the signal of 30 seconds (an
    error named [TimeoutError] or [AbortError]) and NetworkError for any
    other failure; status 400 gives BadCredential; 401 and 403 give
    Unauthorized; 429 gives RateLimited; any other status outside 200 to
    299 gives EndpointError with that status, whatever becomes of the body,
    which is not read; a status from 200 to 299 whose body, read to its end,
    is not JSON, or whose text field is absent, is not text, or is blank
    (empty once white space is trimmed), gives MalformedEnvelope; otherwise
    the text is returned as it is. *)
Theorem callGemini_classification fetch prompt apiKey forceJson :
  let request := fetchRequest prompt apiKey forceJson in
  let o := callGemini fetch prompt apiKey forceJson in
  timeout request = 30000
  /\ (forall name, fetch request = Rejected name ->
        name = u "TimeoutError" \/ name = u "AbortError" ->
        Spec.raises Spec.Timeout o)
  /\ (forall name, fetch request = Rejected name ->
        name <> u "TimeoutError" -> name <> u "AbortError" ->
        Spec.raises Spec.NetworkError o)
  /\ (statusOf (fetch request) = Some 400 ->
        Spec.raises Spec.BadCredential o)
  /\ (forall status, statusOf (fetch request) = Some status ->
        status = 401 \/ status = 403 -> Spec.raises Spec.Unauthorized o)
  /\ (statusOf (fetch request) = Some 429 ->
        Spec.raises Spec.RateLimited o)
  /\ (forall status, statusOf (fetch request) = Some status ->
        status <> 400 -> status <> 401 -> status <> 403 -> status <> 429 ->
        ~ (200 <= status <= 299) ->
        Spec.raises (Spec.EndpointError status) o)
  /\ (forall status, 200 <= status <= 299 ->
        fetch request = Response status None ->
        Spec.raises Spec.MalformedEnvelope o)
  /\ (forall status data, 200 <= status <= 299 ->
        fetch request = Response status (Some data) ->
        isString (textOf data) = false ->
        Spec.raises Spec.MalformedEnvelope o)
  /\ (forall status data t, 200 <= status <= 299 ->
        fetch request = Response status (Some data) ->
        textOf data = JString t -> trim t = [] ->
        Spec.raises Spec.MalformedEnvelope o)
  /\ (forall status data t, 200 <= status <= 299 ->
        fetch request = Response status (Some data) ->
        textOf data = JString t -> trim t <> [] ->
        o = Returns t).
Proof.
  intros request o. subst o. unfold callGemini. fold request.
  assert (Hok : forall status, 200 <= status <= 299 ->
            (status =? 400) = false /\ ((status =? 401) || (status =? 403)) = false
            /\ (status =? 429) = false /\ negb (ok status) = false).
  { intros status [H1 H2]. unfold ok.
    repeat split.
    - apply N.eqb_neq; lia.
    - apply orb_false_iff; split; apply N.eqb_neq; lia.
    - apply N.eqb_neq; lia.
    - apply negb_false_iff, andb_true_iff; split; apply N.leb_le; lia. }
  split; [reflexivity|].
  split.
  { intros name -> [-> | ->]; reflexivity. }
  split.
  { intros name -> H1 H2. cbv beta iota.
    assert (Str.eqb name (u "TimeoutError") = false) as ->.
    { destruct (Str.eqb name (u "TimeoutError")) eqn:E; [|reflexivity].
      apply eqb_eq in E. contradiction. }
    assert (Str.eqb name (u "AbortError") = false) as ->.
    { destruct (Str.eqb name (u "AbortError")) eqn:E; [|reflexivity].
      apply eqb_eq in E. contradiction. }
    reflexivity. }
  split.
  { destruct (fetch request); cbn [statusOf]; intros [= ->]; reflexivity. }
  split.
  { intros status H [-> | ->]; destruct (fetch request); cbn [statusOf] in H;
      try discriminate; injection H as ->; reflexivity. }
  split.
  { destruct (fetch request); cbn [statusOf]; intros [= ->]; reflexivity. }
  split.
  { intros status H H0 H1 H3 H9 Hn.
    assert (K : ok status = false).
    { unfold ok. destruct (200 <=? status) eqn:L; [|reflexivity].
      destruct (status <=? 299) eqn:U; [|reflexivity].
      apply N.leb_le in L, U. exfalso. apply Hn. split; assumption. }
    apply N.eqb_neq in H0, H1, H3, H9.
    destruct (fetch request); cbn [statusOf] in H; try discriminate;
      injection H as ->; cbv beta iota; rewrite H0, H1, H3, H9, K;
      reflexivity. }
  split.
  { intros status Hs ->. cbv beta iota.
    destruct (Hok status Hs) as [-> [-> [-> ->]]]. left; reflexivity. }
  split.
  { intros status data Hs -> Ht. cbv beta iota zeta.
    destruct (Hok status Hs) as [-> [-> [-> ->]]].
    destruct (textOf data); try (right; reflexivity). discriminate. }
  split.
  { intros status data t Hs -> Ht Hb. cbv beta iota zeta.
    destruct (Hok status Hs) as [-> [-> [-> ->]]].
    rewrite Ht, Hb. right; reflexivity. }
  intros status data t Hs -> Ht Hb. cbv beta iota zeta.
  destruct (Hok status Hs) as [-> [-> [-> ->]]].
  rewrite Ht.
  destruct (Str.eqb (trim t) []) eqn:E; [|reflexivity].
  apply eqb_eq in E. contradiction.
Qed.

Lemma callGemini_classification_witness :
  statusOf (Examples.rateLimited
              (fetchRequest Examples.somePrompt Examples.someKey true)) = Some 429
  /\ Spec.raises Spec.RateLimited
       (callGemini Examples.rateLimited Examples.somePrompt Examples.someKey true)
  /\ textOf (envelope (JString (u "{}"))) = JString (u "{}")
  /\ trim (u "{}") <> []
  /\ callGemini (Examples.replies (u "{}")) Examples.somePrompt Examples.someKey true
     = Returns (u "{}").
Proof.
  destruct (callGemini_classification Examples.rateLimited Examples.somePrompt
              Examples.someKey true) as [_ [_ [_ [_ [_ [H _]]]]]].
  destruct (callGemini_classification (Examples.replies (u "{}"))
              Examples.somePrompt Examples.someKey true)
    as [_ [_ [_ [_ [_ [_ [_ [_ [_ [_ R]]]]]]]]]].
  split; [reflexivity|]. split; [exact (H eq_refl)|].
  split; [reflexivity|]. split; [discriminate|].
  apply (R 200 (envelope (JString (u "{}"))) (u "{}")).
  - split; apply N.leb_le; reflexivity.
  - reflexivity.
  - reflexivity.
  - discriminate.
Defined.

(** C6, as stated, fails, in two ways.  A reply of status 200 whose text
    field is present and is one space, which is not the empty text, is not
    returned as it is: [callGemini] throws the error of a malformed
    envelope.  And when the response of status 200 has arrived and the
    signal of 30 seconds aborts the reading of its body, or the connection
    is lost meanwhile, the error thrown is that of a malformed response,
    not that of a timeout or of the network: the [catch] around
    [response.json ()] does not look at the error. *)
Lemma callGemini_blank_text_and_interrupted_body :
  (textOf (envelope (JString [32])) = JString [32]
   /\ [32] <> ([] : jsstring)
   /\ callGemini Examples.blankReply Examples.somePrompt Examples.someKey true
      = Throws (Error msgNoContent)
   /\ callGemini Examples.blankReply Examples.somePrompt Examples.someKey true
      <> Returns [32])
  /\ (callGemini Cases.timedOutInBody Examples.somePrompt Examples.someKey true
      = Throws (Error msgMalformed)
      /\ ~ Spec.raises Spec.Timeout
           (callGemini Cases.timedOutInBody Examples.somePrompt
              Examples.someKey true))
  /\ (callGemini Cases.lostInBody Examples.somePrompt Examples.someKey true
      = Throws (Error msgMalformed)
      /\ ~ Spec.raises Spec.NetworkError
           (callGemini Cases.lostInBody Examples.somePrompt
              Examples.someKey true)).
Proof. repeat split; discriminate. Qed.

Lemma digitsValue_digit m rest a :
  m < 10 -> digitsValue ((48 + m) :: rest) a = digitsValue rest (10 * a + m).
Proof.
  intros Hm. cbn [digitsValue].
  assert ((48 <=? 48 + m) = true) as -> by (apply N.leb_le; lia).
  assert ((48 + m <=? 57) = true) as -> by (apply N.leb_le; lia).
  cbn [andb]. f_equal. lia.
Qed.

(** The digits written for [n] in front of [acc] read back as [n]. *)
Lemma digitsFuel_value fuel : forall n acc,
  n < 2 ^ N.of_nat (S fuel) ->
  exists ds : jsstring, digitsFuel (S fuel) n acc = ds ++ acc /\
    forall a rest, digitsValue (ds ++ rest) a =
                   digitsValue rest (a * 10 ^ N.of_nat (List.length ds) + n).
Proof.
  induction fuel as [|fuel IH]; intros n acc Hn.
  - change (2 ^ N.of_nat 1) with 2 in Hn.
    exists [48 + n mod 10]. split.
    + cbn [digitsFuel]. destruct (n / 10 =? 0); reflexivity.
    + intros a rest. cbn [app]. rewrite digitsValue_digit
        by (apply N.mod_lt; discriminate).
      f_equal. rewrite N.mod_small by lia. cbn [List.length]. 
      change (10 ^ N.of_nat 1) with 10. lia.
  - cbn [digitsFuel]. destruct (n / 10 =? 0) eqn:E.
    + apply N.eqb_eq in E. exists [48 + n mod 10]. split; [reflexivity|].
      intros a rest. cbn [app]. rewrite digitsValue_digit
        by (apply N.mod_lt; discriminate).
      f_equal. pose proof (N.div_mod n 10 ltac:(discriminate)) as D.
      rewrite E in D. cbn [List.length]. change (10 ^ N.of_nat 1) with 10. lia.
    + assert (Hq : n / 10 < 2 ^ N.of_nat (S fuel)).
      { apply N.Div0.div_lt_upper_bound.
        rewrite Nat2N.inj_succ, N.pow_succ_r' in Hn.
        rewrite Nat2N.inj_succ in Hn. lia. }
      destruct (IH (n / 10) ((48 + n mod 10) :: acc) Hq) as [ds [Hd Hv]].
      exists (ds ++ [48 + n mod 10]). split.
      * change (digitsFuel (S fuel) (n / 10) ((48 + n mod 10) :: acc)
                = (ds ++ [48 + n mod 10]) ++ acc).
        rewrite Hd. now rewrite <- app_assoc.
      * intros a rest. rewrite <- app_assoc. cbn [app].
        rewrite Hv. rewrite digitsValue_digit by (apply N.mod_lt; discriminate).
        f_equal. rewrite length_app. cbn [List.length].
        rewrite Nat.add_1_r, Nat2N.inj_succ, N.pow_succ_r'.
        pose proof (N.div_mod n 10 ltac:(discriminate)) as D. lia.
Qed.

Lemma decimal_value n : digitsValue (decimal n) 0 = Some n.
Proof.
  unfold decimal.
  destruct (digitsFuel_value (N.to_nat (N.log2 n)) n []) as [ds [Hd Hv]].
  - rewrite Nat2N.inj_succ, N2Nat.id.
    destruct (N.eq_dec n 0) as [->|Hn]; [reflexivity|].
    apply N.log2_spec. lia.
  - rewrite Hd. rewrite (Hv 0 []). cbn [digitsValue]. reflexivity.
Qed.

(** The message of an EndpointError carries the status: two statuses with
    the same message are equal. *)
Lemma msgHttp_injective s s' : msgHttp s = msgHttp s' -> s = s'.
Proof.
  unfold msgHttp. intros H.
  apply app_inv_head in H. apply app_inv_tail in H.
  pose proof (decimal_value s) as V. rewrite H, decimal_value in V.
  congruence.
Qed.

(** A failure is of one kind only: the messages of the kinds are distinct. *)
Lemma raises_kind_unique {A} (o : outcome A) k k' :
  Spec.raises k o -> Spec.raises k' o -> k = k'.
Proof.
  assert (D : forall s m, hd 0 m <> 71 -> Throws (A:=A) (Error m)
                = Throws (Error (msgHttp s)) -> False).
  { intros s m Hm E. injection E as E. apply Hm. rewrite E. reflexivity. }
  intros H H'.
  destruct k, k'; cbn [Spec.raises] in H, H'; try reflexivity;
    repeat match goal with
    | X : _ \/ _ |- _ => destruct X as [X|X]
    end;
    rewrite H in H';
    try (exfalso; refine (D _ _ _ H'); vm_compute; discriminate);
    try (exfalso; refine (D _ _ _ (eq_sym H')); vm_compute; discriminate);
    try (vm_compute in H'; discriminate).
  f_equal. apply msgHttp_injective. congruence.
Qed.

(** C10.  The request of [callGemini] goes to the fixed endpoint, whatever
    the credential: for two credentials the two requests have the same URL,
    method, body and timeout, and differ only in the value of the header
    [x-goog-api-key], which is the credential.  Every request the
    application sends is such a request. *)
Theorem credential_only_in_header prompt forceJson key1 key2 :
  let r1 := fetchRequest prompt key1 forceJson in
  let r2 := fetchRequest prompt key2 forceJson in
  url r1 = GEMINI_ENDPOINT
  /\ url r1 = url r2
  /\ method r1 = method r2
  /\ body r1 = body r2
  /\ timeout r1 = timeout r2
  /\ headers r1 = [(u "Content-Type", u "application/json");
                   (u "x-goog-api-key", key1)]
  /\ headers r2 = [(u "Content-Type", u "application/json");
                   (u "x-goog-api-key", key2)]
  /\ (forall fetch, callGemini fetch prompt key1 forceJson
                    = callGemini (fun _ => fetch r1) prompt key1 forceJson)
  /\ (forall p, url (App.requestOf p) = GEMINI_ENDPOINT)
  /\ (forall code language,
        body (App.requestOf (App.PendingAnalyze code language key1))
        = body (App.requestOf (App.PendingAnalyze code language key2)))
  /\ (forall question originalCode analysisResult,
        body (App.requestOf
                (App.PendingFollowUp question originalCode analysisResult key1))
        = body (App.requestOf
                  (App.PendingFollowUp question originalCode analysisResult key2))).
Proof.
  cbv zeta. repeat split.
  intros p. destruct p; reflexivity.
Qed.

(* ================================================================== *)
(** * The session *)
(* ================================================================== *)

Import App.

(** C9.  [reset] is a total function of the state: from any state it gives
    the state in which the code, the language, the analysis result and the
    chat history have their initial values and the API key is the one it
    had.  The handler of the Clear button does this to the state of the
    session. *)
Theorem reset_clears_all_but_the_key s :
  State.currentCode (State.reset s) = State.currentCode State.initial
  /\ State.currentLanguage (State.reset s) = State.currentLanguage State.initial
  /\ State.analysisResult (State.reset s) = State.analysisResult State.initial
  /\ State.chatHistory (State.reset s) = State.chatHistory State.initial
  /\ State.currentCode (State.reset s) = []
  /\ State.currentLanguage (State.reset s) = u "auto"
  /\ State.analysisResult (State.reset s) = None
  /\ State.chatHistory (State.reset s) = []
  /\ State.apiKey (State.reset s) = State.apiKey s
  /\ (forall a, state (onClear a) = State.reset (state a)).
Proof. repeat split. Qed.

Lemma nth_error_last {A} (l : list A) (x : A) :
  nth_error (l ++ [x]) (List.length l) = Some x.
Proof. induction l as [|y l IH]; simpl; [reflexivity|exact IH]. Qed.

Lemma nth_error_length {A} (l : list A) : nth_error l (List.length l) = None.
Proof. induction l as [|y l IH]; simpl; [reflexivity|exact IH]. Qed.

Lemma remove_nth_last {A} (l : list A) (x : A) :
  remove_nth (List.length l) (l ++ [x]) = l.
Proof. induction l as [|y l IH]; simpl; [reflexivity|now rewrite IH]. Qed.

(** C5 (amended).  A call of [onChatSend] when there is no analysis result
    returns at once and changes nothing: the chat history, the page with its
    error banner, and the requests in flight are as before; no error is
    reported. *)
Theorem onChatSend_without_analysis fetch now later a :
  State.getAnalysisResult (state a) = None ->
  onChatSend fetch now later a = a
  /\ onChatSend_start now a = a
  /\ step a (ClickChatSend now) = a
  /\ State.chatHistory (state (onChatSend fetch now later a))
     = State.chatHistory (state a).
Proof.
  intros H.
  assert (S : onChatSend_start now a = a).
  { unfold onChatSend_start. rewrite H.
    destruct (trim (Ui.chatInput_value (page a))); [reflexivity|].
    destruct (usableKey (State.getApiKey (state a))); reflexivity. }
  assert (W : onChatSend fetch now later a = a).
  { unfold onChatSend, settleLast. rewrite S. now rewrite nth_error_length. }
  repeat split.
  - exact W.
  - exact S.
  - cbn [step]. rewrite S. now destruct (Ui.chatSendBtn_disabled (page a)).
  - now rewrite W.
Qed.

Lemma onChatSend_without_analysis_witness :
  State.getAnalysisResult (state Examples.asking) = None
  /\ onChatSend (Examples.replies (u "because")) 1 2 Examples.asking
     = Examples.asking.
Proof.
  split; [reflexivity|].
  exact (proj1 (onChatSend_without_analysis (Examples.replies (u "because")) 1 2
                  Examples.asking eq_refl)).
Defined.

(** C5, as stated, fails: with a key and the question [why?] typed, and no
    analysis result, the call reports no error: the error banner stays
    hidden, with no message. *)
Lemma no_error_when_chat_has_no_analysis :
  State.getAnalysisResult (state Examples.asking) = None
  /\ Ui.errorBanner_hidden (page Examples.asking) = true
  /\ Ui.errorBanner_hidden
       (page (onChatSend (Examples.replies (u "because")) 1 2 Examples.asking))
     = true
  /\ Ui.errorMessage
       (page (onChatSend (Examples.replies (u "because")) 1 2 Examples.asking))
     = Text [].
Proof. repeat split. Qed.

(** Settling the request a handler has just sent runs the rest of that
    handler on the session without the request. *)
Lemma settleLast_sent fetch rendered later a a1 p :
  pending a = pending a1 ->
  settleLast fetch rendered later a (send p a1)
  = match p with
    | PendingAnalyze code language apiKey =>
        onAnalyze_settle code language apiKey (fetch (requestOf p)) rendered a1
    | PendingFollowUp question originalCode analysisResult apiKey =>
        onChatSend_settle question originalCode analysisResult apiKey
          (fetch (requestOf p)) later a1
    end.
Proof.
  intros Hp. unfold settleLast, settle, send. cbn [pending state page].
  rewrite Hp, nth_error_last, remove_nth_last.
  destruct a1 as [s g q]; destruct p; reflexivity.
Qed.

Lemma In_remove_nth_other {A} (x y : A) i l :
  In x l -> nth_error l i = Some y -> x <> y -> In x (remove_nth i l).
Proof.
  revert i. induction l as [|z l IH]; intros i Hin Hn Hne; [contradiction|].
  destruct i as [|i]; cbn in *.
  - injection Hn as ->. destruct Hin as [->|Hin]; [contradiction|exact Hin].
  - destruct Hin as [->|Hin]; [now left|right; eauto].
Qed.

(** While Clear is not clicked and no follow-up request settles, a follow-up
    request in flight stays in flight, the chat controls stay disabled, and
    the history stays as it is. *)
Lemma step_undisturbed request a e :
  Keeps.isFollowUp request = true ->
  In request (pending a) ->
  Ui.chatSendBtn_disabled (page a) = true ->
  Ui.chatInput_disabled (page a) = true ->
  Keeps.isClear e = false ->
  Keeps.settlesFollowUp a e = false ->
  State.chatHistory (state (step a e)) = State.chatHistory (state a)
  /\ In request (pending (step a e))
  /\ Ui.chatSendBtn_disabled (page (step a e)) = true
  /\ Ui.chatInput_disabled (page (step a e)) = true.
Proof.
  intros F Hin B I C S. destruct a as [s g w]. cbn [state page pending] in *.
  destruct e; cbn [step Keeps.isClear Keeps.settlesFollowUp page pending] in *;
    try discriminate; try rewrite B; try rewrite I; try (now repeat split).
  - destruct loaded; now repeat split.
  - destruct (Ui.codeInput_disabled g); now repeat split.
  - destruct (Ui.languageSelect_disabled g); now repeat split.
  - destruct (Ui.analyzeBtn_disabled g); [now repeat split|].
    unfold onAnalyze_start. cbn [state page].
    destruct (usableKey (State.getApiKey s)); cbn; repeat split; try assumption.
    apply in_or_app. now left.
  - unfold onExportChat. cbn [state].
    destruct (State.chatLogIsEmpty s); now repeat split.
  - unfold settle. cbn [pending].
    destruct (nth_error w i) as [p|] eqn:N; [|now repeat split].
    destruct p as [code language apiKey|]; [|discriminate].
    assert (Hin' : In request (remove_nth i w)).
    { apply (In_remove_nth_other _ _ _ _ Hin N).
      intros ->. discriminate. }
    unfold onAnalyze_settle.
    destruct (analyzeCode (fun _ => fetched) code language apiKey);
      [destruct rendered|]; cbn; now repeat split.
Qed.

Lemma run_undisturbed request es : forall a,
  Keeps.isFollowUp request = true ->
  In request (pending a) ->
  Ui.chatSendBtn_disabled (page a) = true ->
  Ui.chatInput_disabled (page a) = true ->
  Keeps.undisturbed a es = true ->
  State.chatHistory (state (run a es)) = State.chatHistory (state a)
  /\ In request (pending (run a es)).
Proof.
  induction es as [|e es IH]; intros a F Hin B I U; [now split|].
  cbn [Keeps.undisturbed] in U.
  apply andb_true_iff in U as [U U3]. apply andb_true_iff in U as [U1 U2].
  apply negb_true_iff in U1, U2.
  destruct (step_undisturbed request a e F Hin B I U1 U2) as [H [Hin' [B' I']]].
  destruct (IH (step a e) F Hin' B' I' U3) as [H' Hin''].
  change (run a (e :: es)) with (run (step a e) es).
  split; [now rewrite H'|exact Hin''].
Qed.

(** C7 (amended).  A call of [onChatSend] that passes its guard (a question
    that is not blank, a key, an analysis result) appends at once the entry
    of the user, with the trimmed question, and sends its request.  When,
    between the click and the settlement of that request, Clear is not
    clicked and no other follow-up request settles, the history is still the
    one before the call with the entry of the user, whatever else happens;
    the settlement then appends the entry of the assistant (role [gemini])
    with the reply when the request succeeds, so that the history has grown
    by exactly these two entries in this order, and appends nothing when it
    fails, so that the entry of the user is the only one appended, and the
    error is shown.  So it is, in particular, when nothing happens between
    the click and the settlement. *)
Theorem onChatSend_history fetch now later a q question apiKey analysisResult :
  trim (Ui.chatInput_value (page a)) = q :: question ->
  usableKey (State.getApiKey (state a)) = Some apiKey ->
  State.getAnalysisResult (state a) = Some analysisResult ->
  let asked := {| State.role := u "user"; State.text := q :: question;
                  State.timestamp := now |} in
  let request :=
    PendingFollowUp (q :: question) (State.getCurrentCode (state a))
      analysisResult apiKey in
  let sent := onChatSend_start now a in
  State.chatHistory (state sent) = State.chatHistory (state a) ++ [asked]
  /\ pending sent = pending a ++ [request]
  /\ (forall es i fetched rendered,
        Keeps.undisturbed sent es = true ->
        let b := run sent es in
        let b' := step b (Settle i fetched rendered later) in
        let outcome :=
          Api.sendFollowUp (fun _ => fetched) (q :: question)
            (State.getCurrentCode (state a)) analysisResult apiKey in
        State.chatHistory (state b) = State.chatHistory (state a) ++ [asked]
        /\ In request (pending b)
        /\ (nth_error (pending b) i = Some request ->
            (forall reply, outcome = Returns reply ->
               State.chatHistory (state b')
               = State.chatHistory (state a)
                 ++ [asked; {| State.role := u "gemini"; State.text := reply;
                               State.timestamp := later |}])
            /\ (forall err, outcome = Throws err ->
                  State.chatHistory (state b')
                  = State.chatHistory (state a) ++ [asked]
                  /\ Ui.errorBanner_hidden (page b') = false
                  /\ Ui.errorMessage (page b') = message err)))
  /\ (forall reply,
        Api.sendFollowUp fetch (q :: question) (State.getCurrentCode (state a))
          analysisResult apiKey = Returns reply ->
        State.chatHistory (state (onChatSend fetch now later a))
        = State.chatHistory (state a)
          ++ [asked; {| State.role := u "gemini"; State.text := reply;
                        State.timestamp := later |}])
  /\ (forall err,
        Api.sendFollowUp fetch (q :: question) (State.getCurrentCode (state a))
          analysisResult apiKey = Throws err ->
        State.chatHistory (state (onChatSend fetch now later a))
        = State.chatHistory (state a) ++ [asked]
        /\ Ui.errorBanner_hidden (page (onChatSend fetch now later a)) = false
        /\ Ui.errorMessage (page (onChatSend fetch now later a)) = message err).
Proof.
  intros Hq Hk Hr asked request sent.
  assert (S : sent =
    send request
      (onPage (Ui.setChatSending true)
         (onPage Ui.clearChatInput
            (onPage (Ui.appendChatMessage (u "user") (q :: question))
               (onState (State.appendChat (u "user") (q :: question) now) a))))).
  { unfold sent, onChatSend_start. now rewrite Hq, Hk, Hr. }
  assert (H0 : State.chatHistory (state sent)
               = State.chatHistory (state a) ++ [asked]) by now rewrite S.
  split; [exact H0|].
  split; [now rewrite S|].
  split.
  { intros es i fetched rendered U b b' outcome.
    destruct (run_undisturbed request es sent eq_refl) as [H Hin];
      try (rewrite S; reflexivity); try exact U.
    { rewrite S. cbn [send pending]. apply in_or_app. right. now left. }
    fold b in H, Hin. rewrite H0 in H.
    split; [exact H|]. split; [exact Hin|].
    intros N. unfold b'. cbn [step]. unfold settle. rewrite N.
    unfold request, onChatSend_settle. cbv beta iota. fold outcome.
    clearbody b outcome.
    split.
    - intros reply ->. cbn. rewrite H. now rewrite <- app_assoc.
    - intros err ->. cbn. rewrite H. now repeat split. }
  assert (W : onChatSend fetch now later a =
    onChatSend_settle (q :: question) (State.getCurrentCode (state a))
      analysisResult apiKey (fetch (requestOf request)) later
      (onPage (Ui.setChatSending true)
         (onPage Ui.clearChatInput
            (onPage (Ui.appendChatMessage (u "user") (q :: question))
               (onState (State.appendChat (u "user") (q :: question) now) a))))).
  { unfold onChatSend. fold sent. rewrite S. now rewrite settleLast_sent. }
  split.
  - intros reply Ho. rewrite W. unfold onChatSend_settle.
    change (Api.sendFollowUp (fun _ => fetch (requestOf request)) (q :: question)
              (State.getCurrentCode (state a)) analysisResult apiKey)
      with (Api.sendFollowUp fetch (q :: question)
              (State.getCurrentCode (state a)) analysisResult apiKey).
    rewrite Ho. cbn. now rewrite <- app_assoc.
  - intros err Ho. rewrite W. unfold onChatSend_settle.
    change (Api.sendFollowUp (fun _ => fetch (requestOf request)) (q :: question)
              (State.getCurrentCode (state a)) analysisResult apiKey)
      with (Api.sendFollowUp fetch (q :: question)
              (State.getCurrentCode (state a)) analysisResult apiKey).
    rewrite Ho. cbn. repeat split.
Qed.

Lemma onChatSend_history_witness :
  trim (Ui.chatInput_value (page Examples.analysed)) = u "why?"
  /\ usableKey (State.getApiKey (state Examples.analysed)) = Some Examples.someKey
  /\ State.chatHistory (state Examples.analysed) = []
  /\ Keeps.undisturbed (onChatSend_start 1 Examples.analysed) Cases.meanwhile
     = true
  /\ State.chatHistory
       (state (step (run (onChatSend_start 1 Examples.analysed) Cases.meanwhile)
                 (Settle 0 Cases.because None 2)))
     = State.chatHistory (state Examples.analysed)
       ++ [{| State.role := u "user"; State.text := u "why?";
              State.timestamp := 1 |};
           {| State.role := u "gemini"; State.text := u "because";
              State.timestamp := 2 |}]
  /\ State.chatHistory
       (state (onChatSend Examples.rateLimited 1 2 Examples.analysed))
     = State.chatHistory (state Examples.analysed)
       ++ [{| State.role := u "user"; State.text := u "why?";
              State.timestamp := 1 |}].
Proof.
  split; [reflexivity|]. split; [reflexivity|]. split; [reflexivity|].
  split; [reflexivity|].
  split.
  - exact (proj1 (proj2 (proj2 (proj1 (proj2 (proj2
             (onChatSend_history Examples.rateLimited 1 2
                Examples.analysed _ _ _ _ eq_refl eq_refl eq_refl)))
             Cases.meanwhile 0%nat Cases.because None eq_refl)) eq_refl)
             _ eq_refl).
  - exact (proj1 (proj2 (proj2 (proj2 (proj2
             (onChatSend_history Examples.rateLimited 1 2
                Examples.analysed _ _ _ _ eq_refl eq_refl eq_refl)))) _ eq_refl)).
Defined.

(** C7, as stated, fails.  The Clear button is not disabled while a
    follow-up request is in flight, and the request is not cancelled by the
    click.  With a click on Clear between the click on Send and the reply,
    a successful call leaves the entry of the assistant as the only entry of
    the history, and a failed call leaves no entry at all.  And the reply of
    a request sent before the click on Clear can arrive between the click
    that sends a second question and the reply to it: the history then
    grows by three entries during the second call. *)
Lemma onChatSend_history_after_clear :
  State.chatHistory (state Examples.analysed) = []
  /\ Examples.sending = onChatSend_start 1 Examples.analysed
  /\ Ui.clearBtn_disabled (page Examples.sending) = false
  /\ State.chatHistory
       (state (run Examples.sending [ClickClear; Settle 0 Cases.because None 2]))
     = [{| State.role := u "gemini"; State.text := u "because";
           State.timestamp := 2 |}]
  /\ State.chatHistory
       (state (run Examples.sending
                 [ClickClear; Settle 0 (Response 429 None) None 2]))
     = []
  /\ State.chatHistory (state (run Examples.sending Cases.overtaken))
     = [{| State.role := u "user"; State.text := u "and?";
           State.timestamp := 3 |};
        {| State.role := u "gemini"; State.text := u "because";
           State.timestamp := 4 |};
        {| State.role := u "gemini"; State.text := u "so";
           State.timestamp := 5 |}].
Proof. repeat split. Qed.

(** While no analysis request settles, an analysis request in flight stays
    in flight, the Clear button stays disabled, and the analysis result of
    the state stays as it is. *)
Lemma step_unsettled request a e :
  isAnalyze request = true ->
  In request (pending a) ->
  Ui.clearBtn_disabled (page a) = true ->
  Keeps.settlesAnalysis a e = false ->
  State.analysisResult (state (step a e)) = State.analysisResult (state a)
  /\ In request (pending (step a e))
  /\ Ui.clearBtn_disabled (page (step a e)) = true.
Proof.
  intros F Hin C S. destruct a as [s g w]. cbn [state page pending] in *.
  assert (Q : forall now,
            State.analysisResult (state (onChatSend_start now
                                    {| state := s; page := g; pending := w |}))
            = State.analysisResult s
            /\ In request (pending (onChatSend_start now
                                    {| state := s; page := g; pending := w |}))
            /\ Ui.clearBtn_disabled (page (onChatSend_start now
                                    {| state := s; page := g; pending := w |}))
               = true).
  { intros now. unfold onChatSend_start. cbn [state page].
    destruct (trim (Ui.chatInput_value g)); [now repeat split|].
    destruct (usableKey (State.getApiKey s)); [|now repeat split].
    destruct (State.getAnalysisResult s); [|now repeat split].
    cbn. repeat split; try assumption. apply in_or_app. now left. }
  destruct e; cbn [step Keeps.settlesAnalysis page pending] in *;
    try rewrite C; try (now repeat split).
  - destruct loaded; now repeat split.
  - destruct (Ui.codeInput_disabled g); now repeat split.
  - destruct (Ui.languageSelect_disabled g); now repeat split.
  - destruct (Ui.analyzeBtn_disabled g); [now repeat split|].
    unfold onAnalyze_start. cbn [state page].
    destruct (usableKey (State.getApiKey s)); cbn; repeat split; try assumption.
    apply in_or_app. now left.
  - destruct (Ui.chatInput_disabled g); now repeat split.
  - destruct (Ui.chatInput_disabled g); [now repeat split|].
    unfold onChatKeyDown.
    destruct (Str.eqb key (u "Enter") && negb shiftKey);
      [apply Q|now repeat split].
  - destruct (Ui.chatSendBtn_disabled g); [now repeat split|apply Q].
  - unfold onExportChat. cbn [state].
    destruct (State.chatLogIsEmpty s); now repeat split.
  - unfold settle. cbn [pending].
    destruct (nth_error w i) as [p|] eqn:N; [|now repeat split].
    destruct p as [|question originalCode result apiKey]; [discriminate|].
    assert (Hin' : In request (remove_nth i w)).
    { apply (In_remove_nth_other _ _ _ _ Hin N).
      intros ->. discriminate. }
    unfold onChatSend_settle.
    destruct (sendFollowUp (fun _ => fetched) question originalCode result
                apiKey); cbn; now repeat split.
Qed.

Lemma run_unsettled request es : forall a,
  isAnalyze request = true ->
  In request (pending a) ->
  Ui.clearBtn_disabled (page a) = true ->
  Keeps.unsettled a es = true ->
  State.analysisResult (state (run a es)) = State.analysisResult (state a)
  /\ In request (pending (run a es)).
Proof.
  induction es as [|e es IH]; intros a F Hin C U; [now split|].
  cbn [Keeps.unsettled] in U.
  apply andb_true_iff in U as [U1 U2]. apply negb_true_iff in U1.
  destruct (step_unsettled request a e F Hin C U1) as [H [Hin' C']].
  destruct (IH (step a e) F Hin' C' U2) as [H' Hin''].
  change (run a (e :: es)) with (run (step a e) es).
  split; [now rewrite H'|exact Hin''].
Qed.

(** C8 (amended).  A call of [onAnalyze] that fails before its result is
    stored, that is, whose [analyzeCode] fails, whatever the failure, leaves
    the analysis result of the state as it was before the call: the message
    of the error is shown in the error banner and nothing is stored.  So it
    is when no key is loaded.  So it is also whatever happens between the
    click and the settlement of the request, the settlement of another
    analysis request apart: the analysis result is then, until the
    settlement and after it, the one before the call. *)
Theorem onAnalyze_failure_keeps_result fetch rendered later a :
  let a' := onAnalyze fetch rendered later a in
  (forall apiKey err,
     usableKey (State.getApiKey (state a)) = Some apiKey ->
     Api.analyzeCode fetch (State.getCurrentCode (state a))
       (State.getCurrentLanguage (state a)) apiKey = Throws err ->
     State.analysisResult (state a') = State.analysisResult (state a)
     /\ state a' = state a
     /\ Ui.errorBanner_hidden (page a') = false
     /\ Ui.errorMessage (page a') = message err
     /\ pending a' = pending a)
  /\ (usableKey (State.getApiKey (state a)) = None ->
      state a' = state a
      /\ Ui.errorMessage (page a') = Text msgNoKey
      /\ pending a' = pending a)
  /\ (forall apiKey es i fetched,
        usableKey (State.getApiKey (state a)) = Some apiKey ->
        let request :=
          PendingAnalyze (State.getCurrentCode (state a))
            (State.getCurrentLanguage (state a)) apiKey in
        let sent := onAnalyze_start a in
        Keeps.unsettled sent es = true ->
        let b := run sent es in
        let b' := step b (Settle i fetched rendered later) in
        pending sent = pending a ++ [request]
        /\ State.analysisResult (state b) = State.analysisResult (state a)
        /\ In request (pending b)
        /\ (forall err,
              nth_error (pending b) i = Some request ->
              Api.analyzeCode (fun _ => fetched) (State.getCurrentCode (state a))
                (State.getCurrentLanguage (state a)) apiKey = Throws err ->
              State.analysisResult (state b') = State.analysisResult (state a)
              /\ state b' = state b
              /\ Ui.errorBanner_hidden (page b') = false
              /\ Ui.errorMessage (page b') = message err)).
Proof.
  intros a'. subst a'. split; [|split].
  - intros apiKey err Hk He.
    assert (W : onAnalyze fetch rendered later a =
      onAnalyze_settle (State.getCurrentCode (state a))
        (State.getCurrentLanguage (state a)) apiKey
        (fetch (requestOf (PendingAnalyze (State.getCurrentCode (state a))
                  (State.getCurrentLanguage (state a)) apiKey)))
        rendered (onPage (Ui.setLoading true) (onPage Ui.hideError a))).
    { unfold onAnalyze, onAnalyze_start. rewrite Hk.
      now rewrite settleLast_sent. }
    assert (E : Api.analyzeCode
              (fun _ => fetch (requestOf (PendingAnalyze
                 (State.getCurrentCode (state a))
                 (State.getCurrentLanguage (state a)) apiKey)))
              (State.getCurrentCode (state a))
              (State.getCurrentLanguage (state a)) apiKey
            = Throws err) by exact He.
    rewrite W. unfold onAnalyze_settle. rewrite E.
    destruct a as [s g p]. cbn. repeat split.
  - intros Hk. unfold onAnalyze, onAnalyze_start, settleLast. rewrite Hk.
    cbn [pending onPage]. rewrite nth_error_length.
    destruct a as [s g p]. cbn. repeat split.
  - intros apiKey es i fetched Hk request sent U b b'.
    assert (S : sent =
      send request (onPage (Ui.setLoading true) (onPage Ui.hideError a))).
    { unfold sent, onAnalyze_start. now rewrite Hk. }
    split; [now rewrite S|].
    destruct (run_unsettled request es sent eq_refl) as [H Hin];
      try (rewrite S; reflexivity); try exact U.
    { rewrite S. cbn [send pending]. apply in_or_app. right. now left. }
    fold b in H, Hin.
    assert (H0 : State.analysisResult (state sent)
                 = State.analysisResult (state a)) by now rewrite S.
    rewrite H0 in H.
    split; [exact H|]. split; [exact Hin|].
    intros err N E. unfold b'. cbn [step]. unfold settle. rewrite N.
    unfold request, onAnalyze_settle. cbv beta iota. rewrite E.
    clearbody b. destruct b as [s g w]. cbn in *. now repeat split.
Qed.

Lemma onAnalyze_failure_keeps_result_witness :
  usableKey (State.getApiKey (state Examples.analysed)) = Some Examples.someKey
  /\ Api.analyzeCode Examples.rateLimited
       (State.getCurrentCode (state Examples.analysed))
       (State.getCurrentLanguage (state Examples.analysed)) Examples.someKey
     = Throws (Error msgRateLimit)
  /\ State.analysisResult
       (state (onAnalyze Examples.rateLimited None 1 Examples.analysed))
     = State.analysisResult (state Examples.analysed)
  /\ Keeps.unsettled (onAnalyze_start Examples.analysed)
       Cases.meanwhileOfAnalysis = true
  /\ State.analysisResult
       (state (step (run (onAnalyze_start Examples.analysed)
                       Cases.meanwhileOfAnalysis)
                 (Settle 0 (Response 429 None) None 1)))
     = State.analysisResult (state Examples.analysed).
Proof.
  split; [reflexivity|]. split; [reflexivity|].
  split.
  - exact (proj1 (proj1 (onAnalyze_failure_keeps_result Examples.rateLimited
              None 1 Examples.analysed) _ _ eq_refl eq_refl)).
  - split; [reflexivity|].
    exact (proj1 (proj2 (proj2 (proj2 (proj2 (proj2
             (onAnalyze_failure_keeps_result Examples.rateLimited None 1
                Examples.analysed)) Examples.someKey Cases.meanwhileOfAnalysis
             0%nat (Response 429 None) eq_refl eq_refl))) _ eq_refl eq_refl)).
Defined.

(** C8, as stated, fails.  The result is stored before it is drawn, in the
    same [try] block.  The reply [{"smells":[null]}] is accepted by
    [analyzeCode]; the result is stored; [ui.renderResults] then throws,
    since the card of a smell that is [null] cannot be made; the call fails,
    with the message of the engine shown in the error banner, and the
    analysis result of the state is no longer the one before the call. *)
Lemma onAnalyze_render_failure_changes_result :
  normalizeAnalysis Cases.nullSmell Examples.someCode
  = Returns Cases.nullSmellResult
  /\ JS.get JNull (u "severity") = Throws TypeError
  /\ State.analysisResult (state Examples.analysed)
     = Some (JObject [(u "smells", JArray [] []); (u "summary", JString []);
                      (u "refactored_code", JString Examples.someCode)])
  /\ State.analysisResult
       (state (onAnalyze (Examples.replies Cases.nullSmell) (Some EngineText) 1
                 Examples.analysed))
     = Some Cases.nullSmellResult
  /\ State.analysisResult
       (state (onAnalyze (Examples.replies Cases.nullSmell) (Some EngineText) 1
                 Examples.analysed))
     <> State.analysisResult (state Examples.analysed)
  /\ Ui.errorBanner_hidden
       (page (onAnalyze (Examples.replies Cases.nullSmell) (Some EngineText) 1
                Examples.analysed))
     = false
  /\ Ui.errorMessage
       (page (onAnalyze (Examples.replies Cases.nullSmell) (Some EngineText) 1
                Examples.analysed))
     = EngineText.
Proof. repeat split; discriminate. Qed.

(* ================================================================== *)
(** * One analysis at a time *)
(* ================================================================== *)

Lemma analysing_send p a :
  analysing (send p a) = (analysing a + if isAnalyze p then 1 else 0)%nat.
Proof.
  unfold analysing, send. cbn [pending].
  rewrite filter_app, length_app. cbn [filter].
  destruct (isAnalyze p); reflexivity.
Qed.

Lemma analysing_remove_nth i l p :
  nth_error l i = Some p ->
  List.length (filter isAnalyze l)
  = (List.length (filter isAnalyze (remove_nth i l))
     + if isAnalyze p then 1 else 0)%nat.
Proof.
  revert i; induction l as [|x l IH]; intros [|i] H; simpl in H; try discriminate.
  - injection H as ->. cbn [remove_nth filter].
    destruct (isAnalyze p); cbn [List.length]; lia.
  - cbn [remove_nth filter]. specialize (IH i H).
    destruct (isAnalyze x); cbn [List.length]; lia.
Qed.

Lemma onChatSend_start_guard now a :
  analysing (onChatSend_start now a) = analysing a
  /\ locked (onChatSend_start now a) = locked a.
Proof.
  unfold onChatSend_start.
  destruct (trim (Ui.chatInput_value (page a))); [split; reflexivity|].
  destruct (usableKey (State.getApiKey (state a))); [|split; reflexivity].
  destruct (State.getAnalysisResult (state a)); [|split; reflexivity].
  rewrite analysing_send. cbn [isAnalyze]. split; [|reflexivity].
  unfold analysing. cbn [pending onPage onState]. lia.
Qed.

Lemma onChatSend_settle_guard question originalCode analysisResult apiKey
    fetched now a :
  pending (onChatSend_settle question originalCode analysisResult apiKey
             fetched now a) = pending a
  /\ locked (onChatSend_settle question originalCode analysisResult apiKey
               fetched now a) = locked a.
Proof.
  unfold onChatSend_settle.
  destruct (sendFollowUp _ _ _ _ _); split; reflexivity.
Qed.

Lemma onAnalyze_settle_pending code language apiKey fetched rendered a :
  pending (onAnalyze_settle code language apiKey fetched rendered a) = pending a.
Proof.
  unfold onAnalyze_settle.
  destruct (analyzeCode _ _ _ _); [destruct rendered|]; reflexivity.
Qed.

Lemma onAnalyze_start_guard a :
  analysing a = 0%nat -> guarded (onAnalyze_start a).
Proof.
  intros H. unfold onAnalyze_start.
  destruct (usableKey (State.getApiKey (state a))).
  - right. rewrite analysing_send. cbn [isAnalyze]. split; [|reflexivity].
    unfold analysing in *. cbn [pending onPage onState]. lia.
  - left. exact H.
Qed.

Lemma settle_guard i fetched rendered now a :
  guarded a -> guarded (settle i fetched rendered now a).
Proof.
  intros G. unfold settle.
  destruct (nth_error (pending a) i) as [p|] eqn:E; [|exact G].
  pose proof (analysing_remove_nth i (pending a) p E) as C.
  destruct p as [code language apiKey|question originalCode analysisResult apiKey].
  - left. unfold analysing. rewrite onAnalyze_settle_pending. cbn [pending].
    cbn [isAnalyze] in C. destruct G as [G|[G _]]; unfold analysing in G; lia.
  - cbn [isAnalyze] in C.
    match goal with |- guarded (onChatSend_settle ?q ?c ?r ?k ?f ?n ?b) =>
      destruct (onChatSend_settle_guard q c r k f n b) as [P L] end.
    unfold guarded, analysing. rewrite P, L. cbn [pending].
    unfold guarded, analysing in G. unfold locked in *. cbn [page].
    rewrite Nat.add_0_r in C. rewrite <- C. exact G.
Qed.

(** A control that [setLoading] disables is enabled: no analysis is in
    flight. *)
Ltac idle G D :=
  let L := fresh "L" in
  destruct G as [G|[_ L]];
  [exact G
  |exfalso; unfold locked in L; rewrite D in L;
   rewrite ?andb_false_r in L; discriminate].

(** Every event keeps the guard. *)
Lemma step_guard a e : guarded a -> guarded (step a e).
Proof.
  intros G. destruct e; cbn [step].
  - (* ConfigLoaded *)
    destruct loaded; exact G.
  - (* CodeInput *)
    destruct (Ui.codeInput_disabled (page a)) eqn:D; [exact G|].
    left. idle G D.
  - (* LanguageChange *)
    destruct (Ui.languageSelect_disabled (page a)); exact G.
  - (* ClickAnalyze *)
    destruct (Ui.analyzeBtn_disabled (page a)) eqn:D; [exact G|].
    apply onAnalyze_start_guard. idle G D.
  - (* ClickClear *)
    destruct (Ui.clearBtn_disabled (page a)) eqn:D; [exact G|].
    left. idle G D.
  - (* ChatInput *)
    destruct (Ui.chatInput_disabled (page a)); exact G.
  - (* ChatKeyDown *)
    destruct (Ui.chatInput_disabled (page a)); [exact G|].
    unfold onChatKeyDown.
    destruct (Str.eqb key (u "Enter") && negb shiftKey); [|exact G].
    destruct (onChatSend_start_guard now a) as [P L].
    unfold guarded. now rewrite P, L.
  - (* ClickChatSend *)
    destruct (Ui.chatSendBtn_disabled (page a)); [exact G|].
    destruct (onChatSend_start_guard now a) as [P L].
    unfold guarded. now rewrite P, L.
  - (* ClickExportChat *)
    unfold onExportChat. destruct (State.chatLogIsEmpty (state a)); exact G.
  - (* ClickErrorDismiss *)
    exact G.
  - (* CopyFailed *)
    exact G.
  - (* Settle *)
    now apply settle_guard.
Qed.

Lemma run_guard es : forall a, guarded a -> guarded (run a es).
Proof.
  induction es as [|e es IH]; intros a G; [exact G|].
  apply (IH (step a e)). now apply step_guard.
Qed.

(** C2 (amended).  From a session with no request in flight, whatever
    happens, there is at most one analysis request in flight; and while
    there is one, a click on the Analyze button, which [setLoading] has
    disabled, is not delivered to [onAnalyze]: the session is exactly as
    before, with the same analysis result, the same error banner and the
    same requests in flight. *)
Theorem analyze_click_while_analysing a0 es :
  pending a0 = [] ->
  (analysing (run a0 es) <= 1)%nat
  /\ (analysing (run a0 es) = 1%nat ->
      step (run a0 es) ClickAnalyze = run a0 es
      /\ Ui.analyzeBtn_disabled (page (run a0 es)) = true).
Proof.
  intros H0.
  assert (G : guarded (run a0 es)).
  { apply run_guard. left. unfold analysing. now rewrite H0. }
  split.
  - destruct G as [G|[G _]]; lia.
  - intros H1. destruct G as [G|[_ L]]; [lia|].
    unfold locked in L.
    apply andb_true_iff in L as [L _]. apply andb_true_iff in L as [L _].
    cbn [step]. now rewrite L.
Qed.

Lemma analyze_click_while_analysing_witness :
  pending Examples.ready = []
  /\ analysing (run Examples.ready [ClickAnalyze]) = 1%nat
  /\ step (run Examples.ready [ClickAnalyze]) ClickAnalyze
     = run Examples.ready [ClickAnalyze].
Proof.
  split; [reflexivity|]. split; [reflexivity|].
  exact (proj1 (proj2 (analyze_click_while_analysing Examples.ready
                         [ClickAnalyze] eq_refl) eq_refl)).
Defined.

(** C2, as stated, fails: while a follow-up request is in flight the
    Analyze button is enabled, a click on it is delivered, and [onAnalyze]
    sends a second request; the error banner stays hidden, so that nothing
    is reported. *)
Lemma analyze_click_while_sending_sends_second_request :
  outstanding Examples.sending = 1%nat
  /\ Ui.chatSendBtn_disabled (page Examples.sending) = true
  /\ Ui.analyzeBtn_disabled (page Examples.sending) = false
  /\ outstanding (step Examples.sending ClickAnalyze) = 2%nat
  /\ step Examples.sending ClickAnalyze <> Examples.sending
  /\ Ui.errorBanner_hidden (page (step Examples.sending ClickAnalyze)) = true.
Proof. repeat split. discriminate. Qed.

(** The result is stored before it is drawn: when [analyzeCode] returns and
    [ui.renderResults] then throws, the new result is in the state and the
    error of the drawing is shown. *)
Lemma onAnalyze_settle_render_failure code language apiKey fetched m a result :
  Api.analyzeCode (fun _ => fetched) code language apiKey = Returns result ->
  State.analysisResult
    (state (onAnalyze_settle code language apiKey fetched (Some m) a))
  = Some result
  /\ Ui.errorMessage
       (page (onAnalyze_settle code language apiKey fetched (Some m) a)) = m.
Proof.
  intros H. unfold onAnalyze_settle. rewrite H. split; reflexivity.
Qed.

(** When [analyzeCode] returns and the result is drawn, the result is in the
    state, and the controls are enabled again. *)
Lemma onAnalyze_settle_success code language apiKey fetched a result :
  Api.analyzeCode (fun _ => fetched) code language apiKey = Returns result ->
  let a' := onAnalyze_settle code language apiKey fetched None a in
  State.analysisResult (state a') = Some result
  /\ Ui.chatPanel_hidden (page a') = false
  /\ Ui.clearBtn_disabled (page a') = false
  /\ Ui.analyzeBtn_disabled (page a') = negb (10 <=? N.of_nat (List.length code)).
Proof.
  intros H a'. subst a'. unfold onAnalyze_settle. rewrite H.
  repeat split; reflexivity.
Qed.

(* ================================================================== *)
(** * More on the normaliser *)
(* ================================================================== *)

Lemma normalizeAnalysis_returns_shaped rawText code r :
  normalizeAnalysis rawText code = Returns r ->
  Keeps.wellShaped r = true.
Proof.
  intros H. destruct (JSON.parse (stripFences rawText)) as [v|] eqn:P.
  - destruct (isObject v) eqn:O.
    + destruct (normalizeAnalysis_object rawText code v P O)
        as [r' [E [Or [S [M R]]]]].
      rewrite E in H. injection H as <-.
      unfold Keeps.wellShaped. rewrite Or, S, M, R.
      destruct (isArray (member v (u "smells"))) eqn:A;
        destruct (isString (member v (u "summary"))) eqn:B;
        destruct (isString (member v (u "refactored_code"))) eqn:C;
        rewrite ?A, ?B, ?C; reflexivity.
    + rewrite (normalizeAnalysis_primitive rawText code v P O) in H.
      discriminate.
  - rewrite (normalizeAnalysis_unparsable rawText code P) in H. discriminate.
Qed.

(** X1.  Whatever text [normalizeAnalysis] accepts, the result it returns
    is an object or an array whose [smells] is an array and whose [summary]
    and [refactored_code] are text. *)
Theorem normalizeAnalysis_shape rawText code r :
  normalizeAnalysis rawText code = Returns r ->
  Keeps.wellShaped r = true.
Proof. apply normalizeAnalysis_returns_shaped. Qed.

Lemma normalizeAnalysis_shape_witness :
  normalizeAnalysis Examples.unrepairedSmells Examples.someCode
  = Returns (JObject
      [(u "smells", JArray [JNumber (u "7");
                            JObject [(u "severity", JString (u "major"))]] []);
       (u "summary", JString []);
       (u "refactored_code", JString Examples.someCode)])
  /\ Keeps.wellShaped (JObject
      [(u "smells", JArray [JNumber (u "7");
                            JObject [(u "severity", JString (u "major"))]] []);
       (u "summary", JString []);
       (u "refactored_code", JString Examples.someCode)]) = true.
Proof.
  split; [reflexivity|].
  exact (normalizeAnalysis_shape Examples.unrepairedSmells Examples.someCode
           _ eq_refl).
Defined.

(** X2.  The three ways [normalizeAnalysis] can end, by what the text is
    once its fences are stripped: it throws the error of the parse failure
    exactly when the text is not JSON; it throws the [TypeError] of the
    engine exactly when the text is JSON for [null], a boolean, a number or
    a string; it returns exactly when the text is JSON for an object or an
    array. *)
Theorem normalizeAnalysis_outcomes rawText code :
  (normalizeAnalysis rawText code = Throws (Error msgUnparsable)
   <-> JSON.parse (stripFences rawText) = None)
  /\ (normalizeAnalysis rawText code = Throws TypeError
      <-> exists v, JSON.parse (stripFences rawText) = Some v
                    /\ isObject v = false)
  /\ ((exists r, normalizeAnalysis rawText code = Returns r)
      <-> exists v, JSON.parse (stripFences rawText) = Some v
                    /\ isObject v = true).
Proof.
  destruct (JSON.parse (stripFences rawText)) as [v|] eqn:P.
  - destruct (isObject v) eqn:O.
    + destruct (normalizeAnalysis_object rawText code v P O) as [r [E _]].
      rewrite E. repeat split; try discriminate.
      * intros [v' [H1 H2]]. injection H1 as <-. congruence.
      * intros _. exists v. now split.
      * intros _. now exists r.
    + rewrite (normalizeAnalysis_primitive rawText code v P O).
      repeat split; try discriminate.
      * intros _. exists v. now split.
      * intros [r H]. discriminate.
      * intros [v' [H1 H2]]. injection H1 as <-. congruence.
  - rewrite (normalizeAnalysis_unparsable rawText code P).
    repeat split; try discriminate.
    + intros [v [H _]]. discriminate.
    + intros [r H]. discriminate.
    + intros [v [H _]]. discriminate.
Qed.

Lemma ensure_keeps pred f d v :
  isObject v = true -> pred (member v (fieldName f)) = true ->
  ensure pred f d v = Returns v.
Proof.
  intros Hv Hp. unfold ensure, get.
  assert (isNullish v = false) as -> by (destruct v; simpl in *; congruence).
  cbn [bind]. now rewrite Hp.
Qed.

(** X3.  A reply that already has the three fields with the right types
    goes through [normalizeAnalysis] unchanged: the result is the parsed
    value itself. *)
Theorem normalizeAnalysis_wellShaped_unchanged rawText code v :
  JSON.parse (stripFences rawText) = Some v ->
  Keeps.wellShaped v = true ->
  normalizeAnalysis rawText code = Returns v.
Proof.
  intros P W. unfold Keeps.wellShaped in W.
  apply andb_true_iff in W as [W R]. apply andb_true_iff in W as [W M].
  apply andb_true_iff in W as [O S].
  unfold normalizeAnalysis. rewrite P.
  rewrite (ensure_keeps isArray smells _ v O S). cbn [bind].
  rewrite (ensure_keeps isString summary _ v O M). cbn [bind].
  rewrite (ensure_keeps isString refactored_code _ v O R). reflexivity.
Qed.

Lemma normalizeAnalysis_wellShaped_unchanged_witness :
  JSON.parse (stripFences Cases.wellFormed) = Some Cases.wellFormedValue
  /\ Keeps.wellShaped Cases.wellFormedValue = true
  /\ normalizeAnalysis Cases.wellFormed Examples.someCode
     = Returns Cases.wellFormedValue.
Proof.
  split; [reflexivity|]. split; [reflexivity|].
  exact (normalizeAnalysis_wellShaped_unchanged Cases.wellFormed
           Examples.someCode Cases.wellFormedValue eq_refl eq_refl).
Defined.

Lemma member_set_other v f x v' k :
  set v f x = Returns v' -> Str.eqb k (fieldName f) = false ->
  member v' k = member v k.
Proof.
  destruct v; cbn [set]; try discriminate; intros H E; injection H as <-.
  - cbn [member]. destruct (arrayIndex k); [reflexivity|].
    destruct (Str.eqb k (u "length")); [reflexivity|].
    now rewrite lookup_assign_other.
  - cbn [member]. now rewrite lookup_assign_other.
Qed.

Lemma ensure_other pred f d v r k :
  ensure pred f d v = Returns r -> Str.eqb k (fieldName f) = false ->
  member r k = member v k.
Proof.
  unfold ensure, get. destruct (isNullish v); [discriminate|]. cbn [bind].
  destruct (pred (member v (fieldName f))); cbn [negb].
  - intros H _. now injection H as <-.
  - intros H E. exact (member_set_other _ _ _ _ _ H E).
Qed.

(** X4.  [normalizeAnalysis] touches nothing but the three fields: every
    other property of the parsed value, and every element of a parsed
    array, is in the result as it was parsed. *)
Theorem normalizeAnalysis_other_properties rawText code v r k :
  JSON.parse (stripFences rawText) = Some v ->
  normalizeAnalysis rawText code = Returns r ->
  k <> u "smells" -> k <> u "summary" -> k <> u "refactored_code" ->
  member r k = member v k.
Proof.
  intros P H K1 K2 K3.
  assert (E : forall f, Str.eqb k (fieldName f) = false).
  { intros f. destruct (Str.eqb k (fieldName f)) eqn:E; [|reflexivity].
    apply eqb_eq in E. destruct f; contradiction. }
  unfold normalizeAnalysis in H. rewrite P in H.
  destruct (ensure isArray smells (JArray [] []) v) as [r1|] eqn:E1;
    [|discriminate].
  cbn [bind] in H.
  destruct (ensure isString summary (JString []) r1) as [r2|] eqn:E2;
    [|discriminate].
  cbn [bind] in H.
  destruct (ensure isString refactored_code (JString code) r2) as [r3|] eqn:E3;
    [|discriminate].
  cbn [bind] in H. injection H as <-.
  rewrite (ensure_other _ _ _ _ _ k E3 (E _)).
  rewrite (ensure_other _ _ _ _ _ k E2 (E _)).
  exact (ensure_other _ _ _ _ _ k E1 (E _)).
Qed.

Lemma normalizeAnalysis_other_properties_witness :
  JSON.parse (stripFences Examples.unrepairedSmells)
  = Some (JObject [(u "smells",
             JArray [JNumber (u "7");
                     JObject [(u "severity", JString (u "major"))]] [])])
  /\ (exists r, normalizeAnalysis Examples.unrepairedSmells Examples.someCode
                = Returns r
        /\ member r (u "name") = JUndefined).
Proof.
  split; [reflexivity|]. eexists. split; [reflexivity|].
  apply (normalizeAnalysis_other_properties Examples.unrepairedSmells
           Examples.someCode _ _ (u "name") eq_refl eq_refl);
    discriminate.
Defined.

(* ================================================================== *)
(** * Fences *)
(* ================================================================== *)

Lemma trimStart_blank ws :
  forallb isWhiteSpace ws = true -> forall l, trimStart (ws ++ l) = trimStart l.
Proof.
  induction ws as [|w ws IH]; intros H l; [reflexivity|].
  cbn [forallb] in H. apply andb_true_iff in H as [Hw Hr].
  cbn [app trimStart]. rewrite Hw. now apply IH.
Qed.

Lemma trimStart_before_solid l c t :
  isWhiteSpace c = false -> trimStart (l ++ c :: t) = trimStart l ++ c :: t.
Proof.
  intros Hc. induction l as [|x l IH]; cbn [app trimStart].
  - now rewrite Hc.
  - destruct (isWhiteSpace x); [exact IH|reflexivity].
Qed.

Lemma trimStart_idempotent l : trimStart (trimStart l) = trimStart l.
Proof.
  induction l as [|x l IH]; [reflexivity|].
  cbn [trimStart]. destruct (isWhiteSpace x) eqn:E; [exact IH|].
  cbn [trimStart]. now rewrite E.
Qed.

Lemma trimStart_solid l t :
  forallb isWhiteSpace l = false -> trimStart (l ++ t) = trimStart l ++ t.
Proof.
  induction l as [|x l IH]; intros H; [discriminate|].
  cbn [forallb] in H. cbn [app trimStart].
  destruct (isWhiteSpace x); [|reflexivity].
  apply IH. exact H.
Qed.

Lemma trimStart_all_blank l :
  forallb isWhiteSpace l = true -> trimStart l = [].
Proof.
  intros H. rewrite <- (app_nil_r l). now rewrite trimStart_blank.
Qed.

Lemma forallb_rev {A} (f : A -> bool) l : forallb f (rev l) = forallb f l.
Proof.
  induction l as [|x l IH]; [reflexivity|].
  cbn [rev forallb]. rewrite forallb_app, IH. cbn [forallb].
  rewrite andb_true_r. apply andb_comm.
Qed.

Lemma trimEnd_blank l ws :
  forallb isWhiteSpace ws = true -> trimEnd (l ++ ws) = trimEnd l.
Proof.
  intros H. unfold trimEnd. rewrite rev_app_distr.
  rewrite trimStart_blank; [reflexivity|]. now rewrite forallb_rev.
Qed.

Lemma trimEnd_idempotent l : trimEnd (trimEnd l) = trimEnd l.
Proof. unfold trimEnd. now rewrite rev_involutive, trimStart_idempotent. Qed.

(** Trimming the end keeps a start that is not white space. *)
Lemma trimStart_trimEnd_trimStart l :
  trimStart (trimEnd (trimStart l)) = trimEnd (trimStart l).
Proof.
  destruct (trimStart l) as [|c y] eqn:E; [reflexivity|].
  assert (Hc : isWhiteSpace c = false).
  { pose proof (trimStart_idempotent l) as I. rewrite E in I.
    cbn [trimStart] in I. destruct (isWhiteSpace c) eqn:W; [|reflexivity].
    exfalso. assert (L : (List.length (trimStart y) <= List.length y)%nat).
    { clear. induction y as [|x y IH]; cbn [trimStart]; [lia|].
      destruct (isWhiteSpace x); cbn [List.length]; lia. }
    rewrite I in L. cbn [List.length] in L. lia. }
  unfold trimEnd. cbn [rev]. rewrite trimStart_before_solid by exact Hc.
  rewrite rev_app_distr. cbn [rev app trimStart]. now rewrite Hc.
Qed.

Lemma trim_idempotent l : trim (trim l) = trim l.
Proof.
  unfold trim. rewrite trimStart_trimEnd_trimStart. apply trimEnd_idempotent.
Qed.

Lemma trim_blank_end l ws :
  forallb isWhiteSpace ws = true -> trim (l ++ ws) = trim l.
Proof.
  intros H. unfold trim.
  destruct (forallb isWhiteSpace l) eqn:B.
  - rewrite (trimStart_all_blank l B).
    rewrite trimStart_all_blank; [reflexivity|].
    rewrite forallb_app, B, H. reflexivity.
  - rewrite trimStart_solid by exact B. now apply trimEnd_blank.
Qed.

Lemma stripPrefix_same p r : stripPrefix N.eqb p (p ++ r) = Some r.
Proof.
  induction p as [|x p IH]; [reflexivity|].
  cbn [app stripPrefix]. now rewrite N.eqb_refl.
Qed.

Lemma stripPrefix_ignoring_case tag r :
  stripPrefix eqIgnoreCase (toLowerCase tag) (tag ++ r) = Some r.
Proof.
  induction tag as [|x tag IH]; [reflexivity|].
  cbn [toLowerCase map app stripPrefix]. unfold eqIgnoreCase at 1.
  rewrite N.eqb_refl. exact IH.
Qed.

Lemma blank_is_not_j w r :
  isWhiteSpace w = true -> stripPrefix eqIgnoreCase (u "json") (w :: r) = None.
Proof.
  intros H. cbn [u stripPrefix].
  destruct (eqIgnoreCase (N_of_ascii "j") w) eqn:E; [|reflexivity].
  exfalso. unfold eqIgnoreCase, lowerUnit in E.
  destruct ((65 <=? w) && (w <=? 90)) eqn:R; apply N.eqb_eq in E.
  - assert (w = 74) as -> by (cbn in E; lia). discriminate H.
  - subst w. discriminate H.
Qed.

(** A text in a fence, with or without the tag [json] in any case, is
    stripped to the trimmed text between the fences. *)
Lemma stripFences_fenced tag ws1 body ws2 :
  toLowerCase tag = u "json" \/ (tag = [] /\ ws1 <> []) ->
  forallb isWhiteSpace ws1 = true -> forallb isWhiteSpace ws2 = true ->
  stripFences (fence ++ tag ++ ws1 ++ body ++ ws2 ++ fence) = trim body.
Proof.
  intros Ht H1 H2.
  assert (L : stripLeadingFence (fence ++ tag ++ ws1 ++ body ++ ws2 ++ fence)
              = trimStart (body ++ ws2) ++ fence).
  { unfold stripLeadingFence. rewrite stripPrefix_same.
    assert (T : trimStart (ws1 ++ body ++ ws2 ++ fence)
                = trimStart (body ++ ws2) ++ fence).
    { rewrite trimStart_blank by exact H1.
      rewrite app_assoc. unfold fence. now rewrite trimStart_before_solid. }
    destruct Ht as [Ht|[-> Hn]].
    - rewrite <- Ht, stripPrefix_ignoring_case. exact T.
    - cbn [app]. destruct ws1 as [|w ws1]; [contradiction|].
      cbn [forallb] in H1. apply andb_true_iff in H1 as [Hw Hr].
      cbn [app]. rewrite blank_is_not_j by exact Hw.
      rewrite <- T. reflexivity. }
  unfold stripFences. rewrite L. unfold stripTrailingFence.
  rewrite rev_app_distr.
  change (rev fence) with fence. rewrite stripPrefix_same.
  fold (trimEnd (trimStart (body ++ ws2))). fold (trim (body ++ ws2)).
  rewrite trim_idempotent. now apply trim_blank_end.
Qed.

(** A text that neither starts nor ends with a fence is only trimmed. *)
Lemma stripFences_bare body :
  stripPrefix N.eqb fence body = None ->
  stripPrefix N.eqb fence (rev body) = None ->
  stripFences body = trim body.
Proof.
  intros H1 H2. unfold stripFences, stripLeadingFence, stripTrailingFence.
  now rewrite H1, H2.
Qed.

(** X5.  A reply wrapped in a fence of three backquotes, with the tag
    [json] in any case or with no tag and a line break, and with white space
    around the text inside, is normalised exactly like the text itself when
    the text has no fence of its own: the same result or the same error. *)
Theorem normalizeAnalysis_fenced tag ws1 body ws2 code :
  toLowerCase tag = u "json" \/ (tag = [] /\ ws1 <> []) ->
  forallb isWhiteSpace ws1 = true -> forallb isWhiteSpace ws2 = true ->
  stripPrefix N.eqb fence body = None ->
  stripPrefix N.eqb fence (rev body) = None ->
  stripFences (fence ++ tag ++ ws1 ++ body ++ ws2 ++ fence) = trim body
  /\ normalizeAnalysis (fence ++ tag ++ ws1 ++ body ++ ws2 ++ fence) code
     = normalizeAnalysis body code.
Proof.
  intros Ht H1 H2 B1 B2.
  pose proof (stripFences_fenced tag ws1 body ws2 Ht H1 H2) as F.
  split; [exact F|].
  unfold normalizeAnalysis. now rewrite F, (stripFences_bare body B1 B2).
Qed.

Lemma normalizeAnalysis_fenced_witness :
  normalizeAnalysis Cases.fenced Examples.someCode
  = normalizeAnalysis (u "{}") Examples.someCode.
Proof.
  exact (proj2 (normalizeAnalysis_fenced (u "json") [10] (u "{}") [10]
                  Examples.someCode (or_introl eq_refl) eq_refl eq_refl
                  eq_refl eq_refl)).
Defined.

(* ================================================================== *)
(** * More on the completion client *)
(* ================================================================== *)

Lemma callGemini_returned fetch prompt apiKey forceJson t :
  callGemini fetch prompt apiKey forceJson = Returns t ->
  exists status data,
    fetch (fetchRequest prompt apiKey forceJson) = Response status (Some data)
    /\ 200 <= status <= 299
    /\ textOf data = JString t
    /\ trim t <> [].
Proof.
  unfold callGemini.
  destruct (fetch (fetchRequest prompt apiKey forceJson))
    as [name|status json|status name].
  - destruct (Str.eqb name (u "TimeoutError") || Str.eqb name (u "AbortError"));
      discriminate.
  - destruct (status =? 400); [discriminate|].
    destruct ((status =? 401) || (status =? 403)); [discriminate|].
    destruct (status =? 429); [discriminate|].
    destruct (ok status) eqn:O; cbn [negb]; [|discriminate].
    destruct json as [data|]; [|discriminate].
    cbv zeta. destruct (textOf data) eqn:T; try discriminate.
    destruct (Str.eqb (trim s) []) eqn:B; [discriminate|].
    intros H. injection H as <-. exists status, data.
    unfold ok in O. apply andb_true_iff in O as [O1 O2].
    apply N.leb_le in O1, O2.
    repeat split; try assumption.
    intros E. rewrite E in B. discriminate.
  - destruct (status =? 400); [discriminate|].
    destruct ((status =? 401) || (status =? 403)); [discriminate|].
    destruct (status =? 429); [discriminate|].
    destruct (negb (ok status)); discriminate.
Qed.

(** X6.  [callGemini] returns a text only from a response whose status is
    from 200 to 299 and whose body is an envelope carrying that text, and
    the text is never blank: no text is made up from a response that failed
    or was malformed. *)
Theorem callGemini_returns_only fetch prompt apiKey forceJson t :
  callGemini fetch prompt apiKey forceJson = Returns t ->
  exists status data,
    fetch (fetchRequest prompt apiKey forceJson) = Response status (Some data)
    /\ 200 <= status <= 299
    /\ textOf data = JString t
    /\ trim t <> [].
Proof. apply callGemini_returned. Qed.

Lemma callGemini_returns_only_witness :
  callGemini (Examples.replies (u "{}")) Examples.somePrompt Examples.someKey true
  = Returns (u "{}")
  /\ exists status data,
       Examples.replies (u "{}")
         (fetchRequest Examples.somePrompt Examples.someKey true)
       = Response status (Some data)
       /\ 200 <= status <= 299
       /\ textOf data = JString (u "{}")
       /\ trim (u "{}") <> [].
Proof.
  split; [reflexivity|].
  exact (callGemini_returns_only (Examples.replies (u "{}"))
           Examples.somePrompt Examples.someKey true (u "{}") eq_refl).
Defined.

(** Every failure of [callGemini] is of one of its seven kinds; the kind
    EndpointError is raised for a status outside 200 to 299 only. *)
Lemma callGemini_failures fetch prompt apiKey forceJson e :
  callGemini fetch prompt apiKey forceJson = Throws e ->
  exists k, Spec.raises k (callGemini fetch prompt apiKey forceJson)
    /\ k <> Spec.ParseError
    /\ (forall status, k = Spec.EndpointError status ->
          ~ (200 <= status <= 299)).
Proof.
  intros H. unfold callGemini in *.
  destruct (fetch (fetchRequest prompt apiKey forceJson))
    as [name|status json|status name].
  - destruct (Str.eqb name (u "TimeoutError") || Str.eqb name (u "AbortError")).
    + exists Spec.Timeout. repeat split; discriminate.
    + exists Spec.NetworkError. repeat split; discriminate.
  - destruct (status =? 400).
    { exists Spec.BadCredential. repeat split; discriminate. }
    destruct ((status =? 401) || (status =? 403)).
    { exists Spec.Unauthorized. repeat split; discriminate. }
    destruct (status =? 429).
    { exists Spec.RateLimited. repeat split; discriminate. }
    destruct (ok status) eqn:O; cbn [negb] in *.
    + exists Spec.MalformedEnvelope.
      split; [|split; [discriminate|discriminate]].
      destruct json as [data|]; [|left; reflexivity].
      cbv zeta in *. destruct (textOf data) eqn:T; try (right; reflexivity).
      destruct (Str.eqb (trim s) []); [right; reflexivity|discriminate].
    + exists (Spec.EndpointError status).
      split; [reflexivity|]. split; [discriminate|].
      intros status' E [L U]. injection E as <-.
      unfold ok in O. apply andb_false_iff in O as [O|O];
        apply N.leb_gt in O; lia.
  - destruct (status =? 400).
    { exists Spec.BadCredential. repeat split; discriminate. }
    destruct ((status =? 401) || (status =? 403)).
    { exists Spec.Unauthorized. repeat split; discriminate. }
    destruct (status =? 429).
    { exists Spec.RateLimited. repeat split; discriminate. }
    destruct (ok status) eqn:O; cbn [negb] in *.
    + exists Spec.MalformedEnvelope.
      split; [left; reflexivity|split; discriminate].
    + exists (Spec.EndpointError status).
      split; [reflexivity|]. split; [discriminate|].
      intros status' E [L U]. injection E as <-.
      unfold ok in O. apply andb_false_iff in O as [O|O];
        apply N.leb_gt in O; lia.
Qed.

Lemma raises_throws {A B} k e :
  Spec.raises k (@Throws A e) -> Spec.raises k (@Throws B e).
Proof.
  destruct k; cbn [Spec.raises]; intros H;
    try (injection H as ->; reflexivity).
  destruct H as [H|H]; injection H as ->; [left|right]; reflexivity.
Qed.

(** X7.  Every failure of [analyzeCode] is a failure of the request, of one
    of the seven kinds of [callGemini], or the error of the parse failure,
    or the [TypeError] of the engine; a failure of the request is passed on
    as it is.  Every failure of [sendFollowUp] is a failure of the request:
    a follow-up raises neither the error of the parse failure nor a
    [TypeError], and its reply is returned as it is. *)
Theorem failures_of_the_api fetch code language question originalCode
    analysisResult apiKey :
  (forall e,
     analyzeCode fetch code language apiKey = Throws e ->
     e = TypeError
     \/ exists k, Spec.raises k (analyzeCode fetch code language apiKey)
          /\ (forall status, k = Spec.EndpointError status ->
                ~ (200 <= status <= 299)))
  /\ (forall e,
        callGemini fetch (Prompt.buildAnalysisPrompt code language) apiKey true
        = Throws e ->
        analyzeCode fetch code language apiKey = Throws e)
  /\ (forall e,
        sendFollowUp fetch question originalCode analysisResult apiKey
        = Throws e ->
        exists k,
          Spec.raises k
            (sendFollowUp fetch question originalCode analysisResult apiKey)
          /\ k <> Spec.ParseError
          /\ (forall status, k = Spec.EndpointError status ->
                ~ (200 <= status <= 299)))
  /\ (forall reply,
        sendFollowUp fetch question originalCode analysisResult apiKey
        = Returns reply ->
        trim reply <> []).
Proof.
  split; [|split; [|split]].
  - intros e H. unfold analyzeCode in *.
    destruct (callGemini fetch (Prompt.buildAnalysisPrompt code language)
                apiKey true) as [rawText|e'] eqn:C; cbn [bind] in *.
    + destruct (JSON.parse (stripFences rawText)) as [v|] eqn:P.
      * destruct (isObject v) eqn:O.
        -- destruct (normalizeAnalysis_object rawText code v P O) as [r [E _]].
           rewrite E in H. discriminate.
        -- rewrite (normalizeAnalysis_primitive rawText code v P O) in H.
           left. now injection H as <-.
      * right. exists Spec.ParseError. split; [|discriminate].
        cbn [Spec.raises]. now apply normalizeAnalysis_unparsable.
    + right. destruct (callGemini_failures _ _ _ _ _ C) as [k [R [_ S]]].
      exists k. split; [|exact S]. rewrite C in R.
      injection H as <-. exact (raises_throws k e' R).
  - intros e H. unfold analyzeCode. now rewrite H.
  - intros e H. unfold sendFollowUp in *.
    exact (callGemini_failures _ _ _ _ _ H).
  - intros reply H. unfold sendFollowUp in H.
    destruct (callGemini_returned _ _ _ _ _ H) as [_ [_ [_ [_ [_ B]]]]].
    exact B.
Qed.

Lemma failures_of_the_api_witness :
  analyzeCode Examples.rateLimited Examples.someCode (u "auto") Examples.someKey
  = Throws (Error msgRateLimit)
  /\ (Error msgRateLimit = TypeError
      \/ exists k,
           Spec.raises k (analyzeCode Examples.rateLimited Examples.someCode
                            (u "auto") Examples.someKey)
           /\ (forall status, k = Spec.EndpointError status ->
                 ~ (200 <= status <= 299))).
Proof.
  split; [reflexivity|].
  exact (proj1 (failures_of_the_api Examples.rateLimited Examples.someCode
                  (u "auto") (u "why?") Examples.someCode JNull
                  Examples.someKey) _ eq_refl).
Defined.

(* ================================================================== *)
(** * The configuration *)
(* ================================================================== *)

(** X8.  [loadConfig] returns a key only when the configuration was fetched
    with a status from 200 to 299, its body is JSON, and the key found at
    [gemini.api_key] is a true value that is neither of the two
    placeholders; a key that is text is then not empty.  It fails with one
    of two messages only: the configuration could not be loaded, or the key
    is invalid or missing. *)
Theorem loadConfig_accepts_only fetch :
  (forall key,
     Config.loadConfig fetch = Returns key ->
     Truth.truthy key = true
     /\ key <> JString Config.placeholder1
     /\ key <> JString Config.placeholder2
     /\ key <> JString []
     /\ exists status config,
          fetch (u "../config.json") = Response status (Some config)
          /\ 200 <= status <= 299
          /\ Config.keyOf config = key)
  /\ (forall e,
        Config.loadConfig fetch = Throws e ->
        e = Error Config.msgNoConfig \/ e = Error Config.msgInvalidKey)
  /\ (forall status config,
        fetch (u "../config.json") = Response status (Some config) ->
        200 <= status <= 299 ->
        Config.loadConfig fetch = Throws (Error Config.msgInvalidKey)
        <-> (Truth.truthy (Config.keyOf config) = false
             \/ Config.keyOf config = JString Config.placeholder1
             \/ Config.keyOf config = JString Config.placeholder2)).
Proof.
  assert (T : forall s v, Truth.isText s v = true <-> v = JString s).
  { intros s v. destruct v; cbn [Truth.isText]; split; try discriminate.
    - intros E. apply eqb_eq in E. now subst.
    - intros E. injection E as ->. apply eqb_refl. }
  unfold Config.loadConfig.
  destruct (fetch (u "../config.json")) as [name|status json|status name].
  { repeat split; try discriminate.
    intros e H. left. now injection H as <-. }
  2:{ repeat split; try discriminate.
      intros e H. left. now injection H as <-. }
  destruct (ok status) eqn:O; cbn [negb].
  2:{ split; [discriminate|]. split.
      - intros e H. left. now injection H as <-.
      - intros status' config E [L U]. injection E as <- _.
        unfold ok in O. apply andb_false_iff in O as [O|O];
          apply N.leb_gt in O; lia. }
  destruct json as [config|].
  2:{ split; [discriminate|]. split.
      - intros e H. left. now injection H as <-.
      - intros status' config E. discriminate. }
  cbv zeta.
  destruct (Truth.truthy (Config.keyOf config)) eqn:Y; cbn [negb orb].
  2:{ split; [discriminate|]. split.
      - intros e H. right. now injection H as <-.
      - intros status' config' E _. injection E as <- <-.
        split; [intros _; now left|reflexivity]. }
  destruct (Truth.isText Config.placeholder1 (Config.keyOf config)) eqn:P1;
    cbn [orb].
  { split; [discriminate|]. split.
    - intros e H. right. now injection H as <-.
    - intros status' config' E _. injection E as <- <-.
      split; [intros _; right; left; now apply T|reflexivity]. }
  destruct (Truth.isText Config.placeholder2 (Config.keyOf config)) eqn:P2.
  { split; [discriminate|]. split.
    - intros e H. right. now injection H as <-.
    - intros status' config' E _. injection E as <- <-.
      split; [intros _; right; right; now apply T|reflexivity]. }
  split; [|split].
  - intros key H. injection H as <-.
    split; [exact Y|]. split.
    { intros E. apply T in E. congruence. }
    split.
    { intros E. apply T in E. congruence. }
    split.
    { intros E. rewrite E in Y. discriminate. }
    exists status, config. split; [reflexivity|]. split; [|reflexivity].
    unfold ok in O. apply andb_true_iff in O as [O1 O2].
    apply N.leb_le in O1, O2. now split.
  - discriminate.
  - intros status' config' E _. injection E as <- <-.
    split; [discriminate|].
    intros [F|[F|F]].
    + congruence.
    + apply T in F. congruence.
    + apply T in F. congruence.
Qed.

Lemma loadConfig_accepts_only_witness :
  Config.loadConfig (Cases.serves (JString Examples.someKey))
  = Returns (JString Examples.someKey)
  /\ Truth.truthy (JString Examples.someKey) = true
  /\ Config.loadConfig (Cases.serves (JString Config.placeholder1))
     = Throws (Error Config.msgInvalidKey).
Proof.
  split; [reflexivity|]. split.
  - exact (proj1 (proj1 (loadConfig_accepts_only
             (Cases.serves (JString Examples.someKey))) _ eq_refl)).
  - reflexivity.
Defined.

(* ================================================================== *)
(** * What every event keeps *)
(* ================================================================== *)

Import Keeps.

(** The handlers, opened down to the functions of the state and of the
    page. *)
Ltac handlers :=
  unfold init, onCodeInput, onLanguageChange, onAnalyze_start, onClear,
    onChatKeyDown, onChatSend_start, onExportChat, onDismissError, settle,
    onAnalyze_settle, onChatSend_settle in *.

(** A case analysis on what the code tests. *)
Ltac break :=
  match goal with
  | |- context [match ?x with _ => _ end] => destruct x eqn:?
  end.

Ltac cases := repeat break; cbn [state page pending onPage onState send] in *.

Lemma step_synced a e : synced a -> synced (step a e).
Proof.
  intros [C [L H]]. destruct a as [s g q]. cbn [state page] in *.
  unfold synced.
  destruct e; cbn [step]; handlers; cases; cbn;
    repeat split; try assumption; try reflexivity;
    try (rewrite map_app, H; reflexivity).
Qed.

Lemma run_synced es : forall a, synced a -> synced (run a es).
Proof.
  induction es as [|e es IH]; intros a G; [exact G|].
  apply (IH (step a e)). now apply step_synced.
Qed.

(** X9.  The page shows what the state holds.  From a session where the
    code of the state is the text of the code input, the language of the
    state is the value of the language selector, and the messages of the
    chat log are the entries of the chat history (as when the page has been
    loaded), this stays so whatever happens: same code, same language, same
    roles and texts in the same order. *)
Theorem page_shows_state a0 es :
  synced a0 ->
  State.currentCode (state (run a0 es)) = Ui.codeInput_value (page (run a0 es))
  /\ State.currentLanguage (state (run a0 es))
     = Ui.languageSelect_value (page (run a0 es))
  /\ map shown (State.chatHistory (state (run a0 es)))
     = Ui.chatLog (page (run a0 es)).
Proof. apply run_synced. Qed.

Lemma page_shows_state_witness :
  synced start
  /\ map shown (State.chatHistory (state (run start Cases.conversation)))
     = Ui.chatLog (page (run start Cases.conversation)).
Proof.
  split; [repeat split|].
  exact (proj2 (proj2 (page_shows_state start Cases.conversation
                         (conj eq_refl (conj eq_refl eq_refl))))).
Defined.

Lemma analyzeCode_shape fetch code language apiKey r :
  analyzeCode fetch code language apiKey = Returns r -> wellShaped r = true.
Proof.
  unfold analyzeCode.
  destruct (callGemini fetch (Prompt.buildAnalysisPrompt code language)
              apiKey true) as [rawText|]; cbn [bind]; [|discriminate].
  apply normalizeAnalysis_returns_shaped.
Qed.

(** The result of the state changes only by being cleared or by being
    replaced with a result of [analyzeCode]. *)
Lemma step_result a e :
  State.analysisResult (state (step a e)) = State.analysisResult (state a)
  \/ State.analysisResult (state (step a e)) = None
  \/ exists r, State.analysisResult (state (step a e)) = Some r
               /\ wellShaped r = true.
Proof.
  destruct a as [s g q].
  destruct e; cbn [step]; handlers; cases; cbn;
    try (left; reflexivity); try (right; left; reflexivity);
    right; right; eexists; (split; [reflexivity|]);
    eapply analyzeCode_shape; eassumption.
Qed.

Lemma step_shaped a e : shaped a -> shaped (step a e).
Proof.
  intros H. unfold shaped in *.
  destruct (step_result a e) as [E|[E|[r [E W]]]]; rewrite E; auto.
Qed.

Lemma run_shaped es : forall a, shaped a -> shaped (run a es).
Proof.
  induction es as [|e es IH]; intros a G; [exact G|].
  apply (IH (step a e)). now apply step_shaped.
Qed.

(** X10.  The state never holds a malformed result.  From a session
    without a result, whatever happens and however the endpoint replies,
    the analysis result of the state is absent or is an object or array
    whose [smells] is an array and whose [summary] and [refactored_code]
    are text. *)
Theorem stored_result_is_wellShaped a0 es result :
  State.analysisResult (state a0) = None ->
  State.analysisResult (state (run a0 es)) = Some result ->
  isObject result = true
  /\ isArray (member result (u "smells")) = true
  /\ isString (member result (u "summary")) = true
  /\ isString (member result (u "refactored_code")) = true.
Proof.
  intros H0 H.
  assert (G : shaped (run a0 es)).
  { apply run_shaped. unfold shaped. now rewrite H0. }
  unfold shaped in G. rewrite H in G. unfold wellShaped in G.
  apply andb_true_iff in G as [G R]. apply andb_true_iff in G as [G M].
  apply andb_true_iff in G as [O S]. now repeat split.
Qed.

Lemma stored_result_is_wellShaped_witness :
  State.analysisResult (state start) = None
  /\ (exists result,
        State.analysisResult (state (run start Cases.conversation))
        = Some result
        /\ isArray (member result (u "smells")) = true).
Proof.
  split; [reflexivity|]. eexists. split; [reflexivity|].
  exact (proj1 (proj2 (stored_result_is_wellShaped start Cases.conversation _
                         eq_refl eq_refl))).
Defined.

(* ================================================================== *)
(** * The controls and the requests in flight *)
(* ================================================================== *)

Lemma filter_remove_nth_other {A} (f : A -> bool) i l p :
  nth_error l i = Some p -> f p = false ->
  filter f (remove_nth i l) = filter f l.
Proof.
  revert i. induction l as [|x l IH]; intros [|i] H F; cbn in H;
    try discriminate.
  - injection H as ->. cbn [remove_nth filter]. now rewrite F.
  - cbn [remove_nth filter]. now rewrite (IH i H F).
Qed.

Lemma In_analysis a code language apiKey :
  In (PendingAnalyze code language apiKey) (pending a)
  <-> In (PendingAnalyze code language apiKey) (filter isAnalyze (pending a)).
Proof.
  rewrite filter_In. split; [intros H; now split|intros [H _]; exact H].
Qed.

(** Whether a session is steady depends on its analyses in flight, the code
    of its state and five controls only. *)
Lemma steady_same a b :
  filter isAnalyze (pending b) = filter isAnalyze (pending a) ->
  State.currentCode (state b) = State.currentCode (state a) ->
  Ui.analyzeBtn_disabled (page b) = Ui.analyzeBtn_disabled (page a) ->
  Ui.loadingIndicator_hidden (page b) = Ui.loadingIndicator_hidden (page a) ->
  Ui.clearBtn_disabled (page b) = Ui.clearBtn_disabled (page a) ->
  Ui.codeInput_disabled (page b) = Ui.codeInput_disabled (page a) ->
  Ui.languageSelect_disabled (page b) = Ui.languageSelect_disabled (page a) ->
  steady a -> steady b.
Proof.
  intros P C B1 B2 B3 B4 B5 [G [A [R L]]].
  unfold steady, guarded, analysesCurrentCode, released, locked, analysing in *.
  rewrite P, C, B1, B2, B3, B4, B5.
  repeat split; try assumption.
  - intros code language apiKey H. apply In_analysis in H. rewrite P in H.
    apply In_analysis in H. eauto.
  - now apply R.
  - now apply R.
  - now apply R.
  - now apply R.
  - now apply R.
Qed.

Lemma idle_has_no_analysis a code language apiKey :
  analysing a = 0%nat -> ~ In (PendingAnalyze code language apiKey) (pending a).
Proof.
  unfold analysing. intros H Hin. apply In_analysis in Hin.
  destruct (filter isAnalyze (pending a)); [contradiction|discriminate].
Qed.

(** A steady session with one of the locked controls enabled has no
    analysis in flight, and its controls are released. *)
Lemma steady_unlocked a :
  steady a ->
  Ui.analyzeBtn_disabled (page a) = false
  \/ Ui.clearBtn_disabled (page a) = false
  \/ Ui.codeInput_disabled (page a) = false ->
  analysing a = 0%nat /\ released a.
Proof.
  intros [G [_ [R _]]] D.
  assert (Z : analysing a = 0%nat).
  { destruct G as [G|[_ L]]; [exact G|]. exfalso. unfold locked in L.
    apply andb_true_iff in L as [L L3]. apply andb_true_iff in L as [L1 L2].
    destruct D as [D|[D|D]]; congruence. }
  split; [exact Z|now apply R].
Qed.

(** A session with no analysis in flight and its controls released is
    steady. *)
Lemma steady_idle a : analysing a = 0%nat -> released a -> steady a.
Proof.
  intros Z R. unfold steady. split; [now left|]. split.
  - intros code language apiKey Hin. exfalso.
    exact (idle_has_no_analysis a code language apiKey Z Hin).
  - split; [intros _; exact R|]. rewrite Z. discriminate.
Qed.

Ltac same := eapply steady_same; [..|eassumption]; cbn; try reflexivity.

Lemma onChatSend_start_steady now a : steady a -> steady (onChatSend_start now a).
Proof.
  intros S. destruct a as [s g q]. unfold onChatSend_start. cases;
    try exact S; same.
  rewrite filter_app. cbn. now rewrite app_nil_r.
Qed.

Lemma step_steady a e : steady a -> steady (step a e).
Proof.
  intros S. destruct e; cbn [step].
  - (* ConfigLoaded *)
    destruct a as [s g q]. unfold init. cases; same.
  - (* CodeInput *)
    destruct (Ui.codeInput_disabled (page a)) eqn:D; [exact S|].
    destruct (steady_unlocked a S) as [Z [_ [R2 [R3 [R4 R5]]]]]; [auto|].
    destruct a as [s g q]. cbn [page state] in *.
    apply steady_idle; [exact Z|].
    unfold released, onCodeInput. cbn. now repeat split.
  - (* LanguageChange *)
    destruct (Ui.languageSelect_disabled (page a)); [exact S|].
    destruct a as [s g q]. unfold onLanguageChange. same.
  - (* ClickAnalyze *)
    destruct (Ui.analyzeBtn_disabled (page a)) eqn:D; [exact S|].
    destruct (steady_unlocked a S) as [Z R]; [auto|].
    destruct a as [s g q]. unfold onAnalyze_start.
    destruct (usableKey (State.getApiKey (state {| state := s; page := g;
                pending := q |}))) as [apiKey|]; [|same].
    unfold analysing in Z. cbn [pending] in Z.
    unfold steady, guarded, analysesCurrentCode, locked, analysing.
    cbn [pending state page onPage send].
    rewrite filter_app, length_app, Z. cbn.
    split; [right; now split|]. split.
    { intros code language key Hin. apply in_app_or in Hin.
      destruct Hin as [Hin|[Hin|[]]].
      - exfalso.
        apply (idle_has_no_analysis {| state := s; page := g; pending := q |}
                 code language key); [exact Z|exact Hin].
      - now injection Hin as <- _ _. }
    split; [discriminate|reflexivity].
  - (* ClickClear *)
    destruct (Ui.clearBtn_disabled (page a)) eqn:D; [exact S|].
    destruct (steady_unlocked a S) as [Z R]; [auto|].
    destruct a as [s g q]. apply steady_idle; [exact Z|].
    unfold released, onClear. cbn. now repeat split.
  - (* ChatInput *)
    destruct (Ui.chatInput_disabled (page a)); [exact S|].
    destruct a as [s g q]. same.
  - (* ChatKeyDown *)
    destruct (Ui.chatInput_disabled (page a)); [exact S|].
    unfold onChatKeyDown.
    destruct (Str.eqb key (u "Enter") && negb shiftKey); [|exact S].
    now apply onChatSend_start_steady.
  - (* ClickChatSend *)
    destruct (Ui.chatSendBtn_disabled (page a)); [exact S|].
    now apply onChatSend_start_steady.
  - (* ClickExportChat *)
    destruct a as [s g q]. unfold onExportChat. cases; [same|exact S].
  - (* ClickErrorDismiss *)
    destruct a as [s g q]. unfold onDismissError. same.
  - (* CopyFailed *)
    destruct a as [s g q]. same.
  - (* Settle *)
    unfold settle. destruct (nth_error (pending a) i) as [p|] eqn:E; [|exact S].
    destruct p as [code language apiKey|question originalCode result apiKey].
    + destruct S as [G [A [R L]]].
      assert (C : code = State.currentCode (state a)).
      { eapply A. eapply nth_error_In. exact E. }
      pose proof (analysing_remove_nth i (pending a) _ E) as N.
      cbn [isAnalyze] in N.
      assert (Z : List.length (filter isAnalyze (remove_nth i (pending a)))
                  = 0%nat).
      { destruct G as [G|[G _]]; unfold analysing in G; lia. }
      destruct a as [s g q]. cbn [state page pending] in *. subst code.
      apply steady_idle.
      * unfold analysing. now rewrite onAnalyze_settle_pending.
      * unfold released, onAnalyze_settle.
        destruct (analyzeCode _ _ _ _); [destruct rendered|]; cbn;
          now repeat split.
    + destruct a as [s g q]. cbn [pending state page] in *.
      unfold onChatSend_settle. destruct (sendFollowUp _ _ _ _ _); same;
        now apply (filter_remove_nth_other isAnalyze i q _ E).
Qed.

Lemma run_steady es : forall a, steady a -> steady (run a es).
Proof.
  induction es as [|e es IH]; intros a G; [exact G|].
  apply (IH (step a e)). now apply step_steady.
Qed.

Lemma start_steady : steady start.
Proof.
  unfold steady, guarded, analysesCurrentCode, released. cbn.
  repeat split; try discriminate; try contradiction. now left.
Qed.

(** X12.  The Analyze button follows the code.  From a steady session (as
    the loaded page is), whatever happens: while no analysis is in flight
    the Analyze button is enabled exactly when the code of the state has at
    least 10 code units, also after an analysis that failed; while an
    analysis is in flight the button is disabled. *)
Theorem analyze_button_follows_code a0 es :
  steady a0 ->
  (analysing (run a0 es) = 0%nat ->
   Ui.analyzeBtn_disabled (page (run a0 es))
   = negb (10 <=? N.of_nat (List.length (State.currentCode (state (run a0 es))))))
  /\ (analysing (run a0 es) <> 0%nat ->
      Ui.analyzeBtn_disabled (page (run a0 es)) = true).
Proof.
  intros S0. destruct (run_steady es a0 S0) as [G [_ [R _]]]. split.
  - intros Z. exact (proj1 (R Z)).
  - intros N. destruct G as [G|[_ L]]; [contradiction|].
    unfold locked in L. apply andb_true_iff in L as [L _].
    now apply andb_true_iff in L as [L _].
Qed.

Lemma analyze_button_follows_code_witness :
  steady start
  /\ analysing (run start Cases.conversation) = 0%nat
  /\ Ui.analyzeBtn_disabled (page (run start Cases.conversation)) = false.
Proof.
  assert (S : steady start).
  { unfold steady, guarded, analysesCurrentCode, released. cbn.
    repeat split; try discriminate; try contradiction. now left. }
  split; [exact S|]. split; [reflexivity|].
  exact (proj1 (analyze_button_follows_code start Cases.conversation S)
           eq_refl).
Defined.

(** X13.  The session is never left loading.  From a steady session,
    whatever happens and however a request ends, the loading indicator is
    shown exactly while an analysis is in flight, and once none is, the
    Clear button, the code input and the language selector are enabled. *)
Theorem loading_ends_with_the_analysis a0 es :
  steady a0 ->
  (Ui.loadingIndicator_hidden (page (run a0 es)) = true
   <-> analysing (run a0 es) = 0%nat)
  /\ (analysing (run a0 es) = 0%nat ->
      Ui.clearBtn_disabled (page (run a0 es)) = false
      /\ Ui.codeInput_disabled (page (run a0 es)) = false
      /\ Ui.languageSelect_disabled (page (run a0 es)) = false).
Proof.
  intros S0. destruct (run_steady es a0 S0) as [G [_ [R L]]]. split.
  - split.
    + intros H. destruct G as [G|[G _]]; [exact G|].
      rewrite (L G) in H. discriminate.
    + intros Z. exact (proj1 (proj2 (R Z))).
  - intros Z. exact (proj2 (proj2 (R Z))).
Qed.

Lemma loading_ends_with_the_analysis_witness :
  steady start
  /\ analysing (run start Cases.conversation) = 0%nat
  /\ Ui.loadingIndicator_hidden (page (run start Cases.conversation)) = true.
Proof.
  assert (S : steady start).
  { unfold steady, guarded, analysesCurrentCode, released. cbn.
    repeat split; try discriminate; try contradiction. now left. }
  split; [exact S|]. split; [reflexivity|].
  exact (proj2 (proj1 (loading_ends_with_the_analysis start Cases.conversation
                         S)) eq_refl).
Defined.

(** X14.  The analysis in flight is of the code the state holds.  From a
    steady session, whatever happens, the request of an analysis in flight
    was built from the code that is still the code of the state: the code
    cannot be changed nor cleared before the analysis settles. *)
Theorem analysis_is_of_current_code a0 es code language apiKey :
  steady a0 ->
  In (PendingAnalyze code language apiKey) (pending (run a0 es)) ->
  code = State.currentCode (state (run a0 es))
  /\ Ui.codeInput_disabled (page (run a0 es)) = true
  /\ Ui.clearBtn_disabled (page (run a0 es)) = true.
Proof.
  intros S0 Hin. destruct (run_steady es a0 S0) as [G [A _]].
  split; [exact (A code language apiKey Hin)|].
  destruct G as [G|[_ L]].
  - exfalso. exact (idle_has_no_analysis _ code language apiKey G Hin).
  - unfold locked in L. apply andb_true_iff in L as [L L3].
    apply andb_true_iff in L as [_ L2]. now split.
Qed.

Lemma analysis_is_of_current_code_witness :
  steady start
  /\ Examples.someCode
     = State.currentCode
         (state (run start [ConfigLoaded (Returns Examples.someKey);
                            CodeInput Examples.someCode; ClickAnalyze;
                            CodeInput (u "changed while loading")])).
Proof.
  assert (S : steady start).
  { unfold steady, guarded, analysesCurrentCode, released. cbn.
    repeat split; try discriminate; try contradiction. now left. }
  split; [exact S|].
  exact (proj1 (analysis_is_of_current_code start
           [ConfigLoaded (Returns Examples.someKey);
            CodeInput Examples.someCode; ClickAnalyze;
            CodeInput (u "changed while loading")]
           Examples.someCode (u "auto") Examples.someKey S
           (or_introl eq_refl))).
Defined.

(* ================================================================== *)
(** * Follow-ups in flight *)
(* ================================================================== *)

Lemma chatGuarded_same a b :
  filter isFollowUp (pending b) = filter isFollowUp (pending a) ->
  Ui.chatSendBtn_disabled (page b) = Ui.chatSendBtn_disabled (page a) ->
  Ui.chatInput_disabled (page b) = Ui.chatInput_disabled (page a) ->
  chatGuarded a -> chatGuarded b.
Proof.
  intros P B1 B2 G. unfold chatGuarded, following in *.
  now rewrite P, B1, B2.
Qed.

Ltac chat_same :=
  eapply chatGuarded_same; [..|eassumption]; cbn; try reflexivity.

Lemma onChatSend_start_chatGuarded now a :
  following a = 0%nat -> chatGuarded (onChatSend_start now a).
Proof.
  intros Z. destruct a as [s g q]. unfold onChatSend_start. cases;
    try (left; exact Z).
  right. unfold following in *.
  cbn [pending page send onPage onState] in *.
  rewrite filter_app, length_app, Z. cbn. now repeat split.
Qed.

Lemma chatGuarded_enabled a :
  chatGuarded a ->
  Ui.chatSendBtn_disabled (page a) = false
  \/ Ui.chatInput_disabled (page a) = false ->
  following a = 0%nat.
Proof.
  intros [G|[_ [L1 L2]]] D; [exact G|]. destruct D; congruence.
Qed.

Lemma step_chatGuarded a e :
  isClear e = false -> chatGuarded a -> chatGuarded (step a e).
Proof.
  intros C G. destruct e; cbn [step]; try discriminate C.
  - destruct a as [s g q]. unfold init. cases; chat_same.
  - destruct a as [s g q]. unfold onCodeInput. cases; [exact G|chat_same].
  - destruct a as [s g q]. unfold onLanguageChange. cases; [exact G|chat_same].
  - destruct a as [s g q]. unfold onAnalyze_start. cases; try exact G;
      chat_same.
    rewrite filter_app. cbn. now rewrite app_nil_r.
  - destruct a as [s g q]. cases; [exact G|chat_same].
  - destruct (Ui.chatInput_disabled (page a)) eqn:D; [exact G|].
    unfold onChatKeyDown.
    destruct (Str.eqb key (u "Enter") && negb shiftKey); [|exact G].
    apply onChatSend_start_chatGuarded.
    apply chatGuarded_enabled; auto.
  - destruct (Ui.chatSendBtn_disabled (page a)) eqn:D; [exact G|].
    apply onChatSend_start_chatGuarded.
    apply chatGuarded_enabled; auto.
  - destruct a as [s g q]. unfold onExportChat. cases; [chat_same|exact G].
  - destruct a as [s g q]. unfold onDismissError. chat_same.
  - destruct a as [s g q]. chat_same.
  - unfold settle. destruct (nth_error (pending a) i) as [p|] eqn:E; [|exact G].
    destruct p as [code language apiKey|question originalCode result apiKey].
    + destruct a as [s g q]. cbn [pending state page] in *.
      unfold onAnalyze_settle.
      destruct (analyzeCode _ _ _ _); [destruct rendered|]; chat_same;
        now apply (filter_remove_nth_other isFollowUp i q _ E).
    + left. unfold following.
      assert (P : forall x, pending (onChatSend_settle question originalCode
                    result apiKey fetched now x) = pending x).
      { intros x. apply onChatSend_settle_guard. }
      rewrite P. cbn [pending].
      assert (N : List.length (filter isFollowUp (pending a))
                  = (List.length (filter isFollowUp (remove_nth i (pending a)))
                     + 1)%nat).
      { clear G P C. revert i E. generalize (pending a) as l.
        induction l as [|x l IH]; intros [|i] E; cbn in E; try discriminate.
        - injection E as ->. cbn. lia.
        - cbn [remove_nth filter]. specialize (IH i E).
          destruct (isFollowUp x); cbn [List.length]; lia. }
      destruct G as [G|[G _]]; unfold following in G; lia.
Qed.

Lemma run_chatGuarded es : forall a,
  forallb (fun e => negb (isClear e)) es = true ->
  chatGuarded a -> chatGuarded (run a es).
Proof.
  induction es as [|e es IH]; intros a C G; [exact G|].
  cbn [forallb] in C. apply andb_true_iff in C as [C1 C2].
  apply (IH (step a e) C2). apply step_chatGuarded; [|exact G].
  now apply negb_true_iff.
Qed.

Lemma length_filter_split {A} (f : A -> bool) l :
  List.length l
  = (List.length (filter f l) + List.length (filter (fun x => negb (f x)) l))%nat.
Proof.
  induction l as [|x l IH]; [reflexivity|].
  cbn [filter List.length]. destruct (f x); cbn [negb List.length]; lia.
Qed.

(** X15.  As long as the Clear button is not used, at most one follow-up is
    in flight.  From a session with no request in flight, through events
    that are not clicks on Clear, there is at most one follow-up request in
    flight, while it is in flight the chat input and the Send button are
    disabled, and with the analysis at most two requests are in flight in
    all. *)
Theorem one_followup_without_clear a0 es :
  pending a0 = [] ->
  forallb (fun e => negb (isClear e)) es = true ->
  (following (run a0 es) <= 1)%nat
  /\ (following (run a0 es) = 1%nat ->
      Ui.chatSendBtn_disabled (page (run a0 es)) = true
      /\ Ui.chatInput_disabled (page (run a0 es)) = true)
  /\ (outstanding (run a0 es) <= 2)%nat.
Proof.
  intros H0 C.
  assert (G : chatGuarded (run a0 es)).
  { apply run_chatGuarded; [exact C|]. left. unfold following. now rewrite H0. }
  assert (A : guarded (run a0 es)).
  { apply run_guard. left. unfold analysing. now rewrite H0. }
  split; [destruct G as [G|[G _]]; lia|]. split.
  - intros F. destruct G as [G|[_ G]]; [lia|exact G].
  - unfold outstanding. rewrite (length_filter_split isAnalyze).
    change (fun x : Pending => negb (isAnalyze x)) with isFollowUp.
    unfold guarded, analysing in A. unfold chatGuarded, following in G.
    destruct A as [A|[A _]]; destruct G as [G|[G _]]; lia.
Qed.

Lemma one_followup_without_clear_witness :
  pending start = []
  /\ forallb (fun e => negb (isClear e)) Cases.conversation = true
  /\ (outstanding (run start Cases.conversation) <= 2)%nat.
Proof.
  split; [reflexivity|]. split; [reflexivity|].
  exact (proj2 (proj2 (one_followup_without_clear start Cases.conversation
                         eq_refl eq_refl))).
Defined.

(* ================================================================== *)
(** * The key and the history *)
(* ================================================================== *)





(** X17.  Only the loading of the configuration sets the key.  An event
    that is not the end of a successful [loadConfig] leaves the API key of
    the state as it is: no click, no input, no reply and no failure changes
    or clears it. *)
Theorem key_changes_only_when_loaded a e :
  loadsConfig e = false ->
  State.apiKey (state (step a e)) = State.apiKey (state a).
Proof.
  intros C. destruct a as [s g q].
  destruct e; cbn [step]; handlers; cases; try reflexivity.
  discriminate C.
Qed.

Lemma key_changes_only_when_loaded_witness :
  loadsConfig ClickClear = false
  /\ State.apiKey (state (step Examples.analysed ClickClear))
     = State.apiKey (state Examples.analysed).
Proof.
  split; [reflexivity|].
  exact (key_changes_only_when_loaded Examples.analysed ClickClear eq_refl).
Defined.

(** X18.  The chat history only grows, until it is cleared.  An event that
    is not a click on Clear leaves the entries of the history in place and
    appends at most one entry; a click on Clear that is delivered empties
    it. *)
Theorem history_is_append_only a e :
  (isClear e = false ->
   exists more,
     State.chatHistory (state (step a e))
     = State.chatHistory (state a) ++ more
     /\ (List.length more <= 1)%nat)
  /\ (Ui.clearBtn_disabled (page a) = false ->
      State.chatHistory (state (step a ClickClear)) = []).
Proof.
  split.
  - intros C. destruct a as [s g q].
    destruct e; cbn [step]; handlers; try discriminate C; cases; cbn;
      try (exists []; rewrite app_nil_r; split; [reflexivity|cbn; lia]);
      eexists; (split; [reflexivity|cbn; lia]).
  - intros D. cbn [step]. now rewrite D.
Qed.

Lemma history_is_append_only_witness :
  isClear (ClickChatSend 1) = false
  /\ exists more,
       State.chatHistory (state (step Examples.analysed (ClickChatSend 1)))
       = State.chatHistory (state Examples.analysed) ++ more
       /\ (List.length more <= 1)%nat.
Proof.
  split; [reflexivity|].
  exact (proj1 (history_is_append_only Examples.analysed (ClickChatSend 1))
           eq_refl).
Defined.

(* ================================================================== *)
(** * The two calls *)
(* ================================================================== *)

(** X19.  When a follow-up is sent.  [onChatSend] sends exactly one request
    when the trimmed question is not empty, a usable key is loaded and a
    result is stored: the request is built from the trimmed question, the
    code of the state and that result, the chat input is emptied and the
    chat controls are disabled.  When the question is blank, or no usable
    key is loaded, or no result is stored, it changes nothing at all. *)
Theorem followup_is_sent_exactly_when now a :
  (forall q question apiKey result,
     trim (Ui.chatInput_value (page a)) = q :: question ->
     usableKey (State.getApiKey (state a)) = Some apiKey ->
     State.getAnalysisResult (state a) = Some result ->
     pending (onChatSend_start now a)
     = pending a
       ++ [PendingFollowUp (q :: question) (State.getCurrentCode (state a))
             result apiKey]
     /\ Ui.chatInput_value (page (onChatSend_start now a)) = []
     /\ Ui.chatSendBtn_disabled (page (onChatSend_start now a)) = true
     /\ Ui.chatInput_disabled (page (onChatSend_start now a)) = true)
  /\ (trim (Ui.chatInput_value (page a)) = []
      \/ usableKey (State.getApiKey (state a)) = None
      \/ State.getAnalysisResult (state a) = None ->
      onChatSend_start now a = a).
Proof.
  split.
  - intros q question apiKey result Hq Hk Hr.
    unfold onChatSend_start. rewrite Hq, Hk, Hr. repeat split.
  - intros H. unfold onChatSend_start.
    destruct (trim (Ui.chatInput_value (page a))) as [|q question];
      [reflexivity|].
    destruct (usableKey (State.getApiKey (state a))) as [apiKey|];
      [|reflexivity].
    destruct (State.getAnalysisResult (state a)) as [result|]; [|reflexivity].
    destruct H as [H|[H|H]]; discriminate.
Qed.

Lemma followup_is_sent_exactly_when_witness :
  trim (Ui.chatInput_value (page Examples.analysed)) = u "why?"
  /\ usableKey (State.getApiKey (state Examples.analysed))
     = Some Examples.someKey
  /\ Ui.chatInput_value (page (onChatSend_start 1 Examples.analysed)) = []
  /\ (trim (Ui.chatInput_value (page Examples.ready)) = [] ->
      onChatSend_start 1 Examples.ready = Examples.ready).
Proof.
  split; [reflexivity|]. split; [reflexivity|]. split.
  - exact (proj1 (proj2 (proj1 (followup_is_sent_exactly_when 1
             Examples.analysed) _ _ _ _ eq_refl eq_refl eq_refl))).
  - intros H.
    exact (proj2 (followup_is_sent_exactly_when 1 Examples.ready)
             (or_introl H)).
Defined.



(* ================================================================== *)
(** * The summary, the copy and the chat log *)
(* ================================================================== *)

(** X21.  The summary of a normalised result can always be shown.  For
    every result [normalizeAnalysis] returns, [renderSummary] of its
    [summary] does not throw, and the text it shows is never empty: it is
    the trimmed summary, or the fallback sentence when the summary is
    blank. *)
Theorem renderSummary_of_a_result rawText code r :
  normalizeAnalysis rawText code = Returns r ->
  exists s t,
    member r (u "summary") = JString s
    /\ Render.renderSummary (member r (u "summary")) = Returns t
    /\ t <> []
    /\ (trim s <> [] -> t = trim s)
    /\ (trim s = [] -> t = Render.msgNoSummary).
Proof.
  intros H. pose proof (normalizeAnalysis_returns_shaped _ _ _ H) as W.
  unfold wellShaped in W.
  apply andb_true_iff in W as [W _]. apply andb_true_iff in W as [_ M].
  destruct (member r (u "summary")) as [| | | |s| |] eqn:E; try discriminate.
  exists s. unfold Render.renderSummary.
  destruct (trim s) as [|c t] eqn:T.
  - exists Render.msgNoSummary. repeat split; try discriminate.
    + intros N. contradiction.
  - exists (c :: t). repeat split; try discriminate.
Qed.

Lemma renderSummary_of_a_result_witness :
  normalizeAnalysis Cases.wellFormed Examples.someCode
  = Returns Cases.wellFormedValue
  /\ exists s t,
       member Cases.wellFormedValue (u "summary") = JString s
       /\ Render.renderSummary (member Cases.wellFormedValue (u "summary"))
          = Returns t
       /\ t <> []
       /\ (trim s <> [] -> t = trim s)
       /\ (trim s = [] -> t = Render.msgNoSummary).
Proof.
  split; [reflexivity|].
  exact (renderSummary_of_a_result Cases.wellFormed Examples.someCode
           Cases.wellFormedValue eq_refl).
Defined.

(** X22.  What the Copy button copies.  From a session without a result,
    whatever happens, [onCopy] gives the clipboard exactly the
    [refactored_code] of the stored result, which is a text that is not
    empty; it calls the clipboard at all only when there is a stored result
    whose [refactored_code] is not the empty text, and it shows no error
    when the write succeeds or when nothing is copied. *)
Theorem copy_copies_the_refactored_code a0 es :
  State.analysisResult (state a0) = None ->
  (forall c, Render.copied (run a0 es) = Some c ->
     exists r t,
       State.analysisResult (state (run a0 es)) = Some r
       /\ member r (u "refactored_code") = JString t
       /\ c = JString t /\ t <> [])
  /\ (Render.copied (run a0 es) = None ->
      State.analysisResult (state (run a0 es)) = None
      \/ exists r, State.analysisResult (state (run a0 es)) = Some r
                   /\ member r (u "refactored_code") = JString [])
  /\ Render.onCopy true (run a0 es) = run a0 es
  /\ (Render.copied (run a0 es) = None ->
      Render.onCopy false (run a0 es) = run a0 es).
Proof.
  intros H0.
  assert (G : shaped (run a0 es)).
  { apply run_shaped. unfold shaped. now rewrite H0. }
  unfold shaped in G. unfold Render.copied, Render.onCopy, Render.copied.
  unfold State.getAnalysisResult.
  destruct (State.analysisResult (state (run a0 es))) as [r|].
  2:{ repeat split; try discriminate. intros _. now left. }
  unfold wellShaped in G.
  apply andb_true_iff in G as [G R]. apply andb_true_iff in G as [G _].
  apply andb_true_iff in G as [O _].
  assert (N : isNullish r = false) by (destruct r; simpl in *; congruence).
  cbn [optionalChain]. rewrite N.
  destruct (member r (u "refactored_code")) as [| | | |t| |] eqn:E;
    try discriminate.
  destruct t as [|c t]; cbn [Truth.truthy].
  - repeat split; try discriminate. intros _. right. now exists r.
  - repeat split; try discriminate.
    intros x H. injection H as <-. exists r, (c :: t).
    repeat split; try assumption; discriminate.
Qed.

Lemma copy_copies_the_refactored_code_witness :
  State.analysisResult (state start) = None
  /\ Render.onCopy true (run start Cases.conversation)
     = run start Cases.conversation.
Proof.
  split; [reflexivity|].
  exact (proj1 (proj2 (proj2 (copy_copies_the_refactored_code start
                                Cases.conversation eq_refl)))).
Defined.

Lemma join_app sep (A B : list jsstring) :
  A <> [] -> B <> [] ->
  ChatLog.join sep (A ++ B) = ChatLog.join sep A ++ sep ++ ChatLog.join sep B.
Proof.
  intros HA HB. induction A as [|x A IH]; [contradiction|].
  destruct A as [|y A].
  - destruct B as [|b B]; [contradiction|]. reflexivity.
  - change (ChatLog.join sep ((x :: y :: A) ++ B))
      with (x ++ sep ++ ChatLog.join sep ((y :: A) ++ B)).
    rewrite IH by discriminate.
    change (ChatLog.join sep (x :: y :: A))
      with (x ++ sep ++ ChatLog.join sep (y :: A)).
    now rewrite <- !app_assoc.
Qed.

Section ChatLogFacts.

Variable toLocaleString : N -> jsstring.
Variable toLocaleTimeString : N -> jsstring.

(** X23.  The chat log is empty exactly when there is no message.
    Whatever the locale and the time, [getChatLog] returns the empty text
    exactly when the chat history is empty; so [onExportChat], which tests
    the log, shows its message exactly then and otherwise leaves the session
    as it is. *)
Theorem chat_log_is_empty_exactly_when now a :
  (ChatLog.getChatLog toLocaleString toLocaleTimeString now (state a) = []
   <-> State.chatHistory (state a) = [])
  /\ (ChatLog.getChatLog toLocaleString toLocaleTimeString now (state a) = [] ->
      onExportChat a = onPage (Ui.showError (Text msgNoChat)) a)
  /\ (ChatLog.getChatLog toLocaleString toLocaleTimeString now (state a) <> []
      -> onExportChat a = a).
Proof.
  unfold ChatLog.getChatLog, onExportChat, State.chatLogIsEmpty.
  destruct (State.chatHistory (state a)) as [|e h].
  - split; [split; reflexivity|]. split; [reflexivity|].
    intros H. contradiction.
  - assert (N : ChatLog.join [10]
                  (ChatLog.header toLocaleString now
                   ++ flat_map (ChatLog.entryLines toLocaleTimeString) (e :: h))
                <> []).
    { unfold ChatLog.header. cbn [app ChatLog.join].
      unfold ChatLog.title. cbn. discriminate. }
    split; [split; [intros H; contradiction|discriminate]|].
    split; [intros H; contradiction|reflexivity].
Qed.

(** X24.  A message adds its block at the end of the chat log.  At the same
    export time, the log after [appendChat] is the log before (or the
    header alone, for the first message), then a line with the time of the
    message and its author, [You] for the role [user] and [Gemini] for any
    other, then the text of the message as it is, then an empty line. *)
Theorem chat_log_grows_by_a_block now role text time s :
  ChatLog.getChatLog toLocaleString toLocaleTimeString now
    (State.appendChat role text time s)
  = (match State.chatHistory s with
     | [] => ChatLog.join [10] (ChatLog.header toLocaleString now)
     | _ :: _ => ChatLog.getChatLog toLocaleString toLocaleTimeString now s
     end)
    ++ [10]
    ++ (u "[" ++ toLocaleTimeString time ++ u "] "
        ++ (if Str.eqb role (u "user") then u "You" else u "Gemini") ++ u ":")
    ++ [10] ++ text ++ [10].
Proof.
  unfold ChatLog.getChatLog, State.appendChat. cbn [State.chatHistory].
  assert (B : forall h,
    ChatLog.join [10]
      ((ChatLog.header toLocaleString now
        ++ flat_map (ChatLog.entryLines toLocaleTimeString) h)
       ++ ChatLog.entryLines toLocaleTimeString
            {| State.role := role; State.text := text;
               State.timestamp := time |})
    = ChatLog.join [10]
        (ChatLog.header toLocaleString now
         ++ flat_map (ChatLog.entryLines toLocaleTimeString) h)
      ++ [10]
      ++ (u "[" ++ toLocaleTimeString time ++ u "] "
          ++ (if Str.eqb role (u "user") then u "You" else u "Gemini")
          ++ u ":")
      ++ [10] ++ text ++ [10]).
  { intros h. rewrite join_app; try discriminate.
    unfold ChatLog.entryLines. cbn [State.role State.text State.timestamp].
    cbn [ChatLog.join]. now rewrite app_nil_r. }
  assert (M : forall (l : list State.ChatEntry) x (F : list State.ChatEntry -> jsstring),
            match l ++ [x] with [] => [] | _ :: _ => F (l ++ [x]) end
            = F (l ++ [x])).
  { intros [|y l] x F; reflexivity. }
  rewrite (M (State.chatHistory s) _
             (fun l => ChatLog.join [10]
                (ChatLog.header toLocaleString now
                 ++ flat_map (ChatLog.entryLines toLocaleTimeString) l))).
  rewrite flat_map_app.
  change (flat_map (ChatLog.entryLines toLocaleTimeString)
            [{| State.role := role; State.text := text;
                State.timestamp := time |}])
    with (ChatLog.entryLines toLocaleTimeString
            {| State.role := role; State.text := text;
               State.timestamp := time |} ++ []).
  rewrite app_nil_r, app_assoc, B.
  destruct (State.chatHistory s) as [|e h]; [|reflexivity].
  change (flat_map (ChatLog.entryLines toLocaleTimeString) []) with (@nil jsstring).
  now rewrite app_nil_r.
Qed.

End ChatLogFacts.

Lemma chat_log_is_empty_exactly_when_witness :
  State.chatHistory (state start) = []
  /\ ChatLog.getChatLog Cases.clock Cases.clock 7 (state start) = []
  /\ onExportChat start = onPage (Ui.showError (Text msgNoChat)) start.
Proof.
  split; [reflexivity|]. split; [reflexivity|].
  exact (proj1 (proj2 (chat_log_is_empty_exactly_when Cases.clock Cases.clock
                         7 start)) eq_refl).
Defined.

(* ================================================================== *)
(** * From the configuration to the request *)
(* ================================================================== *)

Lemma loadConfig_text_is_not_empty fetch :
  Config.loadConfig fetch <> Returns (JString []).
Proof.
  unfold Config.loadConfig. intros H.
  destruct (fetch (u "../config.json")) as [name|status json|status name];
    [discriminate| |discriminate].
  destruct (negb (ok status)); [discriminate|].
  destruct json as [config|]; [|discriminate].
  cbv zeta in H.
  destruct (Truth.truthy (Config.keyOf config)) eqn:Y; cbn [negb orb] in H;
    [|discriminate].
  destruct (Truth.isText Config.placeholder1 (Config.keyOf config)
            || Truth.isText Config.placeholder2 (Config.keyOf config));
    [discriminate|].
  injection H as E. rewrite E in Y. discriminate.
Qed.

(** X25.  A key that [loadConfig] accepts is a key [onAnalyze] uses.  When
    [loadConfig] returns a text, [init] stores it, and a click on an enabled
    Analyze button then sends one analysis request, for the code and the
    language of the state, whose header [x-goog-api-key] is that text.  When
    [loadConfig] fails, [init] shows the message of the failure and leaves
    the state as it is. *)
Theorem accepted_key_is_used fetch a :
  (forall key,
     Config.loadConfig fetch = Returns (JString key) ->
     Ui.analyzeBtn_disabled (page a) = false ->
     pending (run a [ConfigLoaded (Returns key); ClickAnalyze])
     = pending a
       ++ [PendingAnalyze (State.currentCode (state a))
             (State.currentLanguage (state a)) key]
     /\ In (u "x-goog-api-key", key)
          (headers (requestOf
             (PendingAnalyze (State.currentCode (state a))
                (State.currentLanguage (state a)) key))))
  /\ (forall err,
        Config.loadConfig fetch = Throws err ->
        state (step a (ConfigLoaded (Throws err))) = state a
        /\ pending (step a (ConfigLoaded (Throws err))) = pending a
        /\ Ui.errorBanner_hidden (page (step a (ConfigLoaded (Throws err))))
           = false
        /\ Ui.errorMessage (page (step a (ConfigLoaded (Throws err))))
           = message err).
Proof.
  split.
  - intros key H D.
    assert (K : key <> []).
    { intros ->. exact (loadConfig_text_is_not_empty fetch H). }
    destruct key as [|c key]; [contradiction|].
    destruct a as [s g q]. cbn [page] in D.
    unfold run. cbn [fold_left step init onState page state].
    rewrite D. split; [reflexivity|]. right. now left.
  - intros err _. destruct a as [s g q]. repeat split.
Qed.

Lemma accepted_key_is_used_witness :
  Config.loadConfig (Cases.serves (JString Examples.someKey))
  = Returns (JString Examples.someKey)
  /\ Ui.analyzeBtn_disabled (page Examples.analysed) = false
  /\ pending (run Examples.analysed
                [ConfigLoaded (Returns Examples.someKey); ClickAnalyze])
     = pending Examples.analysed
       ++ [PendingAnalyze (State.currentCode (state Examples.analysed))
             (State.currentLanguage (state Examples.analysed))
             Examples.someKey].
Proof.
  split; [reflexivity|]. split; [reflexivity|].
  exact (proj1 (proj1 (accepted_key_is_used
            (Cases.serves (JString Examples.someKey)) Examples.analysed)
            Examples.someKey eq_refl eq_refl)).
Defined.

(** X26.  Clear does not cancel a follow-up in flight.  When the Clear
    button is enabled and a follow-up request is in flight, a click on Clear
    empties the history and the result but leaves the request in flight;
    when its reply then arrives, the reply is appended to the emptied
    history and shown in the emptied chat log, as the only entry. *)
Theorem clear_does_not_cancel_a_followup a i question originalCode result
    apiKey fetched rendered now reply :
  nth_error (pending a) i
  = Some (PendingFollowUp question originalCode result apiKey) ->
  Ui.clearBtn_disabled (page a) = false ->
  sendFollowUp (fun _ => fetched) question originalCode result apiKey
  = Returns reply ->
  pending (step a ClickClear) = pending a
  /\ State.chatHistory (state (run a [ClickClear; Settle i fetched rendered now]))
     = [{| State.role := u "gemini"; State.text := reply;
           State.timestamp := now |}]
  /\ Ui.chatLog (page (run a [ClickClear; Settle i fetched rendered now]))
     = [(u "gemini", reply)]
  /\ State.analysisResult
       (state (run a [ClickClear; Settle i fetched rendered now])) = None
  /\ pending (run a [ClickClear; Settle i fetched rendered now])
     = remove_nth i (pending a).
Proof.
  intros Hn D Hs. destruct a as [s g q]. cbn [page pending] in *.
  unfold run. cbn [fold_left step page]. rewrite D.
  split; [reflexivity|].
  unfold onClear, settle. cbn [pending onPage onState state page].
  rewrite Hn. unfold onChatSend_settle. rewrite Hs. repeat split.
Qed.

Lemma clear_does_not_cancel_a_followup_witness :
  nth_error (pending Examples.sending) 0
  = Some (PendingFollowUp (u "why?") Examples.someCode
            (JObject [(u "smells", JArray [] []); (u "summary", JString []);
                      (u "refactored_code", JString Examples.someCode)])
            Examples.someKey)
  /\ Ui.clearBtn_disabled (page Examples.sending) = false
  /\ State.chatHistory
       (state (run Examples.sending
                 [ClickClear;
                  Settle 0 (Response 200 (Some (envelope (JString (u "because")))))
                    None 2]))
     = [{| State.role := u "gemini"; State.text := u "because";
           State.timestamp := 2 |}].
Proof.
  split; [reflexivity|]. split; [reflexivity|].
  exact (proj1 (proj2 (clear_does_not_cancel_a_followup Examples.sending 0
            _ _ _ _ (Response 200 (Some (envelope (JString (u "because")))))
            None 2 (u "because") eq_refl eq_refl eq_refl))).
Defined.

Lemma normalizeAnalysis_outcomes_witness :
  JSON.parse (stripFences (u "5")) = Some (JNumber (u "5"))
  /\ normalizeAnalysis (u "5") Examples.someCode = Throws TypeError.
Proof.
  split; [reflexivity|].
  apply (proj2 (proj1 (proj2 (normalizeAnalysis_outcomes (u "5")
                                Examples.someCode)))).
  exists (JNumber (u "5")). split; reflexivity.
Defined.
